(** * Feetech/SCS serial packet scripts: a shallow embedding

    The repository is a collection of independent Python troubleshooting
    scripts that talk to Feetech STS3215 servos over a serial line.  This
    development embeds the parts of those scripts that carry logic:

    - the packet builders and reply recognisers of
      [custom_configs/direct_motor_ping.py],
      [custom_configs/follower_arm_controller.py],
      [custom_configs/leader_protocol_test.py] and
      [custom_scripts/direct_reset_follower_motors.py];
    - the teleoperation loops of
      [custom_scripts/so101_direct_teleoperation.py] and
      [custom_scripts/so101_teleoperation.py];
    - the layout of [custom_scripts/move_motors_percent.py], which Python
      refuses to compile.

    Python integers are [Z]; [%] is [Z.modulo] (both round towards minus
    infinity for a positive modulus), [&], [~], [>>], [<<] are [Z.land],
    [Z.lnot], [Z.shiftr], [Z.shiftl].  A [bytearray] is a [list Z] whose
    construction fails with [ValueError] unless every element is in
    [range(256)].  Python floats are IEEE 754 binary64 values, modelled with
    the Standard Library's executable [SpecFloat]. *)

From Stdlib Require Import ZArith List Bool Lia.
From Stdlib Require Import QArith Qminmax Qabs Qpower Lqa.
From Stdlib Require Import SpecFloat.
Import ListNotations.

Local Open Scope Z_scope.

(** ** Python primitives *)

Module Py.

(** The exceptions of the model.  [SdkError] stands for any [Exception]
    raised inside the vendor SDK.  [IndentationError] is the
    [SyntaxError] Python raises when it compiles a module, with the line
    it reports.  [Blocked] is not a Python exception: it marks a thread
    that cannot go on because another thread holds the lock; no handler
    catches it.  [KeyboardInterrupt] and [SystemExit], which end the
    process, are not modelled. *)
Inductive exn : Type :=
| ValueError
| IndexError
| AttributeError
| OverflowError
| IndentationError (lineno : Z)
| SdkError (code : Z)
| Blocked.

Definition is_exception (e : exn) : bool :=
  match e with
  | Blocked => false
  | _ => true
  end.

(** The result of running a statement: a value, or a raised exception. *)
Inductive outcome (A : Type) : Type :=
| Ok (a : A)
| Raised (e : exn).
Arguments Ok {A} a.
Arguments Raised {A} e.

(** Sequencing of pure computations that may raise. *)
Definition obind {A B} (o : outcome A) (f : A -> outcome B) : outcome B :=
  match o with
  | Ok a => f a
  | Raised e => Raised e
  end.

(** Stateful, fallible code over a state [S]: the state changes made
    before an exception is raised persist, as in Python. *)
Definition M (S A : Type) : Type := S -> outcome A * S.

Definition ret {S A} (a : A) : M S A := fun s => (Ok a, s).

Definition bind {S A B} (m : M S A) (f : A -> M S B) : M S B :=
  fun s =>
    match m s with
    | (Ok a, s') => f a s'
    | (Raised e, s') => (Raised e, s')
    end.

Definition raise {S A} (e : exn) : M S A := fun s => (Raised e, s).

(** [try: body except Exception: handler] *)
Definition try_except {S A} (body : M S A) (handler : exn -> M S A) : M S A :=
  fun s =>
    match body s with
    | (Ok a, s') => (Ok a, s')
    | (Raised e, s') => if is_exception e then handler e s' else (Raised e, s')
    end.

Definition get {S} : M S S := fun s => (Ok s, s).
Definition modify {S} (f : S -> S) : M S unit := fun s => (Ok tt, f s).

(** Lifting of a pure computation that may raise. *)
Definition lift {S A} (o : outcome A) : M S A := fun s => (o, s).

(** [for x in xs: body x] *)
Fixpoint for_each {S A} (xs : list A) (body : A -> M S unit) : M S unit :=
  match xs with
  | [] => ret tt
  | x :: rest => bind (body x) (fun _ => for_each rest body)
  end.

(** [range(a, b)] for [a <= b], as the list of its elements. *)
Definition range (a b : Z) : list Z :=
  map (fun i => a + Z.of_nat i) (seq 0 (Z.to_nat (b - a))).

Definition is_byte (b : Z) : bool := (0 <=? b) && (b <? 256).

(** [bytearray([...])]: raises [ValueError] unless every element is in
    [range(256)]. *)
Definition bytearray (l : list Z) : outcome (list Z) :=
  if forallb is_byte l then Ok l else Raised ValueError.

(** [sum(l)] and the accumulation loop [for b in l: checksum += b]. *)
Definition sum (l : list Z) : Z := fold_left Z.add l 0.

(** The slice [l[start:-stop]] for [start >= 0] and [stop > 0]: the
    elements at the indices [start <= i < len(l) - stop]. *)
Definition slice_to_end_minus (start stop : nat) (l : list Z) : list Z :=
  firstn (length l - stop - start) (skipn start l).

(** The slice [l[start:]]. *)
Definition slice_from (start : nat) (l : list Z) : list Z := skipn start l.

(** [l[-1] = v] on a non-empty bytearray. *)
Definition set_last (l : list Z) (v : Z) : outcome (list Z) :=
  match l with
  | [] => Raised IndexError
  | _ => if is_byte v then Ok (removelast l ++ [v]) else Raised ValueError
  end.

(** [l.append(v)] on a bytearray. *)
Definition append (l : list Z) (v : Z) : outcome (list Z) :=
  if is_byte v then Ok (l ++ [v]) else Raised ValueError.

(** [[f(x) for x in l]]: the elements are computed in order, and the
    first one that raises ends the comprehension. *)
Fixpoint comprehension {A B} (f : A -> outcome B) (l : list A) : outcome (list B) :=
  match l with
  | [] => Ok []
  | x :: rest =>
      obind (f x) (fun y =>
      obind (comprehension f rest) (fun ys => Ok (y :: ys)))
  end.

(** [l[i]] for a non-negative index known to be in range by a preceding
    [len] test; out of range the default is never used by the callers. *)
Definition item (l : list Z) (i : nat) : Z := nth i l 0.

(** [l[i] = v] on a Python list, for a non-negative index [i]. *)
Fixpoint set_item (l : list Z) (i : nat) (v : Z) : outcome (list Z) :=
  match l, i with
  | [], _ => Raised IndexError
  | _ :: rest, O => Ok (v :: rest)
  | x :: rest, S j => obind (set_item rest j v) (fun rest' => Ok (x :: rest'))
  end.

(** [max(0, min(4095, x))] and friends. *)
Definition max (a b : Z) : Z := Z.max a b.
Definition min (a b : Z) : Z := Z.min a b.

End Py.

Declare Scope py_scope.
Delimit Scope py_scope with py.
Notation "x <- m ;; k" := (Py.bind m (fun x => k))
  (at level 61, m at next level, right associativity) : py_scope.
Notation "m ;;; k" := (Py.bind m (fun _ => k))
  (at level 61, right associativity) : py_scope.

Local Open Scope py_scope.

(** ** The serial port (pyserial), with a scripted environment

    [written] is everything the script has sent, oldest packet first.
    [in_buffer] is the receive buffer.  [arrivals] scripts the device: each
    [time.sleep] that follows lets the next chunk of bytes (possibly empty:
    the device stays silent) arrive in the receive buffer. *)

Record Serial : Type := mkSerial {
  written : list (list Z);
  in_buffer : list Z;
  arrivals : list (list Z)
}.

Module SerialPort.

Definition write (packet : list Z) : Py.M Serial unit :=
  Py.modify (fun s => mkSerial (written s ++ [packet]) (in_buffer s) (arrivals s)).

Definition sleep : Py.M Serial unit :=
  Py.modify (fun s =>
    mkSerial (written s) (in_buffer s ++ hd [] (arrivals s)) (tl (arrivals s))).

Definition in_waiting : Py.M Serial Z :=
  fun s => (Py.Ok (Z.of_nat (length (in_buffer s))), s).

Definition read (n : Z) : Py.M Serial (list Z) :=
  fun s =>
    (Py.Ok (firstn (Z.to_nat n) (in_buffer s)),
     mkSerial (written s) (skipn (Z.to_nat n) (in_buffer s)) (arrivals s)).

(** The bytes the script will see in the receive buffer after its next
    [time.sleep]. *)
Definition received (s : Serial) : list Z := in_buffer s ++ hd [] (arrivals s).

End SerialPort.

(** The reply test that the scripts repeat verbatim:
    [len(response) >= n and response[0] == 0xFF and response[1] == 0xFF
     and response[2] == motor_id]. *)
Definition header_and_id_ok (n : Z) (motor_id : Z) (response : list Z) : bool :=
  (n <=? Z.of_nat (length response))
  && (Py.item response 0 =? 255)
  && (Py.item response 1 =? 255)
  && (Py.item response 2 =? motor_id).

(** ** custom_configs/direct_motor_ping.py *)

Module DirectMotorPing.

(** Lines 18-19. *)
Definition ping_packet (motor_id : Z) : Py.outcome (list Z) :=
  let checksum := 255 - ((motor_id + 2 + 1) mod 256) in
  Py.bytearray [255; 255; motor_id; 2; 1; checksum].

(** Body of the loop of [test_motor_ping] (lines 17-34); the result is
    [true] when the script prints "SUCCESS! Valid ping response". *)
Definition ping_one (motor_id : Z) : Py.M Serial bool :=
  ping_packet <- Py.lift (ping_packet motor_id) ;;
  SerialPort.write ping_packet ;;;
  SerialPort.sleep ;;;
  n <- SerialPort.in_waiting ;;
  if n =? 0 then Py.ret false
  else
    response <- SerialPort.read n ;;
    Py.ret (header_and_id_ok 6 motor_id response).

(** [test_motor_ping] on an opened port: every exception ends the loop
    and is printed by the handler. *)
Definition test_motor_ping : Py.M Serial unit :=
  Py.try_except
    (Py.for_each (Py.range 1 7)
       (fun motor_id => _ <- ping_one motor_id ;; Py.ret tt))
    (fun _ => Py.ret tt).

End DirectMotorPing.

(** ** custom_configs/follower_arm_controller.py *)

Module FollowerArmController.

Record t : Type := mk {
  connected : bool;
  ser : Serial;
  rest_positions : list Z;
  current_positions : list Z
}.

(** [__init__], with the port already opened by [connect]. *)
Definition init (port : Serial) : t :=
  mk true port [3014; 890; 2954; 1084; 74; 2065] [3014; 890; 2954; 1084; 74; 2065].

Definition on_ser {A} (m : Py.M Serial A) : Py.M t A :=
  fun c =>
    let (r, s') := m (ser c) in
    (r, mk (connected c) s' (rest_positions c) (current_positions c)).

(** Line 118: [position = max(0, min(4095, position))]. *)
Definition clamp_position (position : Z) : Z :=
  Py.max 0 (Py.min 4095 position).

(** Lines 121-125: the packet is built without its checksum byte, the
    checksum is accumulated over [write_packet[2:-1]] and appended. *)
Definition write_packet (motor_id position : Z) : Py.outcome (list Z) :=
  Py.obind
    (Py.bytearray [255; 255; motor_id; 5; 3; 42;
                   Z.land position 255; Z.land (Z.shiftr position 8) 255])
    (fun write_packet =>
       let checksum := Py.sum (Py.slice_to_end_minus 2 1 write_packet) in
       Py.append write_packet (Z.land (Z.lnot checksum) 255)).

Definition store_position (motor_id position : Z) : Py.M t unit :=
  fun c =>
    match Py.set_item (current_positions c) (Z.to_nat (motor_id - 1)) position with
    | Py.Ok l => (Py.Ok tt, mk (connected c) (ser c) (rest_positions c) l)
    | Py.Raised e => (Py.Raised e, c)
    end.

(** [set_position] (lines 107-139). *)
Definition set_position (motor_id position : Z) : Py.M t bool :=
  c <- Py.get ;;
  if negb (connected c) then Py.ret false
  else if (motor_id <? 1) || (motor_id >? 6) then Py.ret false
  else
    let position := clamp_position position in
    write_packet <- Py.lift (write_packet motor_id position) ;;
    on_ser (SerialPort.write write_packet) ;;;
    on_ser SerialPort.sleep ;;;
    n <- on_ser SerialPort.in_waiting ;;
    if n =? 0 then Py.ret false
    else
      response <- on_ser (SerialPort.read n) ;;
      if header_and_id_ok 6 motor_id response
      then store_position motor_id position ;;; Py.ret true
      else Py.ret false.

(** [return_to_rest] (lines 197-208). *)
Fixpoint return_to_rest_loop (ids : list Z) (all_success : bool) : Py.M t bool :=
  match ids with
  | [] => Py.ret all_success
  | motor_id :: rest =>
      c <- Py.get ;;
      let rest_position := Py.item (rest_positions c) (Z.to_nat (motor_id - 1)) in
      success <- set_position motor_id rest_position ;;
      return_to_rest_loop rest (all_success && success)
  end.

Definition return_to_rest : Py.M t bool :=
  return_to_rest_loop (Py.range 1 7) true.

End FollowerArmController.

(** ** custom_scripts/direct_reset_follower_motors.py *)

Module DirectReset.

Definition ADDR_GOAL_POSITION : Z := 42.
Definition ADDR_PRESENT_POSITION : Z := 56.

(** The reply idiom shared by [write_byte] and [write_word]:
    [(True, response)], [(False, response)] or [(False, None)]. *)
Definition await_status (motor_id : Z) : Py.M Serial (bool * option (list Z)) :=
  SerialPort.sleep ;;;
  n <- SerialPort.in_waiting ;;
  if n =? 0 then Py.ret (false, None)
  else
    response <- SerialPort.read n ;;
    Py.ret (header_and_id_ok 6 motor_id response, Some response).

(** Lines 70-71. *)
Definition write_byte_packet (motor_id address value : Z) : Py.outcome (list Z) :=
  let checksum := 255 - ((motor_id + 4 + 3 + address + value) mod 256) in
  Py.bytearray [255; 255; motor_id; 4; 3; address; value; checksum].

Definition write_byte (motor_id address value : Z)
  : Py.M Serial (bool * option (list Z)) :=
  packet <- Py.lift (write_byte_packet motor_id address value) ;;
  SerialPort.write packet ;;;
  await_status motor_id.

(** Lines 87-93. *)
Definition write_word_packet (motor_id address value : Z) : Py.outcome (list Z) :=
  let value_l := Z.land value 255 in
  let value_h := Z.land (Z.shiftr value 8) 255 in
  let checksum :=
    255 - ((motor_id + 5 + 3 + address + value_l + value_h) mod 256) in
  Py.bytearray [255; 255; motor_id; 5; 3; address; value_l; value_h; checksum].

Definition write_word (motor_id address value : Z)
  : Py.M Serial (bool * option (list Z)) :=
  packet <- Py.lift (write_word_packet motor_id address value) ;;
  SerialPort.write packet ;;;
  await_status motor_id.

(** Lines 110-111. *)
Definition read_word_packet (motor_id address length : Z) : Py.outcome (list Z) :=
  let checksum := 255 - ((motor_id + 4 + 2 + address + length) mod 256) in
  Py.bytearray [255; 255; motor_id; 4; 2; address; length; checksum].

(** Lines 118-125: what [read_word] makes of a response. *)
Definition parse_word (motor_id : Z) (response : list Z) : Z * bool :=
  if header_and_id_ok 8 motor_id response then
    let value_l := Py.item response 5 in
    let value_h := Py.item response 6 in
    let value := Z.shiftl value_h 8 + value_l in
    (value, true)
  else (0, false).

Definition read_word (motor_id address length : Z)
  : Py.M Serial (Z * bool * option (list Z)) :=
  packet <- Py.lift (read_word_packet motor_id address length) ;;
  SerialPort.write packet ;;;
  SerialPort.sleep ;;;
  n <- SerialPort.in_waiting ;;
  if n =? 0 then Py.ret (0, false, None)
  else
    response <- SerialPort.read n ;;
    Py.ret (parse_word motor_id response, Some response).

(** Lines 133-134. *)
Definition ping_packet (motor_id : Z) : Py.outcome (list Z) :=
  let checksum := 255 - ((motor_id + 2 + 1) mod 256) in
  Py.bytearray [255; 255; motor_id; 2; 1; checksum].

(** [ping_motor] (lines 128-151). *)
Definition ping_motor (motor_id : Z) : Py.M Serial bool :=
  packet <- Py.lift (ping_packet motor_id) ;;
  SerialPort.write packet ;;;
  SerialPort.sleep ;;;
  n <- SerialPort.in_waiting ;;
  if n =? 0 then Py.ret false
  else
    response <- SerialPort.read n ;;
    Py.ret (header_and_id_ok 6 motor_id response).

End DirectReset.

(** ** custom_configs/leader_protocol_test.py *)

Module LeaderProtocolTest.

(** Lines 30-49: the ping packet of each of the three protocol guesses. *)
Definition ping_packet (protocol_idx motor_id : Z) : Py.outcome (list Z) :=
  if protocol_idx =? 0 then
    let checksum := 255 - ((motor_id + 2 + 1) mod 256) in
    Py.bytearray [255; 255; motor_id; 2; 1; checksum]
  else if protocol_idx =? 1 then
    Py.obind (Py.bytearray [255; 255; motor_id; 2; 1; 0])
      (fun ping_packet =>
         let checksum := Py.sum (Py.slice_to_end_minus 2 1 ping_packet) in
         Py.set_last ping_packet (Z.land (Z.lnot checksum) 255))
  else
    Py.obind (Py.bytearray [255; 255; 253; 0; motor_id; 3; 0; 1])
      (fun ping_packet =>
         Py.obind (Py.append ping_packet 0)
           (fun ping_packet => Py.append ping_packet 0)).

(** Lines 51-63; the result is [true] when the script prints
    "SUCCESS! Got response". *)
Definition ping_one (protocol_idx motor_id : Z) : Py.M Serial bool :=
  ping_packet <- Py.lift (ping_packet protocol_idx motor_id) ;;
  SerialPort.write ping_packet ;;;
  SerialPort.sleep ;;;
  n <- SerialPort.in_waiting ;;
  if n =? 0 then Py.ret false
  else
    response <- SerialPort.read n ;;
    Py.ret (0 <? Z.of_nat (length response)).

(** [test_protocol] on an opened port. *)
Definition test_protocol : Py.M Serial bool :=
  Py.try_except
    (Py.for_each [0; 1; 2]
       (fun protocol_idx =>
          Py.for_each (Py.range 1 7)
            (fun motor_id => _ <- ping_one protocol_idx motor_id ;; Py.ret tt)) ;;;
     Py.ret true)
    (fun _ => Py.ret false).

End LeaderProtocolTest.

(** ** Python floats: IEEE 754 binary64, computed with [SpecFloat] *)

Module Float64.

Definition prec : Z := 53.
Definition emax : Z := 1024.

Definition float : Type := spec_float.

Definition mul : float -> float -> float := SFmul prec emax.
Definition add : float -> float -> float := SFadd prec emax.
Definition sub : float -> float -> float := SFsub prec emax.
Definition div : float -> float -> float := SFdiv prec emax.
Definition abs : float -> float := SFabs.
Definition ltb : float -> float -> bool := SFltb.
Definition leb : float -> float -> bool := SFleb.

(** The binary64 value nearest to the integer [z], ties to even: exact
    for [|z| < 2^53], an infinity from [2^1024 - 2^970] on. *)
Definition normalize (z : Z) : float := binary_normalize prec emax z 0 false.

(** [float(z)], and the conversion of an [int] operand of mixed
    arithmetic: the nearest binary64 value, and [OverflowError] ("int too
    large to convert to float") when that is beyond the largest float. *)
Definition of_int (z : Z) : Py.outcome float :=
  match normalize z with
  | S754_infinity _ => Py.Raised Py.OverflowError
  | f => Py.Ok f
  end.

(** The literal [0.2]: 0x3FC999999999999A. *)
Definition lit_0_2 : float := S754_finite false 7205759403792794 (-55).

(** The literal [0.3]: 0x3FD3333333333333. *)
Definition lit_0_3 : float := S754_finite false 5404319552844595 (-54).

(** [int(x)]: truncation towards zero; [OverflowError] on an infinity,
    [ValueError] on NaN. *)
Definition to_int (x : float) : Py.outcome Z :=
  match x with
  | S754_zero _ => Py.Ok 0
  | S754_finite s m e =>
      let magnitude :=
        if 0 <=? e then Z.pos m * 2 ^ e else Z.pos m / 2 ^ (- e) in
      Py.Ok (if s then - magnitude else magnitude)
  | S754_infinity _ => Py.Raised Py.OverflowError
  | S754_nan => Py.Raised Py.ValueError
  end.

(** The exact rational value of a finite float. *)
Definition to_Q (x : float) : Q :=
  match x with
  | S754_finite s m e =>
      let magnitude :=
        if 0 <=? e then inject_Z (Z.pos m * 2 ^ e)
        else Qmake (Z.pos m) (Z.to_pos (2 ^ (- e))) in
      if s then Qopp magnitude else magnitude
  | _ => 0%Q
  end.

(** A zero, or a finite float whose exponent the format allows: every
    binary64 number, and no infinity or NaN. *)
Definition in_range (x : float) : bool :=
  match x with
  | S754_zero _ => true
  | S754_finite _ _ e => e <=? emax - prec
  | _ => false
  end.

(** The unit roundoff [2^-53], half the relative spacing of the floats,
    and [2^-1075], half the smallest positive float. *)
Definition unit_roundoff : Q := 1 # 2 ^ 53.
Definition eta : Q := 1 # 2 ^ 1075.

End Float64.

(** A Python number held in a position list: the SDK returns [int]s, the
    smoothing produces [float]s. *)
Inductive num : Type :=
| Int (z : Z)
| Flt (f : Float64.float).

(** The operand of a float operation: an [int] is converted, which
    raises [OverflowError] when it is too large. *)
Definition to_float (x : num) : Py.outcome Float64.float :=
  match x with
  | Int z => Float64.of_int z
  | Flt f => Py.Ok f
  end.

(** [int(x)] *)
Definition to_int (x : num) : Py.outcome Z :=
  match x with
  | Int z => Py.Ok z
  | Flt f => Float64.to_int f
  end.

(** The smoothing expression of both teleoperation scripts,
    [alpha * current + (1 - alpha) * smoothed], over an arithmetic given by
    its operations. *)
Definition ema_expr {T : Type} (mul add sub : T -> T -> T) (one : T)
    (alpha current smoothed : T) : T :=
  add (mul alpha current) (mul (sub one alpha) smoothed).

(** The expression as Python evaluates it: [alpha] is a float, so both
    operands are converted to binary64, [current] first, and every
    operation rounds; an operand too large for a float raises
    [OverflowError].  The literal [1] converts to [1.0]. *)
Definition ema (alpha : Float64.float) (current smoothed : num) : Py.outcome num :=
  Py.obind (to_float current) (fun c =>
  Py.obind (to_float smoothed) (fun s =>
  Py.Ok (Flt (ema_expr Float64.mul Float64.add Float64.sub (Float64.normalize 1)
                alpha c s)))).

(** The same expression in exact rational arithmetic. *)
Definition ema_exact (alpha current smoothed : Q) : Q :=
  ema_expr Qmult Qplus Qminus 1%Q alpha current smoothed.

(** [[f(a, b) for a, b in zip(xs, ys)]] *)
Definition zip_with {A B C : Type} (f : A -> B -> C) (xs : list A) (ys : list B)
  : list C :=
  map (fun p => f (fst p) (snd p)) (combine xs ys).

(** The comprehension
    [[alpha * current + (1 - alpha) * smoothed
      for current, smoothed in zip(leader_positions, smoothed_positions)]]. *)
Definition smooth (alpha : Float64.float) (leader_positions smoothed_positions : list num)
  : Py.outcome (list num) :=
  Py.comprehension (fun p => ema alpha (fst p) (snd p))
    (combine leader_positions smoothed_positions).

(** ** The vendor SDK (scservo_sdk), with a scripted environment

    The SDK is an external collaborator.  [sdk_script n id] is what the
    [n]-th transmission does when it addresses motor [id]: it returns a
    triple [(value, result, error)] or raises.  [sdk_msg_raises] tells
    whether formatting the message of a result code raises.  [sdk_sent]
    records the writes [(motor_id, address, value)] requested.
    [COMM_SUCCESS] is the SDK's constant 0. *)

Inductive sdk_reply : Type :=
| SdkReturn (value result error : Z)
| SdkRaise (code : Z).

Record SdkBus : Type := mkSdkBus {
  sdk_script : nat -> Z -> sdk_reply;
  sdk_msg_raises : Z -> bool;
  sdk_calls : nat;
  sdk_sent : list (Z * Z * Z)
}.

Module Sdk.

Definition COMM_SUCCESS : Z := 0.

Definition transmit (motor_id : Z) (sent : list (Z * Z * Z))
  : Py.M SdkBus (Z * Z * Z) :=
  fun b =>
    let b' :=
      mkSdkBus (sdk_script b) (sdk_msg_raises b) (S (sdk_calls b))
        (sdk_sent b ++ sent) in
    match sdk_script b (sdk_calls b) motor_id with
    | SdkReturn value result error => (Py.Ok (value, result, error), b')
    | SdkRaise code => (Py.Raised (Py.SdkError code), b')
    end.

(** [packet_handler.read2ByteTxRx(port_handler, motor_id, address)] *)
Definition read2ByteTxRx (motor_id address : Z) : Py.M SdkBus (Z * Z * Z) :=
  transmit motor_id [].

(** [packet_handler.write2ByteTxRx(port_handler, motor_id, address, value)] *)
Definition write2ByteTxRx (motor_id address value : Z) : Py.M SdkBus (Z * Z) :=
  r <- transmit motor_id [(motor_id, address, value)] ;;
  Py.ret (snd (fst r), snd r).

(** [packet_handler.getTxRxResult(result)]: formats a message. *)
Definition getTxRxResult (result : Z) : Py.M SdkBus unit :=
  fun b =>
    if sdk_msg_raises b result then (Py.Raised (Py.SdkError result), b)
    else (Py.Ok tt, b).

End Sdk.

(** Arithmetic on mixed [int]/[float] operands, as Python coerces them:
    two [int]s subtract exactly, otherwise the [int] operand is
    converted. *)
Definition num_sub (a b : num) : Py.outcome num :=
  match a, b with
  | Int x, Int y => Py.Ok (Int (x - y))
  | _, _ =>
      Py.obind (to_float a) (fun fa =>
      Py.obind (to_float b) (fun fb =>
      Py.Ok (Flt (Float64.sub fa fb))))
  end.

Definition num_abs (a : num) : num :=
  match a with
  | Int x => Int (Z.abs x)
  | Flt f => Flt (Float64.abs f)
  end.

(** [a > z] for a small [int] literal [z]: Python compares a float with
    an [int] exactly and never raises; for [|z| < 2^53] that is the
    comparison with the float of [z]. *)
Definition num_gt (a : num) (z : Z) : bool :=
  match a with
  | Int x => z <? x
  | Flt f => Float64.ltb (Float64.normalize z) f
  end.

(** ** custom_scripts/so101_direct_teleoperation.py *)

Module DirectTeleop.

Definition MOTOR_IDS : list Z := Py.range 1 7.
Definition CENTER_POSITION : Z := 2048.

Inductive thread : Type := MainThread | KeyboardThread.

Definition thread_eqb (a b : thread) : bool :=
  match a, b with
  | MainThread, MainThread => true
  | KeyboardThread, KeyboardThread => true
  | _, _ => false
  end.

Inductive access_kind : Type := ReadAccess | WriteAccess.

(** One access to the global [teleoperation_active]: who, how, at which
    source line, and whether the accessing thread held [lock]. *)
Record access : Type := mkAccess {
  acc_thread : thread;
  acc_kind : access_kind;
  acc_line : Z;
  acc_locked : bool
}.

(** The module globals, the two devices, the lock, and the locals of
    [main] that live across iterations of its loop.  [flag_accesses] is
    ghost state: the history of accesses to [teleoperation_active]. *)
Record World : Type := mkWorld {
  teleoperation_active : bool;
  DEBUG_MODE : bool;
  DIRECT_MODE : bool;
  position_offsets : list Z;
  follower_serial : option Serial;
  leader_bus : SdkBus;
  follower_bus : SdkBus;
  lock_holder : option thread;
  flag_accesses : list access;
  smoothed_positions : list num;
  previous_positions : list num
}.

Definition set_teleoperation_active (v : bool) (w : World) : World :=
  mkWorld v (DEBUG_MODE w) (DIRECT_MODE w) (position_offsets w)
    (follower_serial w) (leader_bus w) (follower_bus w) (lock_holder w)
    (flag_accesses w) (smoothed_positions w) (previous_positions w).

Definition set_position_offsets (v : list Z) (w : World) : World :=
  mkWorld (teleoperation_active w) (DEBUG_MODE w) (DIRECT_MODE w) v
    (follower_serial w) (leader_bus w) (follower_bus w) (lock_holder w)
    (flag_accesses w) (smoothed_positions w) (previous_positions w).

Definition set_follower_serial (v : option Serial) (w : World) : World :=
  mkWorld (teleoperation_active w) (DEBUG_MODE w) (DIRECT_MODE w)
    (position_offsets w) v (leader_bus w) (follower_bus w) (lock_holder w)
    (flag_accesses w) (smoothed_positions w) (previous_positions w).

Definition set_leader_bus (v : SdkBus) (w : World) : World :=
  mkWorld (teleoperation_active w) (DEBUG_MODE w) (DIRECT_MODE w)
    (position_offsets w) (follower_serial w) v (follower_bus w) (lock_holder w)
    (flag_accesses w) (smoothed_positions w) (previous_positions w).

Definition set_follower_bus (v : SdkBus) (w : World) : World :=
  mkWorld (teleoperation_active w) (DEBUG_MODE w) (DIRECT_MODE w)
    (position_offsets w) (follower_serial w) (leader_bus w) v (lock_holder w)
    (flag_accesses w) (smoothed_positions w) (previous_positions w).

Definition set_lock_holder (v : option thread) (w : World) : World :=
  mkWorld (teleoperation_active w) (DEBUG_MODE w) (DIRECT_MODE w)
    (position_offsets w) (follower_serial w) (leader_bus w) (follower_bus w) v
    (flag_accesses w) (smoothed_positions w) (previous_positions w).

Definition set_flag_accesses (v : list access) (w : World) : World :=
  mkWorld (teleoperation_active w) (DEBUG_MODE w) (DIRECT_MODE w)
    (position_offsets w) (follower_serial w) (leader_bus w) (follower_bus w)
    (lock_holder w) v (smoothed_positions w) (previous_positions w).

Definition set_smoothed_positions (v : list num) (w : World) : World :=
  mkWorld (teleoperation_active w) (DEBUG_MODE w) (DIRECT_MODE w)
    (position_offsets w) (follower_serial w) (leader_bus w) (follower_bus w)
    (lock_holder w) (flag_accesses w) v (previous_positions w).

Definition set_previous_positions (v : list num) (w : World) : World :=
  mkWorld (teleoperation_active w) (DEBUG_MODE w) (DIRECT_MODE w)
    (position_offsets w) (follower_serial w) (leader_bus w) (follower_bus w)
    (lock_holder w) (flag_accesses w) (smoothed_positions w) v.

Definition on_leader {A} (m : Py.M SdkBus A) : Py.M World A :=
  fun w => let (r, b) := m (leader_bus w) in (r, set_leader_bus b w).

Definition on_follower_bus {A} (m : Py.M SdkBus A) : Py.M World A :=
  fun w => let (r, b) := m (follower_bus w) in (r, set_follower_bus b w).

Definition on_follower_serial {A} (m : Py.M Serial A) : Py.M World A :=
  fun w =>
    match follower_serial w with
    | Some s => let (r, s') := m s in (r, set_follower_serial (Some s') w)
    | None => (Py.Raised Py.AttributeError, w)
    end.

(** *** The lock and the instrumented flag *)

Definition holds (t : thread) (w : World) : bool :=
  match lock_holder w with
  | Some h => thread_eqb h t
  | None => false
  end.

(** [with lock: body]: the lock is released however [body] ends. *)
Definition with_lock {A} (t : thread) (body : Py.M World A) : Py.M World A :=
  fun w =>
    match lock_holder w with
    | Some _ => (Py.Raised Py.Blocked, w)
    | None =>
        let (r, w') := body (set_lock_holder (Some t) w) in
        (r, set_lock_holder None w')
    end.

Definition log_access (t : thread) (k : access_kind) (line : Z) (w : World) : World :=
  set_flag_accesses (flag_accesses w ++ [mkAccess t k line (holds t w)]) w.

Definition read_flag (t : thread) (line : Z) : Py.M World bool :=
  fun w => (Py.Ok (teleoperation_active w), log_access t ReadAccess line w).

Definition write_flag (t : thread) (line : Z) (v : bool) : Py.M World unit :=
  fun w => (Py.Ok tt, set_teleoperation_active v (log_access t WriteAccess line w)).

(** The lock discipline: every recorded access was made with the lock
    held by the accessing thread. *)
Definition all_locked (l : list access) : bool := forallb acc_locked l.

(** *** [read_leader_positions] (lines 178-207)

    The counter [errors] and the prints are omitted: they do not reach
    the returned list. *)
Definition read_one (motor_id : Z) (positions : list Z) : Py.M World (list Z) :=
  Py.try_except
    (r <- on_leader (Sdk.read2ByteTxRx motor_id 56) ;;
     let position := fst (fst r) in
     let result := snd (fst r) in
     if result =? Sdk.COMM_SUCCESS then Py.ret (positions ++ [position])
     else
       on_leader (Sdk.getTxRxResult result) ;;;
       Py.ret (positions ++ [2048]))
    (fun _ => Py.ret (positions ++ [2048])).

Fixpoint read_leader_loop (ids : list Z) (positions : list Z) : Py.M World (list Z) :=
  match ids with
  | [] => Py.ret positions
  | motor_id :: rest =>
      positions' <- read_one motor_id positions ;;
      read_leader_loop rest positions'
  end.

Definition read_leader_positions : Py.M World (list Z) :=
  read_leader_loop MOTOR_IDS [].

(** *** [set_follower_positions] (lines 209-262) *)

(** Lines 219-222. *)
Definition goal_command (motor_id position : Z) : Py.outcome (list Z) :=
  let pos_l := Z.land position 255 in
  let pos_h := Z.land (Z.shiftr position 8) 255 in
  let checksum := 255 - ((motor_id + 5 + 3 + 42 + pos_l + pos_h) mod 256) in
  Py.bytearray [255; 255; motor_id; 5; 3; 42; pos_l; pos_h; checksum].

Fixpoint set_direct_loop (pairs : list (Z * Z)) (success_count : Z) : Py.M Serial Z :=
  match pairs with
  | [] => Py.ret success_count
  | (motor_id, position) :: rest =>
      command <- Py.lift (goal_command motor_id position) ;;
      count <-
        Py.try_except
          (SerialPort.write command ;;;
           SerialPort.sleep ;;;
           n <- SerialPort.in_waiting ;;
           (if n =? 0 then Py.ret tt else _ <- SerialPort.read n ;; Py.ret tt) ;;;
           Py.ret (success_count + 1))
          (fun _ => Py.ret success_count) ;;
      set_direct_loop rest count
  end.

(** Line 245: [safe_position = max(0, min(4095, int(position)))]. *)
Definition safe_position (position : Z) : Z :=
  Py.max 0 (Py.min 4095 position).

Fixpoint set_sdk_loop (pairs : list (Z * Z)) (success_count : Z) : Py.M SdkBus Z :=
  match pairs with
  | [] => Py.ret success_count
  | (motor_id, position) :: rest =>
      count <-
        Py.try_except
          (r <- Sdk.write2ByteTxRx motor_id 42 (safe_position position) ;;
           if fst r =? Sdk.COMM_SUCCESS then Py.ret (success_count + 1)
           else Py.ret success_count)
          (fun _ => Py.ret success_count) ;;
      set_sdk_loop rest count
  end.

Definition set_follower_positions (positions : list Z) : Py.M World Z :=
  w <- Py.get ;;
  match DIRECT_MODE w, follower_serial w with
  | true, Some _ => on_follower_serial (set_direct_loop (combine MOTOR_IDS positions) 0)
  | _, _ => on_follower_bus (set_sdk_loop (combine MOTOR_IDS positions) 0)
  end.

(** *** The follower part of [ping_all_motors], direct mode (lines 337-356) *)

Definition ping_packet (motor_id : Z) : Py.outcome (list Z) :=
  let checksum := 255 - ((motor_id + 2 + 1) mod 256) in
  Py.bytearray [255; 255; motor_id; 2; 1; checksum].

(** The result is [true] when [follower_success] is incremented. *)
Definition ping_follower (motor_id : Z) : Py.M Serial bool :=
  Py.try_except
    (ping_packet <- Py.lift (ping_packet motor_id) ;;
     SerialPort.write ping_packet ;;;
     SerialPort.sleep ;;;
     n <- SerialPort.in_waiting ;;
     if n =? 0 then Py.ret false
     else
       response <- SerialPort.read n ;;
       Py.ret (header_and_id_ok 6 motor_id response))
    (fun _ => Py.ret false).

(** *** [test_follower_arm], direct mode: the reply parser (lines 427-430) *)

Definition parse_position (response : list Z) : option Z :=
  if 8 <=? Z.of_nat (length response) then
    let pos_low := Py.item response 5 in
    let pos_high := Py.item response 6 in
    Some (Z.shiftl pos_high 8 + pos_low)
  else None.

(** *** [calibrate_offset] (lines 373-391) *)

Definition calibrate_offset : Py.M World (list Z) :=
  leader_positions <- read_leader_positions ;;
  let offsets := map (fun l => CENTER_POSITION - l) leader_positions in
  Py.modify (set_position_offsets offsets) ;;;
  Py.ret offsets.

(** *** The main loop (lines 594-640) *)

(** Lines 623-624:
    [[(int(pos) + offset) % 4096 for pos, offset in zip(...)]]. *)
Fixpoint follower_targets (pairs : list (num * Z)) : Py.outcome (list Z) :=
  match pairs with
  | [] => Py.Ok []
  | (pos, offset) :: rest =>
      Py.obind (to_int pos) (fun i =>
      Py.obind (follower_targets rest) (fun l =>
      Py.Ok (((i + offset) mod 4096) :: l)))
  end.

(** Lines 614-619: the loop over [zip(smoothed_positions,
    previous_positions)] that stops at the first difference above 5. *)
Fixpoint position_changed (pairs : list (num * num)) : Py.outcome bool :=
  match pairs with
  | [] => Py.Ok false
  | (current, previous) :: rest =>
      Py.obind (num_sub current previous) (fun difference =>
      if num_gt (num_abs difference) 5 then Py.Ok true
      else position_changed rest)
  end.

(** Lines 595-596. *)
Definition main_setup : Py.M World unit :=
  positions <- read_leader_positions ;;
  Py.modify (set_smoothed_positions (map Int positions)) ;;;
  Py.modify (set_previous_positions (map Int positions)).

(** Lines 614-630: the follower is commanded when teleoperation is
    active and some smoothed position moved by more than 5 steps. *)
Definition send_if_changed (current_teleoperation_active : bool)
    (smoothed : list num) : Py.M World unit :=
  w <- Py.get ;;
  position_changed <-
    Py.lift (position_changed (combine smoothed (previous_positions w))) ;;
  if current_teleoperation_active && position_changed
  then
    follower_positions <-
      Py.lift (follower_targets (combine smoothed (position_offsets w))) ;;
    _ <- set_follower_positions follower_positions ;;
    Py.modify (set_previous_positions smoothed)
  else Py.ret tt.

(** Lines 632-634: [if not DEBUG_MODE and teleoperation_active:
    print_status(...)]; [print_status] only prints. *)
Definition show_status : Py.M World unit :=
  w <- Py.get ;;
  if negb (DEBUG_MODE w) then
    active <- read_flag MainThread 633 ;;
    Py.ret tt
  else Py.ret tt.

(** The [try] block of the loop (lines 601-634): [smoothed_positions] is
    assigned only when the whole comprehension has been computed. *)
Definition main_body : Py.M World unit :=
  current_teleoperation_active <-
    with_lock MainThread (read_flag MainThread 602) ;;
  leader_positions <- read_leader_positions ;;
  let alpha := Float64.lit_0_2 in
  w <- Py.get ;;
  smoothed <-
    Py.lift (smooth alpha (map Int leader_positions) (smoothed_positions w)) ;;
  Py.modify (set_smoothed_positions smoothed) ;;;
  send_if_changed current_teleoperation_active smoothed ;;;
  show_status.

(** One iteration of [while True] (lines 600-638): the handler of line
    636 only prints. *)
Definition main_iteration : Py.M World unit :=
  Py.try_except main_body (fun _ => Py.ret tt).

(** *** The keyboard thread: the [space] branch (lines 516-521) *)

Definition on_space : Py.M World unit :=
  with_lock KeyboardThread
    (v <- read_flag KeyboardThread 518 ;;
     write_flag KeyboardThread 518 (negb v) ;;;
     _ <- read_flag KeyboardThread 519 ;;
     Py.ret tt).

End DirectTeleop.

(** ** custom_scripts/so101_teleoperation.py *)

Module Teleop.

Definition MOTOR_IDS : list Z := Py.range 1 7.
Definition SAFE_POSITIONS : list Z := [2048; 2048; 2048; 2048; 2048; 2048].

(** The global [teleoperation_active], the two SDK buses, and the local
    [smoothed_positions] of [main]. *)
Record State : Type := mkState {
  teleoperation_active : bool;
  leader_bus : SdkBus;
  follower_bus : SdkBus;
  smoothed_positions : list num
}.

Definition on_leader {A} (m : Py.M SdkBus A) : Py.M State A :=
  fun st =>
    let (r, b) := m (leader_bus st) in
    (r, mkState (teleoperation_active st) b (follower_bus st) (smoothed_positions st)).

Definition on_follower {A} (m : Py.M SdkBus A) : Py.M State A :=
  fun st =>
    let (r, b) := m (follower_bus st) in
    (r, mkState (teleoperation_active st) (leader_bus st) b (smoothed_positions st)).

Definition set_smoothed_positions (v : list num) (st : State) : State :=
  mkState (teleoperation_active st) (leader_bus st) (follower_bus st) v.

Definition toggle_teleoperation (st : State) : State :=
  mkState (negb (teleoperation_active st)) (leader_bus st) (follower_bus st)
    (smoothed_positions st).

(** [read_motor_positions] (lines 97-108): no handler, an exception of
    the SDK propagates. *)
Fixpoint read_motor_positions (motor_ids : list Z) (positions : list Z)
  : Py.M SdkBus (list Z) :=
  match motor_ids with
  | [] => Py.ret positions
  | motor_id :: rest =>
      r <- Sdk.read2ByteTxRx motor_id 56 ;;
      let position := fst (fst r) in
      let result := snd (fst r) in
      positions' <-
        (if result =? Sdk.COMM_SUCCESS then Py.ret (positions ++ [position])
         else Sdk.getTxRxResult result ;;; Py.ret (positions ++ [2048])) ;;
      read_motor_positions rest positions'
  end.

(** [move_motors] (lines 110-115). *)
Fixpoint move_motors (pairs : list (Z * Z)) : Py.M SdkBus unit :=
  match pairs with
  | [] => Py.ret tt
  | (motor_id, position) :: rest =>
      r <- Sdk.write2ByteTxRx motor_id 60 position ;;
      (if negb (fst r =? Sdk.COMM_SUCCESS)
       then Sdk.getTxRxResult (fst r)
       else Py.ret tt) ;;;
      move_motors rest
  end.

(** [[int(pos) for pos in smoothed_positions]] *)
Fixpoint int_all (l : list num) : Py.outcome (list Z) :=
  match l with
  | [] => Py.Ok []
  | pos :: rest =>
      Py.obind (to_int pos) (fun i =>
      Py.obind (int_all rest) (fun r => Py.Ok (i :: r)))
  end.

(** The body of [if teleoperation_active:] (lines 183-191); no handler
    surrounds it, an exception of the smoothing leaves the loop. *)
Definition teleoperate_step : Py.M State unit :=
  current_leader_positions <- on_leader (read_motor_positions MOTOR_IDS []) ;;
  let alpha := Float64.lit_0_3 in
  st <- Py.get ;;
  smoothed <-
    Py.lift (smooth alpha (map Int current_leader_positions) (smoothed_positions st)) ;;
  Py.modify (set_smoothed_positions smoothed) ;;;
  targets <- Py.lift (int_all smoothed) ;;
  on_follower (move_motors (combine MOTOR_IDS targets)).

(** One iteration of [while True] (lines 166-196).  The three arguments
    are the answers of [keyboard.is_pressed] for esc, space and r; the
    result is [false] when the loop is left by [break]. *)
Definition loop_iteration (esc space r : bool) : Py.M State bool :=
  if esc then Py.ret false
  else
    (if space then Py.modify toggle_teleoperation else Py.ret tt) ;;;
    (if r then on_follower (move_motors (combine MOTOR_IDS SAFE_POSITIONS))
     else Py.ret tt) ;;;
    st <- Py.get ;;
    (if teleoperation_active st then teleoperate_step else Py.ret tt) ;;;
    Py.ret true.

End Teleop.

(** ** custom_scripts/move_motors_percent.py

    Python compiles a module before it runs any of it, and rejects this
    file as shipped for its layout.  What the script does is therefore
    decided by its layout, which is what the model holds: the logical
    lines of the file (a statement with its continuation lines; blank
    lines and comment lines are none), each with its line number, the
    column of its first token, and whether it ends in a colon and so opens
    a block.  The lines are those of the file up to line 200. *)

Module MovePercent.

Record line : Type := L { lineno : Z; indent : nat; opens_block : bool }.

Definition source : list line :=
  [L 1 0 false; L 2 0 false; L 3 0 false; L 4 0 false; L 5 0 false; L 7 0 true;
   L 8 4 false; L 9 4 false; L 11 4 true; L 12 8 false; L 13 8 false; L 16 8 false;
   L 17 8 false; L 26 8 false; L 31 8 false; L 32 8 false; L 35 8 false; L 36 8 false;
   L 38 8 false; L 39 8 false; L 41 8 false; L 42 8 false; L 45 8 false; L 46 8 true;
   L 47 12 true; L 48 16 false; L 49 16 false; L 50 16 false; L 51 16 false;
   L 52 12 true; L 53 16 false; L 54 16 false; L 55 16 false; L 57 8 false;
   L 58 8 false; L 61 8 true; L 62 12 true; L 63 16 false; L 64 16 false; L 65 16 false;
   L 66 12 true; L 67 16 false; L 68 16 false; L 70 8 false; L 71 8 false; L 73 8 true;
   L 74 12 true; L 76 16 false; L 78 16 false; L 79 16 false; L 80 16 false;
   L 81 12 true; L 82 16 false; L 83 16 false; L 87 8 false; L 88 8 false; L 91 8 true;
   L 93 12 true; L 94 16 false; L 96 16 false; L 99 16 true; L 100 20 false;
   L 101 20 false; L 105 16 true; L 106 20 false; L 107 20 false; L 111 16 true;
   L 112 20 false; L 113 20 true; L 114 24 false; L 115 24 false; L 116 16 true;
   L 117 20 false; L 119 16 false; L 120 12 true; L 121 16 false; L 122 16 false;
   L 124 8 false; L 125 8 false; L 127 8 true; L 128 12 false; L 129 12 false;
   L 132 12 true; L 133 16 false; L 134 16 false; L 135 16 true; L 136 20 false;
   L 137 16 true; L 138 20 false; L 139 20 false; L 140 20 false; L 141 12 true;
   L 142 16 false; L 143 16 false; L 145 8 false; L 146 8 false; L 149 8 false;
   L 150 8 true; L 152 12 false; L 155 12 false; L 156 12 true; L 157 16 true;
   L 159 20 false; L 160 20 false; L 163 20 true; L 164 24 false; L 165 24 true;
   L 166 28 false; L 167 28 false; L 168 24 true; L 169 28 false; L 170 20 true;
   L 171 24 false; L 173 20 true; L 174 24 false; L 176 16 true; L 177 20 false;
   L 178 20 false; L 181 12 true; L 182 16 false; L 183 16 false; L 186 8 false;
   L 187 8 true; L 188 12 false; L 191 8 true; L 192 12 true; L 193 16 false;
   L 194 16 false; L 195 16 false; L 196 12 true; L 197 16 false; L 198 16 false;
   L 199 18 false; L 200 8 false].

(** Leaving blocks: the indentation stack is popped down to the column
    of the line, which has to be one of the columns on the stack. *)
Fixpoint unindent (column : nat) (stack : list nat) : option (list nat) :=
  match stack with
  | [] => None
  | top :: rest =>
      if Nat.eqb column top then Some stack
      else if Nat.ltb top column then None
      else unindent column rest
  end.

(** The indentation rule of the language (reference manual, 2.1.8, and
    the grammar of blocks).  A line deeper than the current block is
    accepted only right after a line that opens a block, otherwise it is
    an "unexpected indent"; the line after an opening line has to be
    deeper ("expected an indented block"); a shallower line has to return
    to the column of an enclosing block ("unindent does not match any
    outer indentation level").  Each failure is an [IndentationError] at
    the offending line. *)
Fixpoint check_layout (stack : list nat) (after_colon : bool) (lines : list line)
  : Py.outcome unit :=
  match lines with
  | [] => Py.Ok tt
  | l :: rest =>
      if Nat.ltb (hd 0%nat stack) (indent l) then
        if after_colon then check_layout (indent l :: stack) (opens_block l) rest
        else Py.Raised (Py.IndentationError (lineno l))
      else if after_colon then Py.Raised (Py.IndentationError (lineno l))
      else
        match unindent (indent l) stack with
        | Some stack' => check_layout stack' (opens_block l) rest
        | None => Py.Raised (Py.IndentationError (lineno l))
        end
  end.

(** Compiling the module. *)
Definition load_module : Py.outcome unit := check_layout [0%nat] false source.

(** Running the script: the module is compiled, then line 293 calls
    [main], whatever [main] does with the motors bus. *)
Definition run_script {S : Type} (main : Py.M S unit) : Py.M S unit :=
  Py.lift load_module ;;; main.

End MovePercent.

(** ** The packet format of the protocol summary

    [encode] follows the wording of the protocol summary:
    [[0xFF, 0xFF, id, length, instruction, ...params, checksum]] with
    [checksum = 0xFF - ((id + length + instruction + sum(params)) mod 256)];
    the length byte counts the instruction, the parameters and the
    checksum, as in every packet the scripts build. *)

Module Codec.

Definition length_byte (params : list Z) : Z := Z.of_nat (length params) + 2.

Definition checksum (id instruction : Z) (params : list Z) : Z :=
  255 - ((id + length_byte params + instruction + Py.sum params) mod 256).

Definition encode (id instruction : Z) (params : list Z) : list Z :=
  [255; 255; id; length_byte params; instruction] ++ params
    ++ [checksum id instruction params].

(** A triple is valid when every field fits its byte. *)
Definition valid (id instruction : Z) (params : list Z) : Prop :=
  0 <= id < 256 /\ 0 <= instruction < 256
  /\ Forall (fun b => 0 <= b < 256) params
  /\ (length params <= 253)%nat.

(** Modelled from the spec: the repository has no general decoder, only
    the in-line reply tests; [decode] follows the summary "validates
    header 0xFF 0xFF, echoed id, extracts parameter bytes", reading the
    fields at the indices the scripts use (id at 2, parameters from 5 up
    to the checksum). *)
Definition decode (expected_id : Z) (packet : list Z) : option (Z * Z * list Z) :=
  if header_and_id_ok 6 expected_id packet then
    Some (Py.item packet 2, Py.item packet 4, Py.slice_to_end_minus 5 1 packet)
  else None.

(** The sum the checksum property speaks of: everything after the header,
    checksum included. *)
Definition checked_sum (packet : list Z) : Z := Py.sum (Py.slice_from 2 packet).

Definition checksum_ok (packet : list Z) : bool :=
  checked_sum packet mod 256 =? 255.

End Codec.

(** ** Vocabulary of the properties *)

(** The places where a reply to a ping is judged. *)
Inductive ping_site : Type :=
| PingMotor                        (* direct_reset_follower_motors.ping_motor *)
| TestProtocol (protocol_idx : Z)  (* leader_protocol_test.test_protocol *)
| PingAllMotors.                   (* so101_direct_teleoperation.ping_all_motors *)

Definition run_ping (site : ping_site) (motor_id : Z) : Py.M Serial bool :=
  match site with
  | PingMotor => DirectReset.ping_motor motor_id
  | TestProtocol protocol_idx => LeaderProtocolTest.ping_one protocol_idx motor_id
  | PingAllMotors => DirectTeleop.ping_follower motor_id
  end.

(** The site reports the motor as having answered. *)
Definition accepted (site : ping_site) (motor_id : Z) (s : Serial) : bool :=
  match fst (run_ping site motor_id s) with
  | Py.Ok b => b
  | Py.Raised _ => false
  end.

(** A valid ping reply: starts with 0xFF 0xFF, third byte is the queried
    id, at least 6 bytes. *)
Definition valid_ping_reply (motor_id : Z) (response : list Z) : Prop :=
  nth_error response 0 = Some 255
  /\ nth_error response 1 = Some 255
  /\ nth_error response 2 = Some motor_id
  /\ (6 <= length response)%nat.

(** The float a position is compared as: exact for an [int] below
    [2^53] in magnitude. *)
Definition as_float (x : num) : Float64.float :=
  match x with
  | Int z => Float64.normalize z
  | Flt f => f
  end.

(** [x] lies between [a] and [b], in either order (binary64 comparisons). *)
Definition lies_between (x a b : num) : bool :=
  (Float64.leb (as_float a) (as_float x) && Float64.leb (as_float x) (as_float b))
  || (Float64.leb (as_float b) (as_float x) && Float64.leb (as_float x) (as_float a)).

(** The number a position stands for. *)
Definition value (x : num) : Q :=
  match x with
  | Int z => inject_Z z
  | Flt f => Float64.to_Q f
  end.

(** A position of magnitude at most [bound] that is an [int] or a float
    other than an infinity or NaN. *)
Definition within (bound : Q) (x : num) : Prop :=
  match x with
  | Int _ => True
  | Flt f => Float64.in_range f = true
  end
  /\ (Qabs (value x) <= bound)%Q.

(** The rounding error allowed to one smoothing of positions of
    magnitude at most [bound]: [bound * 2^-51 + 2^-1072]. *)
Definition tolerance (bound : Q) : Q :=
  (bound * (1 # 2 ^ 51) + (1 # 2 ^ 1072))%Q.

(** [new] is a float other than an infinity or NaN that lies between
    the reading [current] and the previous smoothed value [previous], up
    to the tolerance for positions of magnitude at most [bound]. *)
Definition smoothed_within (bound : Q) (current previous new : num) : Prop :=
  exists r,
    new = Flt r
    /\ Float64.in_range r = true
    /\ (Qmin (value current) (value previous) - tolerance bound
        <= Float64.to_Q r
        <= Qmax (value current) (value previous) + tolerance bound)%Q.

(** [r] is a float other than an infinity or NaN within one rounding of
    the number [x]. *)
Definition rounds_to (r : Float64.float) (x : Q) : Prop :=
  Float64.in_range r = true
  /\ (Qabs (Float64.to_Q r - x)
      <= Float64.unit_roundoff * Qabs x + Float64.eta)%Q.

(** A magnitude with the sign of a float. *)
Definition signed (s : bool) (q : Q) : Q := if s then (- q)%Q else q.

(** What one scripted reply to a position read contributes to the list
    returned by [read_leader_positions]. *)
Definition leader_entry (reply : sdk_reply) : Z :=
  match reply with
  | SdkReturn value result _ => if result =? Sdk.COMM_SUCCESS then value else 2048
  | SdkRaise _ => 2048
  end.

(** A port on which nothing has been sent and the device never answers. *)
Definition silent_port : Serial := mkSerial [] [] [].

(** An SDK bus whose every transmission returns [value] with
    [COMM_SUCCESS]. *)
Definition steady_bus (value : Z) : SdkBus :=
  mkSdkBus (fun _ _ => SdkReturn value Sdk.COMM_SUCCESS 0) (fun _ => false) 0 [].

(** The globals of so101_direct_teleoperation.py as the module
    initialises them (lines 41-42 and 56-64), with the ports opened in
    direct mode and a leader arm at rest at [position]. *)
Definition module_level (position : Z) : DirectTeleop.World :=
  DirectTeleop.mkWorld true false true [0; 0; 0; 0; 0; 0]
    (Some silent_port) (steady_bus position) (steady_bus 0) None [] [] [].

(** The state in which [main] enters its loop: [calibrate_offset] has
    run (line 579) and lines 595-596 have filled the two position lists. *)
Definition loop_entry (position : Z) : DirectTeleop.World :=
  snd (DirectTeleop.main_setup
         (snd (DirectTeleop.calibrate_offset (module_level position)))).

(** An operation of so101_direct_teleoperation.py that leaves a
    component [proj] of the world as it found it. *)
Definition keeps {X A : Type} (proj : DirectTeleop.World -> X)
    (m : Py.M DirectTeleop.World A) : Prop :=
  forall w, proj (snd (m w)) = proj w.

(** The packets the follower port has been sent ([[]] without a port). *)
Definition follower_written (w : DirectTeleop.World) : list (list Z) :=
  match DirectTeleop.follower_serial w with
  | Some s => written s
  | None => []
  end.

(** The state of so101_teleoperation.py when its loop runs with the leader
    arm at rest at [position]. *)
Definition sdk_loop_entry (position : Z) : Teleop.State :=
  Teleop.mkState true (steady_bus position) (steady_bus 0)
    (map (fun _ => Int position) Teleop.MOTOR_IDS).

(** * Further parts of the scripts *)

(** [l[i]] on a Python list: a negative index counts from the end, an
    index out of range raises [IndexError]. *)
Definition list_index (l : list Z) (i : Z) : Py.outcome Z :=
  let n := Z.of_nat (length l) in
  if (0 <=? i) && (i <? n) then Py.Ok (nth (Z.to_nat i) l 0)
  else if (- n <=? i) && (i <? 0) then Py.Ok (nth (Z.to_nat (n + i)) l 0)
  else Py.Raised Py.IndexError.

(** ** custom_configs/follower_arm_controller.py: the other methods *)

Module ArmControl.

(** Lines 54-55. *)
Definition ping_packet (motor_id : Z) : Py.outcome (list Z) :=
  let checksum := 255 - ((motor_id + 2 + 1) mod 256) in
  Py.bytearray [255; 255; motor_id; 2; 1; checksum].

(** The loop of [ping_motors] (lines 52-70). *)
Fixpoint ping_loop (ids : list Z) (all_responsive : bool)
  : Py.M FollowerArmController.t bool :=
  match ids with
  | [] => Py.ret all_responsive
  | motor_id :: rest =>
      ping_packet <- Py.lift (ping_packet motor_id) ;;
      FollowerArmController.on_ser (SerialPort.write ping_packet) ;;;
      FollowerArmController.on_ser SerialPort.sleep ;;;
      n <- FollowerArmController.on_ser SerialPort.in_waiting ;;
      responsive <-
        (if n =? 0 then Py.ret false
         else
           response <- FollowerArmController.on_ser (SerialPort.read n) ;;
           Py.ret (header_and_id_ok 6 motor_id response)) ;;
      ping_loop rest (if responsive then all_responsive else false)
  end.

(** [ping_motors] (lines 45-72). *)
Definition ping_motors : Py.M FollowerArmController.t bool :=
  c <- Py.get ;;
  if negb (FollowerArmController.connected c) then Py.ret false
  else ping_loop (Py.range 1 7) true.

(** Lines 82-86: the request is built without its checksum byte, the
    checksum is accumulated over [read_packet[2:-1]] and appended. *)
Definition read_packet (motor_id : Z) : Py.outcome (list Z) :=
  Py.obind (Py.bytearray [255; 255; motor_id; 4; 2; 56; 2])
    (fun read_packet =>
       let checksum := Py.sum (Py.slice_to_end_minus 2 1 read_packet) in
       Py.append read_packet (Z.land (Z.lnot checksum) 255)).

(** The loop of [read_positions] (lines 80-103). *)
Fixpoint read_positions_loop (ids : list Z) : Py.M FollowerArmController.t unit :=
  match ids with
  | [] => Py.ret tt
  | motor_id :: rest =>
      read_packet <- Py.lift (read_packet motor_id) ;;
      FollowerArmController.on_ser (SerialPort.write read_packet) ;;;
      FollowerArmController.on_ser SerialPort.sleep ;;;
      n <- FollowerArmController.on_ser SerialPort.in_waiting ;;
      (if n =? 0 then Py.ret tt
       else
         response <- FollowerArmController.on_ser (SerialPort.read n) ;;
         if header_and_id_ok 8 motor_id response then
           let position := Py.item response 5 + Z.shiftl (Py.item response 6) 8 in
           FollowerArmController.store_position motor_id position
         else Py.ret tt) ;;;
      read_positions_loop rest
  end.

(** [read_positions] (lines 74-105). *)
Definition read_positions : Py.M FollowerArmController.t bool :=
  c <- Py.get ;;
  if negb (FollowerArmController.connected c) then Py.ret false
  else read_positions_loop (Py.range 1 7) ;;; Py.ret true.

(** Lines 148-153: as for [read_packet]. *)
Definition torque_packet (motor_id : Z) (enable : bool) : Py.outcome (list Z) :=
  let torque_value := if enable then 1 else 0 in
  Py.obind (Py.bytearray [255; 255; motor_id; 4; 3; 40; torque_value])
    (fun write_packet =>
       let checksum := Py.sum (Py.slice_to_end_minus 2 1 write_packet) in
       Py.append write_packet (Z.land (Z.lnot checksum) 255)).

(** [set_torque] (lines 141-166). *)
Definition set_torque (motor_id : Z) (enable : bool)
  : Py.M FollowerArmController.t bool :=
  c <- Py.get ;;
  if negb (FollowerArmController.connected c) then Py.ret false
  else
    write_packet <- Py.lift (torque_packet motor_id enable) ;;
    FollowerArmController.on_ser (SerialPort.write write_packet) ;;;
    FollowerArmController.on_ser SerialPort.sleep ;;;
    n <- FollowerArmController.on_ser SerialPort.in_waiting ;;
    if n =? 0 then Py.ret false
    else
      response <- FollowerArmController.on_ser (SerialPort.read n) ;;
      if header_and_id_ok 6 motor_id response then Py.ret true
      else Py.ret false.

(** The loops of [enable_torque_all] and [disable_torque_all]. *)
Fixpoint torque_all_loop (enable : bool) (ids : list Z) (all_success : bool)
  : Py.M FollowerArmController.t bool :=
  match ids with
  | [] => Py.ret all_success
  | motor_id :: rest =>
      success <- set_torque motor_id enable ;;
      torque_all_loop enable rest (all_success && success)
  end.

(** The controller object with the fields of the interactive control:
    [selected_motor] (0-5), [step_size] and [torque_enabled]. *)
Record Console : Type := mkConsole {
  arm : FollowerArmController.t;
  selected_motor : Z;
  step_size : Z;
  torque_enabled : bool
}.

(** [__init__] (lines 22-24), with the port already opened. *)
Definition init_console (port : Serial) : Console :=
  mkConsole (FollowerArmController.init port) 0 50 true.

Definition on_arm {A} (m : Py.M FollowerArmController.t A) : Py.M Console A :=
  fun u =>
    let (r, c) := m (arm u) in
    (r, mkConsole c (selected_motor u) (step_size u) (torque_enabled u)).

Definition set_selected_motor (v : Z) (u : Console) : Console :=
  mkConsole (arm u) v (step_size u) (torque_enabled u).

Definition set_step_size (v : Z) (u : Console) : Console :=
  mkConsole (arm u) (selected_motor u) v (torque_enabled u).

Definition set_torque_enabled (v : bool) (u : Console) : Console :=
  mkConsole (arm u) (selected_motor u) (step_size u) v.

(** [enable_torque_all] (lines 168-177). *)
Definition enable_torque_all : Py.M Console bool :=
  all_success <- on_arm (torque_all_loop true (Py.range 1 7) true) ;;
  Py.modify (set_torque_enabled true) ;;;
  Py.ret all_success.

(** [disable_torque_all] (lines 179-188). *)
Definition disable_torque_all : Py.M Console bool :=
  all_success <- on_arm (torque_all_loop false (Py.range 1 7) true) ;;
  Py.modify (set_torque_enabled false) ;;;
  Py.ret all_success.

(** [toggle_torque] (lines 190-195). *)
Definition toggle_torque : Py.M Console bool :=
  u <- Py.get ;;
  if torque_enabled u then disable_torque_all else enable_torque_all.

(** [move_selected_motor] (lines 280-287). *)
Definition move_selected_motor (steps : Z) : Py.M Console bool :=
  u <- Py.get ;;
  let motor_id := selected_motor u + 1 in
  current_pos <-
    Py.lift (list_index (FollowerArmController.current_positions (arm u))
               (selected_motor u)) ;;
  let new_pos := current_pos + steps in
  on_arm (FollowerArmController.set_position motor_id new_pos).

(** The keys ['1'] to ['6']. *)
Inductive digit : Type := D1 | D2 | D3 | D4 | D5 | D6.

(** [int(key)] *)
Definition int_of_digit (d : digit) : Z :=
  match d with
  | D1 => 1 | D2 => 2 | D3 => 3 | D4 => 4 | D5 => 5 | D6 => 6
  end.

(** A key press, decoded and lower-cased (line 230). *)
Inductive key : Type :=
| Key_q
| Key_digit (d : digit)
| Key_w
| Key_s
| Key_r
| Key_t
| Key_plus
| Key_equals
| Key_minus
| Key_enter
| Key_other.

(** The dispatch on the key in [run_interactive_control] (lines 232-267);
    the result is the new value of [running]. *)
Definition handle_key (k : key) : Py.M Console bool :=
  match k with
  | Key_q => Py.ret false
  | Key_digit d =>
      Py.modify (set_selected_motor (int_of_digit d - 1)) ;;; Py.ret true
  | Key_w =>
      u <- Py.get ;;
      _ <- move_selected_motor (step_size u) ;;
      Py.ret true
  | Key_s =>
      u <- Py.get ;;
      _ <- move_selected_motor (- step_size u) ;;
      Py.ret true
  | Key_r =>
      _ <- on_arm FollowerArmController.return_to_rest ;;
      Py.ret true
  | Key_t =>
      _ <- toggle_torque ;;
      Py.ret true
  | Key_plus | Key_equals =>
      Py.modify (fun u => set_step_size (step_size u + 10) u) ;;; Py.ret true
  | Key_minus =>
      Py.modify (fun u => set_step_size (Py.max 10 (step_size u - 10)) u) ;;;
      Py.ret true
  | Key_enter => Py.ret true
  | Key_other => Py.ret true
  end.

End ArmControl.

(** ** custom_scripts/direct_reset_follower_motors.py: the reset sequence *)

Module ResetSequence.

Definition MOTOR_IDS : list Z := Py.range 1 7.
Definition CENTER_POSITION : Z := 2048.
Definition ADDR_TORQUE_ENABLE : Z := 40.
Definition ADDR_OPERATING_MODE : Z := 11.
Definition ADDR_MAX_TORQUE : Z := 34.
Definition ADDR_GOAL_SPEED : Z := 46.
Definition ADDR_RETURN_DELAY : Z := 5.
Definition ADDR_ALARM_SHUTDOWN : Z := 18.
Definition ADDR_LED : Z := 41.

(** [reset_motor] (lines 153-221): the results of all the writes but the
    last only choose what is printed. *)
Definition reset_motor (motor_id : Z) : Py.M Serial bool :=
  _ <- DirectReset.write_byte motor_id ADDR_TORQUE_ENABLE 0 ;;
  _ <- DirectReset.write_word motor_id ADDR_MAX_TORQUE 1000 ;;
  _ <- DirectReset.write_byte motor_id ADDR_OPERATING_MODE 0 ;;
  _ <- DirectReset.write_word motor_id ADDR_GOAL_SPEED 500 ;;
  _ <- DirectReset.write_byte motor_id ADDR_RETURN_DELAY 0 ;;
  _ <- DirectReset.write_byte motor_id ADDR_ALARM_SHUTDOWN 3 ;;
  _ <- DirectReset.write_byte motor_id ADDR_LED 1 ;;
  SerialPort.sleep ;;;
  _ <- DirectReset.write_byte motor_id ADDR_LED 0 ;;
  r <- DirectReset.write_byte motor_id ADDR_TORQUE_ENABLE 1 ;;
  Py.ret (fst r).

(** [test_motor_movement] (lines 223-277). *)
Definition test_motor_movement (motor_id : Z) : Py.M Serial bool :=
  r <- DirectReset.write_byte motor_id ADDR_TORQUE_ENABLE 1 ;;
  if negb (fst r) then Py.ret false
  else
    r <- DirectReset.read_word motor_id DirectReset.ADDR_PRESENT_POSITION 2 ;;
    let current_pos := fst (fst r) in
    if negb (snd (fst r)) then Py.ret false
    else
      let target_pos := (current_pos + 100) mod 4096 in
      r <- DirectReset.write_word motor_id DirectReset.ADDR_GOAL_POSITION target_pos ;;
      if negb (fst r) then Py.ret false
      else
        SerialPort.sleep ;;;
        r <- DirectReset.read_word motor_id DirectReset.ADDR_PRESENT_POSITION 2 ;;
        let new_pos := fst (fst r) in
        if negb (snd (fst r)) then Py.ret false
        else
          let diff := Z.abs (new_pos - target_pos) in
          let moved := diff <? 20 in
          (if moved then
             _ <- DirectReset.write_word motor_id DirectReset.ADDR_GOAL_POSITION
                    current_pos ;;
             SerialPort.sleep
           else Py.ret tt) ;;;
          Py.ret moved.

(** [center_motor] (lines 279-296). *)
Definition center_motor (motor_id : Z) : Py.M Serial bool :=
  r <- DirectReset.write_byte motor_id ADDR_TORQUE_ENABLE 1 ;;
  if negb (fst r) then Py.ret false
  else
    r <- DirectReset.write_word motor_id DirectReset.ADDR_GOAL_POSITION
           CENTER_POSITION ;;
    if negb (fst r) then Py.ret false
    else Py.ret true.

(** The three loops of [perform_reset_sequence] that collect the motors
    passing a stage: [for motor_id in ids: if stage(motor_id):
    passed.append(motor_id)]. *)
Fixpoint collect (stage : Z -> Py.M Serial bool) (ids : list Z) (passed : list Z)
  : Py.M Serial (list Z) :=
  match ids with
  | [] => Py.ret passed
  | motor_id :: rest =>
      ok <- stage motor_id ;;
      collect stage rest (if ok then passed ++ [motor_id] else passed)
  end.

(** [perform_reset_sequence] (lines 298-365) on an opened port; the
    result is the triple of lists the final report counts:
    [responsive_motors], [reset_motors], [moving_motors]. *)
Definition perform_reset_sequence : Py.M Serial (list Z * list Z * list Z) :=
  responsive_motors <- collect DirectReset.ping_motor MOTOR_IDS [] ;;
  match responsive_motors with
  | [] => Py.ret ([], [], [])
  | _ =>
      reset_motors <- collect reset_motor responsive_motors [] ;;
      moving_motors <- collect test_motor_movement reset_motors [] ;;
      (match moving_motors with
       | [] => Py.ret tt
       | _ =>
           Py.for_each moving_motors
             (fun motor_id => _ <- center_motor motor_id ;; Py.ret tt) ;;;
           SerialPort.sleep
       end) ;;;
      Py.ret (responsive_motors, reset_motors, moving_motors)
  end.

End ResetSequence.

(** ** custom_scripts/so101_direct_teleoperation.py: torque, reset, test *)

Module TeleopControl.

(** Lines 274-275. *)
Definition torque_on_command (motor_id : Z) : Py.outcome (list Z) :=
  let checksum := 255 - ((motor_id + 4 + 3 + 40 + 1) mod 256) in
  Py.bytearray [255; 255; motor_id; 4; 3; 40; 1; checksum].

(** The direct-mode loop of [enable_all_follower_motors] (lines 271-290). *)
Fixpoint enable_direct_loop (ids : list Z) (success_count : Z) : Py.M Serial Z :=
  match ids with
  | [] => Py.ret success_count
  | motor_id :: rest =>
      command <- Py.lift (torque_on_command motor_id) ;;
      count <-
        Py.try_except
          (SerialPort.write command ;;;
           SerialPort.sleep ;;;
           n <- SerialPort.in_waiting ;;
           if n =? 0 then Py.ret success_count
           else
             response <- SerialPort.read n ;;
             if header_and_id_ok 6 motor_id response
             then Py.ret (success_count + 1)
             else Py.ret success_count)
          (fun _ => Py.ret success_count) ;;
      enable_direct_loop rest count
  end.

(** [packet_handler.write1ByteTxRx(port_handler, motor_id, address, value)] *)
Definition write1ByteTxRx (motor_id address value : Z) : Py.M SdkBus (Z * Z) :=
  r <- Sdk.transmit motor_id [(motor_id, address, value)] ;;
  Py.ret (snd (fst r), snd r).

(** The SDK loop of [enable_all_follower_motors] (lines 293-302). *)
Fixpoint enable_sdk_loop (ids : list Z) (success_count : Z) : Py.M SdkBus Z :=
  match ids with
  | [] => Py.ret success_count
  | motor_id :: rest =>
      count <-
        Py.try_except
          (r <- write1ByteTxRx motor_id 40 1 ;;
           if fst r =? Sdk.COMM_SUCCESS then Py.ret (success_count + 1)
           else Py.ret success_count)
          (fun _ => Py.ret success_count) ;;
      enable_sdk_loop rest count
  end.

(** [enable_all_follower_motors] (lines 264-309). *)
Definition enable_all_follower_motors : Py.M DirectTeleop.World Z :=
  w <- Py.get ;;
  match DirectTeleop.DIRECT_MODE w, DirectTeleop.follower_serial w with
  | true, Some _ =>
      DirectTeleop.on_follower_serial (enable_direct_loop DirectTeleop.MOTOR_IDS 0)
  | _, _ =>
      DirectTeleop.on_follower_bus (enable_sdk_loop DirectTeleop.MOTOR_IDS 0)
  end.

(** [reset_to_center] (lines 473-478). *)
Definition reset_to_center : Py.M DirectTeleop.World unit :=
  let positions := map (fun _ => DirectTeleop.CENTER_POSITION) DirectTeleop.MOTOR_IDS in
  _ <- DirectTeleop.set_follower_positions positions ;;
  Py.ret tt.

(** Lines 419-420. *)
Definition read_cmd (motor_id : Z) : Py.outcome (list Z) :=
  let checksum := 255 - ((motor_id + 4 + 2 + 56 + 2) mod 256) in
  Py.bytearray [255; 255; motor_id; 4; 2; 56; 2; checksum].

(** The direct-mode body of the loop of [test_follower_arm] (lines
    406-443); the result is the position the script prints, if any. *)
Definition test_direct (motor_id : Z) : Py.M Serial (option Z) :=
  command <-
    Py.lift (DirectTeleop.goal_command motor_id DirectTeleop.CENTER_POSITION) ;;
  Py.try_except
    (SerialPort.write command ;;;
     SerialPort.sleep ;;;
     read_cmd <- Py.lift (read_cmd motor_id) ;;
     SerialPort.write read_cmd ;;;
     SerialPort.sleep ;;;
     n <- SerialPort.in_waiting ;;
     if n =? 0 then Py.ret None
     else
       response <- SerialPort.read n ;;
       Py.ret (DirectTeleop.parse_position response))
    (fun _ => Py.ret None).

(** The statement [[(leader_pos + offset) % 4096 for ...]] of
    [print_status] (line 498), on the [int] readings. *)
Definition status_targets (leader_positions offsets : list Z) : list Z :=
  zip_with (fun leader_pos offset => (leader_pos + offset) mod 4096)
    leader_positions offsets.

End TeleopControl.

(** ** Vocabulary of the further properties *)

(** A port whose receive buffer is empty and whose device never answers. *)
Definition quiet (s : Serial) : Prop :=
  in_buffer s = [] /\ Forall (fun chunk => chunk = []) (arrivals s).

(** The state of the interactive control is well formed: a motor is
    selected, the step is at least 10, and there are six stored positions,
    all in [0, 4095]. *)
Definition console_ok (u : ArmControl.Console) : Prop :=
  0 <= ArmControl.selected_motor u <= 5
  /\ 10 <= ArmControl.step_size u
  /\ length (FollowerArmController.current_positions (ArmControl.arm u)) = 6%nat
  /\ Forall (fun p => 0 <= p <= 4095)
       (FollowerArmController.current_positions (ArmControl.arm u)).

(** The write packets of the reset script, as byte lists. *)
Definition byte_write (motor_id address value : Z) : list Z :=
  Codec.encode motor_id 3 [address; value].

Definition word_write (motor_id address value : Z) : list Z :=
  Codec.encode motor_id 3
    [address; Z.land value 255; Z.land (Z.shiftr value 8) 255].

Definition word_read (motor_id address : Z) : list Z :=
  Codec.encode motor_id 2 [address; 2].

(** A port on which motor 1 acknowledges the torque enable, reports
    position 1000, acknowledges the goal write, reports position 1100
    after the wait, and acknowledges the goal write that sends it back. *)
Definition moving_motor_port : Serial :=
  mkSerial [] []
    [[255; 255; 1; 2; 0; 252]; [255; 255; 1; 4; 0; 232; 3; 15];
     [255; 255; 1; 2; 0; 252]; []; [255; 255; 1; 4; 0; 76; 4; 170];
     [255; 255; 1; 2; 0; 252]; []].

(** A port on which only motor 1 is attached: it answers the ping, the
    last write of the reset, the movement test as on [moving_motor_port],
    and the two writes of the centring; motors 2 to 6 are silent. *)
Definition one_motor_port : Serial :=
  mkSerial [] []
    ([[255; 255; 1; 2; 0; 252]; []; []; []; []; []]
     ++ [[]; []; []; []; []; []; []; []; []; [255; 255; 1; 2; 0; 252]]
     ++ arrivals moving_motor_port
     ++ [[255; 255; 1; 2; 0; 252]; [255; 255; 1; 2; 0; 252]; []]).

(** The test [DIRECT_MODE and follower_serial] of
    so101_direct_teleoperation.py: the follower is driven over the raw
    serial port. *)
Definition direct_link (w : DirectTeleop.World) : bool :=
  DirectTeleop.DIRECT_MODE w
  && match DirectTeleop.follower_serial w with Some _ => true | None => false end.

(** An operation that never stops on the lock: whatever it does, it does
    not end in the pseudo-exception [Blocked]. *)
Definition unblocked {S A : Type} (m : Py.M S A) : Prop :=
  forall s, fst (m s) <> Py.Raised Py.Blocked.

(** An operation that ends normally from every state. *)
Definition returns {S A : Type} (m : Py.M S A) : Prop :=
  forall s, exists r s', m s = (Py.Ok r, s').

(** The controller after one exchange on its port: the packet is on the
    wire, the receive buffer has been read empty, the next arrival is
    consumed. *)
Definition after_exchange (packet : list Z) (c : FollowerArmController.t)
  : FollowerArmController.t :=
  FollowerArmController.mk (FollowerArmController.connected c)
    (mkSerial (written (FollowerArmController.ser c) ++ [packet]) []
       (tl (arrivals (FollowerArmController.ser c))))
    (FollowerArmController.rest_positions c)
    (FollowerArmController.current_positions c).

(** The motors of [ids] are asked in turn and each next arrival passes
    the reply test for its motor. *)
Fixpoint replies_ok (ids : list Z) (arrivals : list (list Z)) : bool :=
  match ids with
  | [] => true
  | motor_id :: rest =>
      header_and_id_ok 6 motor_id (hd [] arrivals) && replies_ok rest (tl arrivals)
  end.

(** The packet [test_protocol] sends for a protocol guess and a motor
    ([[]] if it cannot be built). *)
Definition protocol_packet (protocol_idx motor_id : Z) : list Z :=
  match LeaderProtocolTest.ping_packet protocol_idx motor_id with
  | Py.Ok packet => packet
  | Py.Raised _ => []
  end.

(** The [n]-th transmission of the bus, addressed to [motor_id], lets the
    caller go on: it returns, and if it reports a failure the message of
    the result code can be formatted. *)
Definition answers (b : SdkBus) (n : nat) (motor_id : Z) : Prop :=
  match sdk_script b n motor_id with
  | SdkReturn _ result _ =>
      result = Sdk.COMM_SUCCESS \/ sdk_msg_raises b result = false
  | SdkRaise _ => False
  end.

(** The bus after one read. *)
Definition after_read (b : SdkBus) : SdkBus :=
  mkSdkBus (sdk_script b) (sdk_msg_raises b) (S (sdk_calls b)) (sdk_sent b ++ []).

(** * Proofs *)

(** ** Bytes and checksums *)

Lemma checksum_byte (x : Z) : 0 <= 255 - x mod 256 < 256.
Proof.
  pose proof (Z.mod_pos_bound x 256 ltac:(lia)). lia.
Qed.

Lemma land_255_mod (x : Z) : Z.land x 255 = x mod 256.
Proof.
  change 255 with (Z.ones 8). rewrite Z.land_ones by lia. reflexivity.
Qed.

Lemma land_255_byte (x : Z) : 0 <= Z.land x 255 < 256.
Proof.
  rewrite land_255_mod. apply Z.mod_pos_bound. lia.
Qed.

(** The two ways the scripts compute a checksum agree:
    [(~s) & 0xFF = 0xFF - (s % 256)]. *)
Lemma complement_checksum (s : Z) : Z.land (Z.lnot s) 255 = 255 - s mod 256.
Proof.
  rewrite land_255_mod. unfold Z.lnot.
  pose proof (Z.mod_pos_bound s 256 ltac:(lia)).
  symmetry. apply Z.mod_unique with (q := - (s / 256) - 1); [lia |].
  pose proof (Z.div_mod s 256 ltac:(lia)). lia.
Qed.

Lemma is_byte_true (b : Z) : 0 <= b < 256 -> Py.is_byte b = true.
Proof.
  intros H. unfold Py.is_byte. apply andb_true_intro. split.
  - apply Z.leb_le. lia.
  - apply Z.ltb_lt. lia.
Qed.

Lemma is_byte_range (b : Z) : Py.is_byte b = true -> 0 <= b < 256.
Proof.
  unfold Py.is_byte. intros H. apply andb_prop in H. destruct H as [H1 H2].
  apply Z.leb_le in H1. apply Z.ltb_lt in H2. lia.
Qed.

Lemma bytearray_bytes (l : list Z) :
  Forall (fun b => 0 <= b < 256) l -> Py.bytearray l = Py.Ok l.
Proof.
  intros H. unfold Py.bytearray.
  replace (forallb Py.is_byte l) with true; [reflexivity |].
  symmetry. apply forallb_forall. intros b Hb.
  apply is_byte_true. rewrite Forall_forall in H. auto.
Qed.

Lemma sum_cons (x : Z) (l : list Z) : Py.sum (x :: l) = x + Py.sum l.
Proof.
  unfold Py.sum. simpl.
  assert (G : forall l a, fold_left Z.add l a = a + fold_left Z.add l 0).
  { clear. induction l as [| y l IH]; intros a; simpl.
    - lia.
    - rewrite (IH (a + y)), (IH y). lia. }
  apply G.
Qed.

Lemma sum_app (l1 l2 : list Z) : Py.sum (l1 ++ l2) = Py.sum l1 + Py.sum l2.
Proof.
  induction l1 as [| x l1 IH]; simpl.
  - reflexivity.
  - rewrite !sum_cons, IH. lia.
Qed.

(** A checksum computed the protocol's way makes the packet sum to 0xFF. *)
Lemma encode_checksum_ok (id instruction : Z) (params : list Z) :
  Codec.checksum_ok (Codec.encode id instruction params) = true.
Proof.
  unfold Codec.checksum_ok, Codec.checked_sum, Codec.encode, Py.slice_from.
  simpl skipn. rewrite !sum_cons, sum_app, sum_cons. unfold Codec.checksum.
  change (Py.sum []) with 0.
  set (t := id + Codec.length_byte params + instruction + Py.sum params).
  apply Z.eqb_eq.
  replace (id + (Codec.length_byte params + (instruction
            + (Py.sum params + (255 - t mod 256 + 0)))))
    with (t - t mod 256 + 255) by (unfold t; lia).
  pose proof (Z.div_mod t 256 ltac:(lia)).
  replace (t - t mod 256 + 255) with (255 + (t / 256) * 256) by lia.
  rewrite Z.mod_add by lia. reflexivity.
Qed.

(** ** The serial idiom: write, sleep, look at the receive buffer *)

(** The idiom [if ser.in_waiting: response = ser.read(ser.in_waiting)]
    hands the script exactly the bytes received so far. *)
Lemma read_all_in_waiting (s : Serial) :
  firstn (Z.to_nat (Z.of_nat (length (in_buffer s)))) (in_buffer s) = in_buffer s.
Proof.
  rewrite Nat2Z.id. apply firstn_all.
Qed.

Lemma in_waiting_zero (l : list Z) : (Z.of_nat (length l) =? 0) = true <-> l = [].
Proof.
  rewrite Z.eqb_eq. destruct l as [| x l]; split; intros H.
  - reflexivity.
  - reflexivity.
  - simpl length in H. lia.
  - discriminate.
Qed.

(** Every ping site that uses the common reply test behaves alike: it
    sends its packet and judges the bytes received after the sleep. *)
Lemma ping_idiom (packet : list Z) (motor_id : Z) (s : Serial) :
  exists s',
    (SerialPort.write packet ;;;
     SerialPort.sleep ;;;
     n <- SerialPort.in_waiting ;;
     if n =? 0 then Py.ret false
     else
       response <- SerialPort.read n ;;
       Py.ret (header_and_id_ok 6 motor_id response)) s
    = (Py.Ok (header_and_id_ok 6 motor_id (SerialPort.received s)), s')
    /\ written s' = written s ++ [packet].
Proof.
  unfold Py.bind, SerialPort.write, SerialPort.sleep, SerialPort.in_waiting,
    SerialPort.read, SerialPort.received, Py.modify, Py.ret. simpl.
  destruct (Z.of_nat (length (in_buffer s ++ hd [] (arrivals s))) =? 0) eqn:E.
  - apply in_waiting_zero in E. rewrite E. eexists; split; reflexivity.
  - rewrite Nat2Z.id, firstn_all. eexists; split; reflexivity.
Qed.

Lemma ping_packet_bytes (motor_id : Z) :
  0 <= motor_id < 256 ->
  Py.bytearray [255; 255; motor_id; 2; 1; 255 - (motor_id + 2 + 1) mod 256]
  = Py.Ok [255; 255; motor_id; 2; 1; 255 - (motor_id + 2 + 1) mod 256].
Proof.
  intros H. apply bytearray_bytes.
  pose proof (checksum_byte (motor_id + 2 + 1)).
  repeat constructor; lia.
Qed.

Lemma direct_ping_one (motor_id : Z) (s : Serial) :
  0 <= motor_id < 256 ->
  exists s',
    DirectMotorPing.ping_one motor_id s
    = (Py.Ok (header_and_id_ok 6 motor_id (SerialPort.received s)), s')
    /\ written s'
       = written s ++ [[255; 255; motor_id; 2; 1; 255 - (motor_id + 2 + 1) mod 256]].
Proof.
  intros H. unfold DirectMotorPing.ping_one, DirectMotorPing.ping_packet.
  rewrite (ping_packet_bytes motor_id H).
  unfold Py.bind at 1. unfold Py.lift.
  apply ping_idiom.
Qed.

(** A loop whose body always succeeds and sends one packet sends the
    packets of its iterations in order. *)
Lemma for_each_written {A : Type} (f : A -> list Z) (body : A -> Py.M Serial unit)
    (xs : list A) :
  (forall x s, In x xs ->
     exists s', body x s = (Py.Ok tt, s') /\ written s' = written s ++ [f x]) ->
  forall s, exists s',
    Py.for_each xs body s = (Py.Ok tt, s') /\ written s' = written s ++ map f xs.
Proof.
  induction xs as [| x xs IH]; intros Hbody s; simpl.
  - exists s. rewrite app_nil_r. split; reflexivity.
  - destruct (Hbody x s (or_introl eq_refl)) as [s1 [E1 W1]].
    destruct (IH (fun y t Hy => Hbody y t (or_intror Hy)) s1) as [s2 [E2 W2]].
    exists s2. unfold Py.bind. rewrite E1. split; [exact E2 |].
    rewrite W2, W1, <- app_assoc. reflexivity.
Qed.

(** C4. Ping encoding shape and worked example: for every motor id that
    fits a byte, the packet [test_motor_ping] builds and puts on the wire
    is exactly the 6 bytes
    [0xFF, 0xFF, id, 0x02, 0x01, 0xFF - ((id + 0x02 + 0x01) mod 256)];
    for motor id 6 it is FF FF 06 02 01 F6; and a run of
    [test_motor_ping] sends exactly these packets for the ids 1 to 6, in
    order. *)
Theorem ping_encoding_shape (motor_id : Z) (s : Serial) :
  0 <= motor_id < 256 ->
  let packet := [255; 255; motor_id; 2; 1; 255 - (motor_id + 2 + 1) mod 256] in
  DirectMotorPing.ping_packet motor_id = Py.Ok packet
  /\ length packet = 6%nat
  /\ written (snd (DirectMotorPing.ping_one motor_id s)) = written s ++ [packet]
  /\ DirectMotorPing.ping_packet 6 = Py.Ok [255; 255; 6; 2; 1; 246]
  /\ written (snd (DirectMotorPing.test_motor_ping s))
     = written s
       ++ map (fun id => [255; 255; id; 2; 1; 255 - (id + 2 + 1) mod 256])
            [1; 2; 3; 4; 5; 6].
Proof.
  intros H packet. repeat split.
  - apply ping_packet_bytes. exact H.
  - destruct (direct_ping_one motor_id s H) as [s' [E W]]. rewrite E. exact W.
  - unfold DirectMotorPing.test_motor_ping, Py.try_except.
    change (Py.range 1 7) with [1; 2; 3; 4; 5; 6].
    destruct (for_each_written
                (fun id => [255; 255; id; 2; 1; 255 - (id + 2 + 1) mod 256])
                (fun motor_id => _ <- DirectMotorPing.ping_one motor_id ;; Py.ret tt)
                [1; 2; 3; 4; 5; 6]) with (s := s) as [s' [E W]].
    + intros x t Hx.
      assert (Hb : 0 <= x < 256) by (simpl in Hx; lia).
      destruct (direct_ping_one x t Hb) as [t' [E W]].
      exists t'. unfold Py.bind. rewrite E. split; [reflexivity | exact W].
    + rewrite E. exact W.
Qed.

Lemma ping_encoding_shape_witness :
  DirectMotorPing.ping_packet 6 = Py.Ok [255; 255; 6; 2; 1; 246].
Proof.
  refine (proj1 (ping_encoding_shape 6 silent_port _)). lia.
Defined.

(** ** The packet builders against the protocol summary *)

Lemma checksum_eq (a b : Z) : a = b -> 255 - a mod 256 = 255 - b mod 256.
Proof.
  intros ->. reflexivity.
Qed.

Lemma encode_0 (id instruction : Z) :
  Codec.encode id instruction []
  = [255; 255; id; 2; instruction; 255 - (id + 2 + instruction) mod 256].
Proof.
  unfold Codec.encode, Codec.checksum.
  change (Codec.length_byte []) with 2. change (Py.sum []) with 0.
  cbn [app]. do 5 f_equal. f_equal. apply checksum_eq. lia.
Qed.

Lemma encode_2 (id instruction a b : Z) :
  Codec.encode id instruction [a; b]
  = [255; 255; id; 4; instruction; a; b;
     255 - (id + 4 + instruction + a + b) mod 256].
Proof.
  unfold Codec.encode, Codec.checksum.
  change (Codec.length_byte [a; b]) with 4. rewrite !sum_cons.
  change (Py.sum []) with 0.
  cbn [app]. do 7 f_equal. f_equal. apply checksum_eq. lia.
Qed.

Lemma encode_3 (id instruction a b c : Z) :
  Codec.encode id instruction [a; b; c]
  = [255; 255; id; 5; instruction; a; b; c;
     255 - (id + 5 + instruction + a + b + c) mod 256].
Proof.
  unfold Codec.encode, Codec.checksum.
  change (Codec.length_byte [a; b; c]) with 5. rewrite !sum_cons.
  change (Py.sum []) with 0.
  cbn [app]. do 8 f_equal. f_equal. apply checksum_eq. lia.
Qed.

Lemma direct_reset_ping_encode (motor_id : Z) :
  0 <= motor_id < 256 ->
  DirectReset.ping_packet motor_id = Py.Ok (Codec.encode motor_id 1 []).
Proof.
  intros H. unfold DirectReset.ping_packet. rewrite ping_packet_bytes by exact H.
  rewrite encode_0. reflexivity.
Qed.

Lemma write_word_packet_encode (motor_id address value : Z) :
  0 <= motor_id < 256 -> 0 <= address < 256 ->
  DirectReset.write_word_packet motor_id address value
  = Py.Ok (Codec.encode motor_id 3
             [address; Z.land value 255; Z.land (Z.shiftr value 8) 255]).
Proof.
  intros Hid Haddr. unfold DirectReset.write_word_packet.
  pose proof (land_255_byte value) as Hl.
  pose proof (land_255_byte (Z.shiftr value 8)) as Hh.
  rewrite encode_3. cbv zeta. apply bytearray_bytes.
  pose proof (checksum_byte
      (motor_id + 5 + 3 + address + Z.land value 255
       + Z.land (Z.shiftr value 8) 255)).
  repeat constructor; lia.
Qed.

Lemma read_word_packet_encode (motor_id address length : Z) :
  0 <= motor_id < 256 -> 0 <= address < 256 -> 0 <= length < 256 ->
  DirectReset.read_word_packet motor_id address length
  = Py.Ok (Codec.encode motor_id 2 [address; length]).
Proof.
  intros Hid Haddr Hlen. unfold DirectReset.read_word_packet.
  rewrite encode_2. cbv zeta. apply bytearray_bytes.
  pose proof (checksum_byte (motor_id + 4 + 2 + address + length)).
  repeat constructor; lia.
Qed.

Lemma goal_command_encode (motor_id position : Z) :
  0 <= motor_id < 256 ->
  DirectTeleop.goal_command motor_id position
  = Py.Ok (Codec.encode motor_id 3
             [42; Z.land position 255; Z.land (Z.shiftr position 8) 255]).
Proof.
  intros Hid. unfold DirectTeleop.goal_command.
  pose proof (land_255_byte position) as Hl.
  pose proof (land_255_byte (Z.shiftr position 8)) as Hh.
  rewrite encode_3. cbv zeta. apply bytearray_bytes.
  pose proof (checksum_byte
      (motor_id + 5 + 3 + 42 + Z.land position 255
       + Z.land (Z.shiftr position 8) 255)).
  repeat constructor; lia.
Qed.

(** The packets of [ping_motor], [write_word] and [read_word] carry a
    valid checksum. *)
Lemma direct_reset_checksums (id addr v : Z) (p : list Z) :
  0 <= id < 256 -> 0 <= addr < 256 -> 0 <= v < 256 ->
  (DirectReset.ping_packet id = Py.Ok p
   \/ DirectReset.write_word_packet id addr v = Py.Ok p
   \/ DirectReset.read_word_packet id addr v = Py.Ok p) ->
  Codec.checksum_ok p = true.
Proof.
  intros Hid Haddr Hv [E | [E | E]].
  - rewrite direct_reset_ping_encode in E by exact Hid.
    injection E as <-. apply encode_checksum_ok.
  - rewrite write_word_packet_encode in E by assumption.
    injection E as <-. apply encode_checksum_ok.
  - rewrite read_word_packet_encode in E by assumption.
    injection E as <-. apply encode_checksum_ok.
Qed.

(** What [set_position] appends as checksum: the complement of the sum of
    the id, the length, the instruction, the address and the low byte.
    The high byte of the position, last element of the packet when the
    slice [write_packet[2:-1]] is taken, is left out of the sum. *)
Lemma set_position_packet_shape (motor_id position : Z) :
  0 <= motor_id < 256 ->
  FollowerArmController.write_packet motor_id position
  = Py.Ok [255; 255; motor_id; 5; 3; 42;
           Z.land position 255; Z.land (Z.shiftr position 8) 255;
           255 - (motor_id + 5 + 3 + 42 + Z.land position 255) mod 256].
Proof.
  intros Hid. unfold FollowerArmController.write_packet.
  pose proof (land_255_byte position) as Hl.
  pose proof (land_255_byte (Z.shiftr position 8)) as Hh.
  rewrite bytearray_bytes by (repeat constructor; lia).
  unfold Py.obind, Py.slice_to_end_minus. simpl firstn.
  rewrite complement_checksum. rewrite !sum_cons. change (Py.sum []) with 0.
  replace (motor_id + (5 + (3 + (42 + (Z.land position 255 + 0)))))
    with (motor_id + 5 + 3 + 42 + Z.land position 255) by lia.
  unfold Py.append. rewrite is_byte_true by apply checksum_byte.
  reflexivity.
Qed.

(** The bytes of a [set_position] packet sum, after the header, to
    [0xFF] plus the high byte of the position. *)
Lemma set_position_checked_sum (motor_id position : Z) :
  0 <= motor_id < 256 ->
  exists packet,
    FollowerArmController.write_packet motor_id position = Py.Ok packet
    /\ Codec.checked_sum packet mod 256
       = (255 + Z.land (Z.shiftr position 8) 255) mod 256.
Proof.
  intros Hid. rewrite set_position_packet_shape by exact Hid.
  eexists. split; [reflexivity |].
  unfold Codec.checked_sum, Py.slice_from. cbn [skipn].
  rewrite !sum_cons. change (Py.sum []) with 0.
  set (t := motor_id + 5 + 3 + 42 + Z.land position 255).
  set (h := Z.land (Z.shiftr position 8) 255).
  replace (motor_id + (5 + (3 + (42 + (Z.land position 255
             + (h + (255 - t mod 256 + 0)))))))
    with (255 + h + (t / 256) * 256)
    by (pose proof (Z.div_mod t 256 ltac:(lia)); unfold t in *; lia).
  apply Z.mod_add. lia.
Qed.

(** Hence the checksum of [set_position] is wrong for every position from
    256 up, that is, whenever the high byte is not zero. *)
Lemma set_position_checksum_wrong (motor_id position : Z) (packet : list Z) :
  0 <= motor_id < 256 ->
  256 <= position <= 4095 ->
  FollowerArmController.write_packet motor_id position = Py.Ok packet ->
  Codec.checksum_ok packet = false.
Proof.
  intros Hid Hp E.
  destruct (set_position_checked_sum motor_id position Hid) as [packet' [E' S]].
  rewrite E in E'. injection E' as <-.
  unfold Codec.checksum_ok. rewrite S. apply Z.eqb_neq.
  rewrite land_255_mod, Z.shiftr_div_pow2 by lia. change (2 ^ 8) with 256.
  assert (Hq : 1 <= position / 256 < 16).
  { split; [apply Z.div_le_lower_bound; lia | apply Z.div_lt_upper_bound; lia]. }
  rewrite (Z.mod_small (position / 256) 256) by lia.
  replace (255 + position / 256) with (position / 256 - 1 + 1 * 256) by lia.
  rewrite Z.mod_add by lia. rewrite Z.mod_small by lia. lia.
Qed.

(** C1. Checksum validity of every constructed packet, evaluated on
    [FollowerArmController.set_position(1, 3014)], the first call of
    [return_to_rest]: the packet sent is FF FF 01 05 03 2A C6 0B 06, whose
    bytes after the header sum to 10 modulo 256, not to 0xFF; the packet
    [write_word] builds for the same motor, register and value ends in FB
    and does sum to 0xFF. *)
Theorem set_position_checksum_invalid :
  FollowerArmController.write_packet 1 (FollowerArmController.clamp_position 3014)
  = Py.Ok [255; 255; 1; 5; 3; 42; 198; 11; 6]
  /\ hd_error
       (written
          (FollowerArmController.ser
             (snd (FollowerArmController.return_to_rest
                     (FollowerArmController.init silent_port)))))
     = Some [255; 255; 1; 5; 3; 42; 198; 11; 6]
  /\ Codec.checked_sum [255; 255; 1; 5; 3; 42; 198; 11; 6] mod 256 = 10
  /\ Codec.checksum_ok [255; 255; 1; 5; 3; 42; 198; 11; 6] = false
  /\ DirectReset.write_word_packet 1 DirectReset.ADDR_GOAL_POSITION 3014
     = Py.Ok [255; 255; 1; 5; 3; 42; 198; 11; 251]
  /\ Codec.checksum_ok [255; 255; 1; 5; 3; 42; 198; 11; 251] = true.
Proof.
  repeat split; vm_compute; reflexivity.
Qed.

(** C8. For every motor id in 1..6 the "Protocol 1 (Alternative format)"
    ping packet of the leader protocol test is byte for byte the
    "Protocol 0 (Feetech/SCS)" ping packet. *)
Theorem protocol1_ping_is_protocol0 (motor_id : Z) :
  1 <= motor_id <= 6 ->
  LeaderProtocolTest.ping_packet 1 motor_id = LeaderProtocolTest.ping_packet 0 motor_id
  /\ LeaderProtocolTest.ping_packet 0 motor_id
     = Py.Ok [255; 255; motor_id; 2; 1; 255 - (motor_id + 2 + 1) mod 256].
Proof.
  intros H.
  assert (Hb : 0 <= motor_id < 256) by lia.
  assert (E0 : LeaderProtocolTest.ping_packet 0 motor_id
               = Py.Ok [255; 255; motor_id; 2; 1; 255 - (motor_id + 2 + 1) mod 256]).
  { unfold LeaderProtocolTest.ping_packet. simpl Z.eqb. cbv iota.
    apply ping_packet_bytes. exact Hb. }
  split; [| exact E0]. rewrite E0.
  unfold LeaderProtocolTest.ping_packet. simpl Z.eqb. cbv iota.
  rewrite bytearray_bytes by (repeat constructor; lia).
  unfold Py.obind, Py.slice_to_end_minus. simpl firstn.
  rewrite complement_checksum, !sum_cons. change (Py.sum []) with 0.
  replace (motor_id + (2 + (1 + 0))) with (motor_id + 2 + 1) by lia.
  unfold Py.set_last. rewrite is_byte_true by apply checksum_byte.
  reflexivity.
Qed.

Lemma protocol1_ping_is_protocol0_witness :
  LeaderProtocolTest.ping_packet 1 6 = LeaderProtocolTest.ping_packet 0 6.
Proof.
  refine (proj1 (protocol1_ping_is_protocol0 6 _)). lia.
Defined.

(** ** Recognition of ping replies *)

Lemma item_nth_error (l : list Z) (i : nat) (v : Z) :
  (i < length l)%nat -> (Py.item l i =? v) = true <-> nth_error l i = Some v.
Proof.
  intros Hi. unfold Py.item. rewrite Z.eqb_eq.
  rewrite (nth_error_nth' l 0 Hi). split.
  - intros ->. reflexivity.
  - intros E. injection E as E. exact E.
Qed.

(** The reply test of the scripts is the recognition rule of the
    protocol summary. *)
Lemma header_and_id_ok_valid (motor_id : Z) (response : list Z) :
  header_and_id_ok 6 motor_id response = true <-> valid_ping_reply motor_id response.
Proof.
  unfold header_and_id_ok, valid_ping_reply. rewrite !andb_true_iff, Z.leb_le.
  split.
  - intros [[[Hlen H0] H1] H2].
    assert (L : (6 <= length response)%nat) by lia.
    rewrite item_nth_error in H0, H1, H2 by lia. tauto.
  - intros [H0 [H1 [H2 L]]].
    rewrite !item_nth_error by lia. repeat split; try assumption. lia.
Qed.

Lemma reply_idiom (judge : list Z -> bool) (packet : list Z) (s : Serial) :
  exists s',
    (SerialPort.write packet ;;;
     SerialPort.sleep ;;;
     n <- SerialPort.in_waiting ;;
     if n =? 0 then Py.ret false
     else
       response <- SerialPort.read n ;;
       Py.ret (judge response)) s
    = (Py.Ok (match SerialPort.received s with
              | [] => false
              | _ => judge (SerialPort.received s)
              end), s')
    /\ written s' = written s ++ [packet].
Proof.
  unfold Py.bind, SerialPort.write, SerialPort.sleep, SerialPort.in_waiting,
    SerialPort.read, SerialPort.received, Py.modify, Py.ret. simpl.
  destruct (in_buffer s ++ hd [] (arrivals s)) as [| b l] eqn:E.
  - simpl. eexists; split; reflexivity.
  - replace (Z.of_nat (length (b :: l)) =? 0) with false
      by (symmetry; apply Z.eqb_neq; simpl length; lia).
    rewrite Nat2Z.id, firstn_all. eexists; split; reflexivity.
Qed.

Lemma accepted_ping_motor (motor_id : Z) (s : Serial) :
  0 <= motor_id < 256 ->
  accepted PingMotor motor_id s = header_and_id_ok 6 motor_id (SerialPort.received s).
Proof.
  intros H. unfold accepted, run_ping, DirectReset.ping_motor, DirectReset.ping_packet.
  rewrite (ping_packet_bytes motor_id H).
  unfold Py.bind at 1. unfold Py.lift.
  destruct (ping_idiom [255; 255; motor_id; 2; 1; 255 - (motor_id + 2 + 1) mod 256]
              motor_id s) as [s' [E _]].
  rewrite E. reflexivity.
Qed.

Lemma accepted_ping_all_motors (motor_id : Z) (s : Serial) :
  0 <= motor_id < 256 ->
  accepted PingAllMotors motor_id s
  = header_and_id_ok 6 motor_id (SerialPort.received s).
Proof.
  intros H. unfold accepted, run_ping, DirectTeleop.ping_follower,
    DirectTeleop.ping_packet, Py.try_except.
  rewrite (ping_packet_bytes motor_id H).
  unfold Py.bind at 1. unfold Py.lift.
  destruct (ping_idiom [255; 255; motor_id; 2; 1; 255 - (motor_id + 2 + 1) mod 256]
              motor_id s) as [s' [E _]].
  rewrite E. reflexivity.
Qed.

Lemma protocol_ping_packet_built (protocol_idx motor_id : Z) :
  0 <= motor_id < 256 ->
  exists packet, LeaderProtocolTest.ping_packet protocol_idx motor_id = Py.Ok packet.
Proof.
  intros H. unfold LeaderProtocolTest.ping_packet.
  destruct (protocol_idx =? 0).
  - rewrite (ping_packet_bytes motor_id H). eexists; reflexivity.
  - destruct (protocol_idx =? 1).
    + rewrite bytearray_bytes by (repeat constructor; lia).
      unfold Py.obind, Py.set_last.
      rewrite is_byte_true by apply land_255_byte. eexists; reflexivity.
    + rewrite bytearray_bytes by (repeat constructor; lia).
      unfold Py.obind, Py.append. simpl Py.is_byte. eexists; reflexivity.
Qed.

Lemma accepted_test_protocol (protocol_idx motor_id : Z) (s : Serial) :
  0 <= motor_id < 256 ->
  accepted (TestProtocol protocol_idx) motor_id s
  = match SerialPort.received s with [] => false | _ => true end.
Proof.
  intros H. unfold accepted, run_ping, LeaderProtocolTest.ping_one.
  destruct (protocol_ping_packet_built protocol_idx motor_id H) as [packet E].
  rewrite E. unfold Py.bind at 1. unfold Py.lift.
  destruct (reply_idiom (fun response => 0 <? Z.of_nat (length response)) packet s)
    as [s' [E' _]].
  rewrite E'. simpl fst.
  destruct (SerialPort.received s) as [| b l]; [reflexivity |].
  apply Z.ltb_lt. simpl length. lia.
Qed.

(** C2, as stated, fails: [test_protocol] counts the single byte 0x00 as a
    reply of motor 1. *)
Lemma ping_reply_recognition_counterexample :
  ~ (forall (site : ping_site) (motor_id : Z) (s : Serial),
       1 <= motor_id <= 6 ->
       (accepted site motor_id s = true
        <-> valid_ping_reply motor_id (SerialPort.received s))).
Proof.
  intros H.
  specialize (H (TestProtocol 0) 1 (mkSerial [] [] [[0]]) ltac:(lia)).
  destruct H as [H _].
  assert (A : accepted (TestProtocol 0) 1 (mkSerial [] [] [[0]]) = true)
    by (vm_compute; reflexivity).
  destruct (H A) as [H0 _]. simpl in H0. discriminate H0.
Qed.

(** C2, amended. Ping-reply recognition: for every queried motor id, in
    [ping_motor] and in the direct-mode follower part of
    [ping_all_motors] the received byte sequence is accepted if and only
    if it starts with 0xFF 0xFF, its third byte is the queried id and it
    has at least 6 bytes; the leader protocol test reports success for any
    non-empty received sequence. *)
Theorem ping_reply_recognition (motor_id : Z) (s : Serial) :
  0 <= motor_id < 256 ->
  (accepted PingMotor motor_id s = true
   <-> valid_ping_reply motor_id (SerialPort.received s))
  /\ (accepted PingAllMotors motor_id s = true
      <-> valid_ping_reply motor_id (SerialPort.received s))
  /\ (forall protocol_idx,
        accepted (TestProtocol protocol_idx) motor_id s = true
        <-> SerialPort.received s <> []).
Proof.
  intros H. split; [| split].
  - rewrite accepted_ping_motor by exact H. apply header_and_id_ok_valid.
  - rewrite accepted_ping_all_motors by exact H. apply header_and_id_ok_valid.
  - intros protocol_idx. rewrite accepted_test_protocol by exact H.
    destruct (SerialPort.received s) as [| b l]; split.
    + discriminate.
    + intros N. contradiction N. reflexivity.
    + discriminate.
    + reflexivity.
Qed.

Lemma ping_reply_recognition_witness :
  accepted PingMotor 6 (mkSerial [] [] [[255; 255; 6; 2; 0; 247]]) = true
  <-> valid_ping_reply 6
        (SerialPort.received (mkSerial [] [] [[255; 255; 6; 2; 0; 247]])).
Proof.
  refine (proj1 (ping_reply_recognition 6 (mkSerial [] [] [[255; 255; 6; 2; 0; 247]]) _)).
  lia.
Defined.

(** ** Codec round trip *)

(** Splitting a 16-bit word into its two bytes and reassembling it. *)
Lemma word_split_join (p : Z) :
  0 <= p < 65536 ->
  Z.shiftl (Z.land (Z.shiftr p 8) 255) 8 + Z.land p 255 = p.
Proof.
  intros H. rewrite !land_255_mod, Z.shiftr_div_pow2, Z.shiftl_mul_pow2 by lia.
  change (2 ^ 8) with 256.
  assert (Hq : 0 <= p / 256 < 256).
  { split; [apply Z.div_pos; lia | apply Z.div_lt_upper_bound; lia]. }
  rewrite (Z.mod_small (p / 256) 256) by exact Hq.
  pose proof (Z.div_mod p 256 ltac:(lia)). lia.
Qed.

Lemma encode_length (id instruction : Z) (params : list Z) :
  length (Codec.encode id instruction params) = (length params + 6)%nat.
Proof.
  unfold Codec.encode. rewrite !length_app. simpl. lia.
Qed.

Lemma decode_encode (id instruction : Z) (params : list Z) :
  Codec.decode id (Codec.encode id instruction params) = Some (id, instruction, params).
Proof.
  unfold Codec.decode, header_and_id_ok.
  rewrite encode_length.
  replace (6 <=? Z.of_nat (length params + 6)) with true
    by (symmetry; apply Z.leb_le; lia).
  unfold Py.slice_to_end_minus. rewrite encode_length.
  unfold Codec.encode, Py.item. cbn [app nth skipn].
  rewrite !Z.eqb_refl. cbn [andb].
  replace (length params + 6 - 1 - 5)%nat with (length params + 0)%nat by lia.
  rewrite firstn_app_2, firstn_O, app_nil_r. reflexivity.
Qed.

Lemma encode_bytes (id instruction : Z) (params : list Z) :
  Codec.valid id instruction params ->
  Py.bytearray (Codec.encode id instruction params)
  = Py.Ok (Codec.encode id instruction params).
Proof.
  intros [Hid [Hin [Hp Hlen]]]. apply bytearray_bytes.
  unfold Codec.encode, Codec.length_byte. cbn [app].
  repeat (apply Forall_cons; [lia |]).
  apply Forall_app. split; [exact Hp |].
  apply Forall_cons; [apply checksum_byte | constructor].
Qed.

(** C3. Codec round trip: for all valid (id, instruction, params) the
    encoded packet is a well-formed byte sequence and decoding it recovers
    the id, the instruction and the parameter bytes; for every position
    [p] in [0, 4095], splitting [p] into [p & 0xFF] and [(p >> 8) & 0xFF]
    and reassembling [(high << 8) + low] yields [p], which is what the
    reply parsers of [read_word] and [test_follower_arm] return on a packet
    carrying the two bytes, and [write_word] sends them in that layout. *)
Theorem codec_round_trip (id instruction : Z) (params : list Z) (p : Z) :
  Codec.valid id instruction params ->
  0 <= p <= 4095 ->
  Py.bytearray (Codec.encode id instruction params)
  = Py.Ok (Codec.encode id instruction params)
  /\ Codec.decode id (Codec.encode id instruction params)
     = Some (id, instruction, params)
  /\ Z.shiftl (Z.land (Z.shiftr p 8) 255) 8 + Z.land p 255 = p
  /\ DirectReset.parse_word id
       (Codec.encode id instruction [Z.land p 255; Z.land (Z.shiftr p 8) 255])
     = (p, true)
  /\ DirectTeleop.parse_position
       (Codec.encode id instruction [Z.land p 255; Z.land (Z.shiftr p 8) 255])
     = Some p
  /\ DirectReset.write_word_packet id DirectReset.ADDR_GOAL_POSITION p
     = Py.Ok (Codec.encode id 3
                [DirectReset.ADDR_GOAL_POSITION;
                 Z.land p 255; Z.land (Z.shiftr p 8) 255]).
Proof.
  intros Hv Hp.
  assert (W : Z.shiftl (Z.land (Z.shiftr p 8) 255) 8 + Z.land p 255 = p)
    by (apply word_split_join; lia).
  split; [apply encode_bytes; exact Hv |].
  split; [apply decode_encode |].
  split; [exact W |].
  split; [| split].
  - unfold DirectReset.parse_word, header_and_id_ok.
    rewrite encode_length. unfold Codec.encode, Py.item. cbn [app nth length].
    rewrite !Z.eqb_refl.
    change (8 <=? Z.of_nat (2 + 6)) with true. cbn [andb].
    rewrite W. reflexivity.
  - unfold DirectTeleop.parse_position.
    rewrite encode_length. unfold Codec.encode, Py.item. cbn [app nth length].
    change (8 <=? Z.of_nat (2 + 6)) with true. cbv iota.
    rewrite W. reflexivity.
  - destruct Hv as [Hid _].
    apply write_word_packet_encode; [exact Hid | unfold DirectReset.ADDR_GOAL_POSITION; lia].
Qed.

Lemma codec_round_trip_witness :
  Codec.decode 6 (Codec.encode 6 3 [42; 0; 8]) = Some (6, 3, [42; 0; 8]).
Proof.
  refine (proj1 (proj2 (codec_round_trip 6 3 [42; 0; 8] 2048 _ _))).
  - unfold Codec.valid. repeat split; try lia.
    + repeat constructor; lia.
    + simpl. lia.
  - lia.
Defined.

(** ** Range of the commanded goal positions *)

Ltac split_if :=
  match goal with
  | |- context [if ?b then _ else _] => destruct b eqn:?
  end.

Lemma clamp_range (x : Z) : 0 <= Py.max 0 (Py.min 4095 x) <= 4095.
Proof.
  unfold Py.max, Py.min. lia.
Qed.

Lemma follower_targets_range (pairs : list (num * Z)) :
  forall targets,
    DirectTeleop.follower_targets pairs = Py.Ok targets ->
    Forall (fun t => 0 <= t <= 4095) targets
    /\ length targets = length pairs.
Proof.
  induction pairs as [| [pos offset] rest IH]; intros targets E; simpl in E.
  - injection E as <-. split; [constructor | reflexivity].
  - destruct (to_int pos) as [i |]; simpl in E; [| discriminate].
    destruct (DirectTeleop.follower_targets rest) as [l |]; simpl in E; [| discriminate].
    injection E as <-. destruct (IH l eq_refl) as [F L]. split.
    + constructor; [| exact F].
      pose proof (Z.mod_pos_bound (i + offset) 4096 ltac:(lia)). lia.
    + simpl. rewrite L. reflexivity.
Qed.

(** Whatever the SDK answers, the SDK branch of [set_follower_positions]
    requests one write per pair, of the clamped position to register 42. *)
Lemma set_sdk_loop_sent (pairs : list (Z * Z)) :
  forall count b,
    sdk_sent (snd (DirectTeleop.set_sdk_loop pairs count b))
    = sdk_sent b
      ++ map (fun p => (fst p, 42, DirectTeleop.safe_position (snd p))) pairs.
Proof.
  induction pairs as [| [motor_id position] rest IH]; intros count b.
  - simpl. rewrite app_nil_r. reflexivity.
  - cbn [DirectTeleop.set_sdk_loop map fst snd].
    unfold Py.bind at 1. unfold Py.try_except.
    unfold Sdk.write2ByteTxRx, Sdk.transmit, Py.bind, Py.ret.
    destruct (sdk_script b (sdk_calls b) motor_id) as [value result error | code].
    + cbn [fst snd]. destruct (result =? Sdk.COMM_SUCCESS);
        rewrite IH; cbn [sdk_sent]; rewrite <- app_assoc; reflexivity.
    + cbn [Py.is_exception]. rewrite IH. cbn [sdk_sent].
      rewrite <- app_assoc. reflexivity.
Qed.

(** The direct branch sends one goal-position packet per pair. *)
Lemma set_direct_loop_written (pairs : list (Z * Z)) :
  Forall (fun p => 0 <= fst p < 256) pairs ->
  forall count s,
    written (snd (DirectTeleop.set_direct_loop pairs count s))
    = written s
      ++ map (fun p => Codec.encode (fst p) 3
                         [42; Z.land (snd p) 255; Z.land (Z.shiftr (snd p) 8) 255])
           pairs.
Proof.
  induction pairs as [| [motor_id position] rest IH]; intros F count s.
  - simpl. rewrite app_nil_r. reflexivity.
  - inversion F as [| p l Hid F']; subst. cbn [fst] in Hid.
    cbn [DirectTeleop.set_direct_loop map fst snd].
    rewrite goal_command_encode by exact Hid.
    unfold Py.bind at 1. unfold Py.lift.
    unfold Py.bind at 1. unfold Py.try_except.
    unfold Py.bind, SerialPort.write, SerialPort.sleep, SerialPort.in_waiting,
      SerialPort.read, Py.modify, Py.ret. cbn [in_buffer arrivals written].
    destruct (Z.of_nat (length (in_buffer s ++ hd [] (arrivals s))) =? 0);
      rewrite (IH F'); cbn [written]; rewrite <- app_assoc; reflexivity.
Qed.

(** [set_position] sends at most one packet, built for the clamped
    position. *)
Lemma set_position_written (motor_id position : Z) (c : FollowerArmController.t) :
  let c' := snd (FollowerArmController.set_position motor_id position c) in
  written (FollowerArmController.ser c') = written (FollowerArmController.ser c)
  \/ exists packet,
       FollowerArmController.write_packet motor_id
         (FollowerArmController.clamp_position position) = Py.Ok packet
       /\ written (FollowerArmController.ser c')
          = written (FollowerArmController.ser c) ++ [packet].
Proof.
  cbv zeta. unfold FollowerArmController.set_position.
  cbv [Py.bind Py.get Py.ret Py.lift Py.modify FollowerArmController.on_ser
       SerialPort.write SerialPort.sleep SerialPort.in_waiting SerialPort.read
       FollowerArmController.store_position].
  cbn [FollowerArmController.ser FollowerArmController.connected
       FollowerArmController.current_positions in_buffer arrivals written fst snd].
  destruct (negb (FollowerArmController.connected c)); [left; reflexivity |].
  destruct ((motor_id <? 1) || (motor_id >? 6)); [left; reflexivity |].
  destruct (FollowerArmController.write_packet motor_id
              (FollowerArmController.clamp_position position)) as [packet |] eqn:E;
    [| left; reflexivity].
  right. exists packet. split; [reflexivity |].
  repeat (split_if;
          cbn [FollowerArmController.ser FollowerArmController.connected
               FollowerArmController.current_positions in_buffer arrivals written
               fst snd]);
    try reflexivity.
  destruct (Py.set_item _ _ _); reflexivity.
Qed.

(** ** The percent-move script *)

(** C9. The shipped move_motors_percent.py cannot provide the safety
    gate: Python rejects the file when it compiles it, with an
    [IndentationError] at line 199 (a statement at column 18 right after
    line 198, which is at column 16 and opens no block), after accepting
    every line before.  So the script raises before [main] is defined,
    whatever [main] would do, and leaves the motors bus untouched:
    [check_joint_limits], a closure of [main], is never created and never
    returns a verdict. *)
Theorem script_does_not_compile :
  MovePercent.load_module = Py.Raised (Py.IndentationError 199)
  /\ (forall (S : Type) (main : Py.M S unit) (bus : S),
        MovePercent.run_script main bus = (Py.Raised (Py.IndentationError 199), bus))
  /\ MovePercent.check_layout [0%nat] false
       (filter (fun l => MovePercent.lineno l <? 199) MovePercent.source)
     = Py.Ok tt
  /\ nth_error MovePercent.source 131 = Some (MovePercent.L 198 16 false)
  /\ nth_error MovePercent.source 132 = Some (MovePercent.L 199 18 false).
Proof.
  assert (E : MovePercent.load_module = Py.Raised (Py.IndentationError 199))
    by (vm_compute; reflexivity).
  split; [exact E |]. split.
  - intros S main bus. unfold MovePercent.run_script, Py.bind, Py.lift.
    rewrite E. reflexivity.
  - split; [vm_compute; reflexivity |]. split; reflexivity.
Qed.

(** ** Reading the leader arm *)

Lemma read_one_spec (motor_id : Z) (positions : list Z) (w : DirectTeleop.World) :
  let b := DirectTeleop.leader_bus w in
  DirectTeleop.read_one motor_id positions w
  = (Py.Ok (positions ++ [leader_entry (sdk_script b (sdk_calls b) motor_id)]),
     DirectTeleop.set_leader_bus
       (mkSdkBus (sdk_script b) (sdk_msg_raises b) (S (sdk_calls b)) (sdk_sent b ++ []))
       w).
Proof.
  cbv zeta. unfold DirectTeleop.read_one.
  cbv [Py.try_except Py.bind Py.ret DirectTeleop.on_leader Sdk.read2ByteTxRx
       Sdk.transmit Sdk.getTxRxResult leader_entry].
  destruct (sdk_script (DirectTeleop.leader_bus w)
              (sdk_calls (DirectTeleop.leader_bus w)) motor_id)
    as [value result error | code].
  - cbn [fst snd]. destruct (result =? Sdk.COMM_SUCCESS); [reflexivity |].
    cbn [DirectTeleop.leader_bus DirectTeleop.set_leader_bus sdk_msg_raises].
    destruct (sdk_msg_raises (DirectTeleop.leader_bus w) result); reflexivity.
  - reflexivity.
Qed.

Lemma read_leader_loop_spec (ids : list Z) :
  forall positions w,
    let b := DirectTeleop.leader_bus w in
    fst (DirectTeleop.read_leader_loop ids positions w)
    = Py.Ok (positions
             ++ map (fun p => leader_entry (sdk_script b (fst p) (snd p)))
                  (combine (seq (sdk_calls b) (length ids)) ids)).
Proof.
  induction ids as [| motor_id rest IH]; intros positions w; cbv zeta.
  - simpl. rewrite app_nil_r. reflexivity.
  - cbn [DirectTeleop.read_leader_loop]. unfold Py.bind.
    rewrite read_one_spec. cbv zeta. rewrite IH.
    cbn [DirectTeleop.leader_bus DirectTeleop.set_leader_bus sdk_script sdk_calls
         length seq combine map fst snd].
    rewrite <- app_assoc. reflexivity.
Qed.

(** C10. Totality of leader reads with silent centre fallback:
    [read_leader_positions] always returns a list of exactly 6 entries,
    one per motor id in the order 1..6; the entry of a motor is the
    position its read returned when the read succeeded, and 2048 when the
    read failed or raised. *)
Theorem read_leader_positions_total (w : DirectTeleop.World) :
  let b := DirectTeleop.leader_bus w in
  let n := sdk_calls b in
  let positions :=
    [leader_entry (sdk_script b n 1);
     leader_entry (sdk_script b (1 + n) 2);
     leader_entry (sdk_script b (2 + n) 3);
     leader_entry (sdk_script b (3 + n) 4);
     leader_entry (sdk_script b (4 + n) 5);
     leader_entry (sdk_script b (5 + n) 6)] in
  fst (DirectTeleop.read_leader_positions w) = Py.Ok positions
  /\ length positions = length DirectTeleop.MOTOR_IDS
  /\ length positions = 6%nat
  /\ (forall value result error,
        leader_entry (SdkReturn value result error)
        = if result =? Sdk.COMM_SUCCESS then value else 2048)
  /\ (forall code, leader_entry (SdkRaise code) = 2048).
Proof.
  cbv zeta. split.
  - unfold DirectTeleop.read_leader_positions. rewrite read_leader_loop_spec.
    reflexivity.
  - repeat split.
Qed.

(** ** Frame lemmas for the direct teleoperation script *)

Section Keeps.

Context {X : Type} (proj : DirectTeleop.World -> X).

Lemma keeps_ret {A : Type} (a : A) : keeps proj (Py.ret a).
Proof.
  intros w. reflexivity.
Qed.

Lemma keeps_lift {A : Type} (o : Py.outcome A) : keeps proj (Py.lift o).
Proof.
  intros w. reflexivity.
Qed.

Lemma keeps_get : keeps proj Py.get.
Proof.
  intros w. reflexivity.
Qed.

Lemma keeps_bind {A B : Type} (m : Py.M DirectTeleop.World A)
    (f : A -> Py.M DirectTeleop.World B) :
  keeps proj m -> (forall a, keeps proj (f a)) -> keeps proj (Py.bind m f).
Proof.
  intros Hm Hf w. unfold Py.bind. specialize (Hm w).
  destruct (m w) as [[a | e] w']; cbn [snd] in *.
  - rewrite Hf. exact Hm.
  - exact Hm.
Qed.

Lemma keeps_try_except {A : Type} (body : Py.M DirectTeleop.World A)
    (handler : Py.exn -> Py.M DirectTeleop.World A) :
  keeps proj body -> (forall e, keeps proj (handler e)) ->
  keeps proj (Py.try_except body handler).
Proof.
  intros Hb Hh w. unfold Py.try_except. specialize (Hb w).
  destruct (body w) as [[a | e] w']; cbn [snd] in *.
  - exact Hb.
  - destruct (Py.is_exception e); cbn [snd]; [rewrite Hh |]; exact Hb.
Qed.

Lemma try_except_proj {A : Type} (body : Py.M DirectTeleop.World A)
    (handler : Py.exn -> Py.M DirectTeleop.World A) (w : DirectTeleop.World) :
  (forall e, keeps proj (handler e)) ->
  proj (snd (Py.try_except body handler w)) = proj (snd (body w)).
Proof.
  intros Hh. unfold Py.try_except.
  destruct (body w) as [[a | e] w']; cbn [snd]; [reflexivity |].
  destruct (Py.is_exception e); cbn [snd]; [apply Hh | reflexivity].
Qed.

Lemma bind_proj {A B : Type} (m : Py.M DirectTeleop.World A)
    (f : A -> Py.M DirectTeleop.World B) (w : DirectTeleop.World) :
  (forall a, keeps proj (f a)) ->
  proj (snd (Py.bind m f w)) = proj (snd (m w)).
Proof.
  intros Hf. unfold Py.bind.
  destruct (m w) as [[a | e] w']; cbn [snd]; [apply Hf | reflexivity].
Qed.

Lemma keeps_modify (f : DirectTeleop.World -> DirectTeleop.World) :
  (forall w, proj (f w) = proj w) -> keeps proj (Py.modify f).
Proof.
  intros H w. apply H.
Qed.

Lemma keeps_on_leader {A : Type} (m : Py.M SdkBus A) :
  (forall b w, proj (DirectTeleop.set_leader_bus b w) = proj w) ->
  keeps proj (DirectTeleop.on_leader m).
Proof.
  intros H w. unfold DirectTeleop.on_leader.
  destruct (m (DirectTeleop.leader_bus w)). apply H.
Qed.

Lemma keeps_on_follower_bus {A : Type} (m : Py.M SdkBus A) :
  (forall b w, proj (DirectTeleop.set_follower_bus b w) = proj w) ->
  keeps proj (DirectTeleop.on_follower_bus m).
Proof.
  intros H w. unfold DirectTeleop.on_follower_bus.
  destruct (m (DirectTeleop.follower_bus w)). apply H.
Qed.

Lemma keeps_on_follower_serial {A : Type} (m : Py.M Serial A) :
  (forall s w, proj (DirectTeleop.set_follower_serial s w) = proj w) ->
  keeps proj (DirectTeleop.on_follower_serial m).
Proof.
  intros H w. unfold DirectTeleop.on_follower_serial.
  destruct (DirectTeleop.follower_serial w) as [s |]; [| reflexivity].
  destruct (m s). apply H.
Qed.

Lemma keeps_read_flag (t : DirectTeleop.thread) (line : Z) :
  (forall l w, proj (DirectTeleop.set_flag_accesses l w) = proj w) ->
  keeps proj (DirectTeleop.read_flag t line).
Proof.
  intros H w. apply H.
Qed.

Lemma keeps_read_leader_loop (ids : list Z) :
  (forall b w, proj (DirectTeleop.set_leader_bus b w) = proj w) ->
  forall positions, keeps proj (DirectTeleop.read_leader_loop ids positions).
Proof.
  intros H.
  induction ids as [| motor_id rest IH]; intros positions;
    cbn [DirectTeleop.read_leader_loop].
  - apply keeps_ret.
  - apply keeps_bind; [| intros a; apply IH].
    intros w. rewrite read_one_spec. apply H.
Qed.

Lemma keeps_read_leader_positions :
  (forall b w, proj (DirectTeleop.set_leader_bus b w) = proj w) ->
  keeps proj DirectTeleop.read_leader_positions.
Proof.
  intros H. apply keeps_read_leader_loop. exact H.
Qed.

Lemma keeps_set_follower_positions (positions : list Z) :
  (forall b w, proj (DirectTeleop.set_follower_bus b w) = proj w) ->
  (forall s w, proj (DirectTeleop.set_follower_serial s w) = proj w) ->
  keeps proj (DirectTeleop.set_follower_positions positions).
Proof.
  intros Hb Hs. unfold DirectTeleop.set_follower_positions.
  intros w. unfold Py.bind, Py.get.
  destruct (DirectTeleop.DIRECT_MODE w);
    [destruct (DirectTeleop.follower_serial w) eqn:E |].
  - apply keeps_on_follower_serial. exact Hs.
  - apply keeps_on_follower_bus. exact Hb.
  - apply keeps_on_follower_bus. exact Hb.
Qed.

Lemma keeps_send_if_changed (active : bool) (smoothed : list num) :
  (forall b w, proj (DirectTeleop.set_follower_bus b w) = proj w) ->
  (forall s w, proj (DirectTeleop.set_follower_serial s w) = proj w) ->
  (forall l w, proj (DirectTeleop.set_previous_positions l w) = proj w) ->
  keeps proj (DirectTeleop.send_if_changed active smoothed).
Proof.
  intros Hb Hs Hp. unfold DirectTeleop.send_if_changed.
  apply keeps_bind; [apply keeps_get | intros w'].
  apply keeps_bind; [apply keeps_lift | intros changed].
  destruct (_ && _); [| apply keeps_ret].
  apply keeps_bind; [apply keeps_lift | intros fp].
  apply keeps_bind; [apply keeps_set_follower_positions; assumption | intros _].
  apply keeps_modify. apply Hp.
Qed.

Lemma keeps_show_status :
  (forall l w, proj (DirectTeleop.set_flag_accesses l w) = proj w) ->
  keeps proj DirectTeleop.show_status.
Proof.
  intros H. unfold DirectTeleop.show_status.
  apply keeps_bind; [apply keeps_get | intros w'].
  destruct (negb _); [| apply keeps_ret].
  apply keeps_bind; [apply keeps_read_flag; exact H | intros _; apply keeps_ret].
Qed.

End Keeps.

(** A side condition of a frame lemma: the setter does not touch the
    component. *)
Ltac frame := intros; reflexivity.

(** The world after the locked read of line 602. *)
Lemma locked_read (w : DirectTeleop.World) :
  DirectTeleop.lock_holder w = None ->
  DirectTeleop.with_lock DirectTeleop.MainThread
    (DirectTeleop.read_flag DirectTeleop.MainThread 602) w
  = (Py.Ok (DirectTeleop.teleoperation_active w),
     DirectTeleop.set_flag_accesses
       (DirectTeleop.flag_accesses w
        ++ [DirectTeleop.mkAccess DirectTeleop.MainThread DirectTeleop.ReadAccess
              602 true])
       w).
Proof.
  intros H. unfold DirectTeleop.with_lock. rewrite H.
  unfold DirectTeleop.read_flag, DirectTeleop.log_access, DirectTeleop.holds.
  cbn [DirectTeleop.lock_holder DirectTeleop.set_lock_holder DirectTeleop.thread_eqb
       DirectTeleop.flag_accesses].
  destruct w as [ta dm dr po fs lb fb lh fa sp pp].
  cbn [DirectTeleop.lock_holder] in H. subst lh. reflexivity.
Qed.

(** The list [read_leader_positions] returns depends on the leader bus
    only. *)
Lemma read_leader_positions_bus (w1 w2 : DirectTeleop.World) :
  DirectTeleop.leader_bus w1 = DirectTeleop.leader_bus w2 ->
  fst (DirectTeleop.read_leader_positions w1) = fst (DirectTeleop.read_leader_positions w2).
Proof.
  intros E. unfold DirectTeleop.read_leader_positions.
  rewrite !read_leader_loop_spec. cbv zeta. rewrite E. reflexivity.
Qed.

(** ** What one iteration of the direct loop sends *)

Lemma combine_ids_bytes (targets : list Z) :
  Forall (fun p : Z * Z => 0 <= fst p < 256) (combine DirectTeleop.MOTOR_IDS targets).
Proof.
  apply Forall_forall. intros [motor_id position] Hin.
  apply in_combine_l in Hin. cbn [fst].
  change DirectTeleop.MOTOR_IDS with [1; 2; 3; 4; 5; 6] in Hin.
  simpl in Hin. lia.
Qed.

(** In direct mode, everything an iteration sends to the follower is a
    goal-position packet for a target in [0, 4095]. *)
Lemma main_iteration_commands (w : DirectTeleop.World) (s : Serial) :
  DirectTeleop.lock_holder w = None ->
  DirectTeleop.DIRECT_MODE w = true ->
  DirectTeleop.follower_serial w = Some s ->
  exists targets,
    Forall (fun t => 0 <= t <= 4095) targets
    /\ follower_written (snd (DirectTeleop.main_iteration w))
       = written s
         ++ map (fun p => Codec.encode (fst p) 3
                            [42; Z.land (snd p) 255; Z.land (Z.shiftr (snd p) 8) 255])
              (combine DirectTeleop.MOTOR_IDS targets).
Proof.
  intros Hlock Hdirect Hserial.
  assert (Hnone : forall w',
            DirectTeleop.follower_serial w' = Some s ->
            exists targets,
              Forall (fun t => 0 <= t <= 4095) targets
              /\ follower_written w'
                 = written s
                   ++ map (fun p => Codec.encode (fst p) 3
                                      [42; Z.land (snd p) 255;
                                       Z.land (Z.shiftr (snd p) 8) 255])
                        (combine DirectTeleop.MOTOR_IDS targets)).
  { intros w' E. exists []. split; [constructor |].
    unfold follower_written. rewrite E. cbn [combine map].
    rewrite app_nil_r. reflexivity. }
  unfold DirectTeleop.main_iteration.
  rewrite try_except_proj by (intros e; apply keeps_ret).
  unfold DirectTeleop.main_body.
  unfold Py.bind at 1. rewrite (locked_read w Hlock).
  set (w1 := DirectTeleop.set_flag_accesses _ w).
  pose proof (keeps_read_leader_positions DirectTeleop.follower_serial
                ltac:(frame) w1) as Hk1.
  pose proof (keeps_read_leader_positions DirectTeleop.DIRECT_MODE
                ltac:(frame) w1) as Hk2.
  unfold Py.bind at 1.
  destruct (DirectTeleop.read_leader_positions w1) as [[readings | e] w2];
    cbn [fst snd] in Hk1, Hk2.
  2: { apply Hnone. cbn [snd]. rewrite Hk1. exact Hserial. }
  unfold Py.bind at 1. unfold Py.get at 1.
  unfold Py.bind at 1. unfold Py.lift at 1.
  destruct (smooth _ _ _) as [smoothed | e].
  2: { apply Hnone. cbn [snd]. rewrite Hk1. exact Hserial. }
  unfold Py.bind at 1. unfold Py.modify at 1.
  set (w3 := DirectTeleop.set_smoothed_positions smoothed w2).
  assert (H3s : DirectTeleop.follower_serial w3 = Some s)
    by (unfold w3; cbn [DirectTeleop.follower_serial DirectTeleop.set_smoothed_positions];
        rewrite Hk1; exact Hserial).
  assert (H3d : DirectTeleop.DIRECT_MODE w3 = true)
    by (unfold w3; cbn [DirectTeleop.DIRECT_MODE DirectTeleop.set_smoothed_positions];
        rewrite Hk2; exact Hdirect).
  rewrite bind_proj by (intros _; apply keeps_show_status; frame).
  unfold DirectTeleop.send_if_changed.
  unfold Py.bind at 1. unfold Py.get at 1.
  unfold Py.bind at 1. unfold Py.lift at 1.
  destruct (DirectTeleop.position_changed _) as [changed | e];
    [| apply Hnone; exact H3s].
  destruct (_ && _); [| apply Hnone; exact H3s].
  unfold Py.bind at 1. unfold Py.lift at 1.
  destruct (DirectTeleop.follower_targets _) as [targets | e] eqn:Et;
    [| apply Hnone; exact H3s].
  rewrite bind_proj by (intros _; apply keeps_modify; frame).
  exists targets. split; [apply (follower_targets_range _ _ Et) |].
  unfold DirectTeleop.set_follower_positions.
  unfold Py.bind at 1. unfold Py.get at 1. rewrite H3d, H3s.
  unfold DirectTeleop.on_follower_serial. rewrite H3s.
  pose proof (set_direct_loop_written (combine DirectTeleop.MOTOR_IDS targets)
                (combine_ids_bytes targets) 0 s) as Hw.
  destruct (DirectTeleop.set_direct_loop _ 0 s) as [r s'].
  cbn [snd] in Hw |- *. unfold follower_written.
  cbn [DirectTeleop.follower_serial DirectTeleop.set_follower_serial].
  exact Hw.
Qed.

(** C5. Goal-position range invariant: the value [set_position] encodes
    is its clamp, in [0, 4095]; every value the teleoperation loop
    computes as [(int(pos) + offset) % 4096] is in [0, 4095]; the SDK
    fallback requests writes of its clamp, in [0, 4095]; for every input
    position and every offset.  In direct mode, what an iteration of the
    loop sends to the follower is a goal-position packet per target, each
    target in [0, 4095]. *)
Theorem goal_position_range :
  (forall position, 0 <= FollowerArmController.clamp_position position <= 4095)
  /\ (forall motor_id position c,
        let c' := snd (FollowerArmController.set_position motor_id position c) in
        written (FollowerArmController.ser c') = written (FollowerArmController.ser c)
        \/ exists packet,
             FollowerArmController.write_packet motor_id
               (FollowerArmController.clamp_position position) = Py.Ok packet
             /\ written (FollowerArmController.ser c')
                = written (FollowerArmController.ser c) ++ [packet])
  /\ (forall pairs targets,
        DirectTeleop.follower_targets pairs = Py.Ok targets ->
        Forall (fun t => 0 <= t <= 4095) targets)
  /\ (forall pos offset i,
        to_int pos = Py.Ok i ->
        DirectTeleop.follower_targets [(pos, offset)] = Py.Ok [(i + offset) mod 4096]
        /\ 0 <= (i + offset) mod 4096 <= 4095)
  /\ (forall position, 0 <= DirectTeleop.safe_position position <= 4095)
  /\ (forall pairs count b,
        sdk_sent (snd (DirectTeleop.set_sdk_loop pairs count b))
        = sdk_sent b
          ++ map (fun p => (fst p, 42, DirectTeleop.safe_position (snd p))) pairs)
  /\ (forall w s,
        DirectTeleop.lock_holder w = None ->
        DirectTeleop.DIRECT_MODE w = true ->
        DirectTeleop.follower_serial w = Some s ->
        exists targets,
          Forall (fun t => 0 <= t <= 4095) targets
          /\ follower_written (snd (DirectTeleop.main_iteration w))
             = written s
               ++ map (fun p => Codec.encode (fst p) 3
                                  [42; Z.land (snd p) 255;
                                   Z.land (Z.shiftr (snd p) 8) 255])
                    (combine DirectTeleop.MOTOR_IDS targets)).
Proof.
  split; [intros position; apply clamp_range |].
  split; [intros motor_id position c; apply set_position_written |].
  split; [intros pairs targets E; apply (follower_targets_range pairs targets E) |].
  split.
  - intros pos offset i E. split.
    + simpl. rewrite E. reflexivity.
    + pose proof (Z.mod_pos_bound (i + offset) 4096 ltac:(lia)). lia.
  - split; [intros position; apply clamp_range |].
    split; [intros pairs count b; apply set_sdk_loop_sent |].
    exact main_iteration_commands.
Qed.

Lemma goal_position_range_witness :
  DirectTeleop.follower_targets [(Int 5000, -7000)] = Py.Ok [2096]
  /\ 0 <= 2096 <= 4095.
Proof.
  destruct goal_position_range as [_ [_ [_ [H _]]]].
  exact (H (Int 5000) (-7000) 5000 eq_refl).
Defined.

(** ** The lock around the teleoperation flag *)

(** The keyboard thread toggles the flag with the lock held. *)
Lemma on_space_locked (w : DirectTeleop.World) :
  DirectTeleop.lock_holder w = None ->
  exists new,
    DirectTeleop.flag_accesses (snd (DirectTeleop.on_space w))
    = DirectTeleop.flag_accesses w ++ new
    /\ DirectTeleop.all_locked new = true
    /\ DirectTeleop.teleoperation_active (snd (DirectTeleop.on_space w))
       = negb (DirectTeleop.teleoperation_active w).
Proof.
  intros H. unfold DirectTeleop.on_space, DirectTeleop.with_lock. rewrite H.
  cbv [Py.bind Py.ret DirectTeleop.read_flag DirectTeleop.write_flag
       DirectTeleop.log_access DirectTeleop.holds DirectTeleop.set_flag_accesses
       DirectTeleop.set_lock_holder DirectTeleop.set_teleoperation_active].
  cbn [fst snd DirectTeleop.lock_holder DirectTeleop.flag_accesses
       DirectTeleop.teleoperation_active DirectTeleop.thread_eqb].
  eexists. split; [| split].
  - rewrite <- !app_assoc. reflexivity.
  - reflexivity.
  - reflexivity.
Qed.

(** Whenever debug mode is off and the [try] block of the loop runs to
    its end, its last access to the flag is the read of line 633, made
    without the lock. *)
Lemma unlocked_read_each_iteration (w : DirectTeleop.World) :
  DirectTeleop.lock_holder w = None ->
  DirectTeleop.DEBUG_MODE w = false ->
  fst (DirectTeleop.main_body w) = Py.Ok tt ->
  exists earlier,
    DirectTeleop.flag_accesses (snd (DirectTeleop.main_iteration w))
    = earlier
      ++ [DirectTeleop.mkAccess DirectTeleop.MainThread DirectTeleop.ReadAccess
            633 false].
Proof.
  intros Hlock Hdebug Hok.
  unfold DirectTeleop.main_iteration, Py.try_except.
  destruct (DirectTeleop.main_body w) as [[[] | e] wf] eqn:E;
    cbn [fst] in Hok; [| discriminate Hok].
  cbn [snd]. unfold DirectTeleop.main_body in E.
  unfold Py.bind at 1 in E. rewrite (locked_read w Hlock) in E.
  set (w1 := DirectTeleop.set_flag_accesses _ w) in E.
  pose proof (keeps_read_leader_positions DirectTeleop.DEBUG_MODE
                ltac:(frame) w1) as Hk1.
  pose proof (keeps_read_leader_positions DirectTeleop.lock_holder
                ltac:(frame) w1) as Hk2.
  unfold Py.bind at 1 in E.
  destruct (DirectTeleop.read_leader_positions w1) as [[readings | e] w2];
    cbn [fst snd] in Hk1, Hk2; [| discriminate E].
  unfold Py.bind at 1 in E. unfold Py.get at 1 in E.
  unfold Py.bind at 1 in E. unfold Py.lift at 1 in E.
  destruct (smooth _ _ _) as [smoothed | e]; [| discriminate E].
  unfold Py.bind at 1 in E. unfold Py.modify at 1 in E.
  set (w3 := DirectTeleop.set_smoothed_positions smoothed w2) in E.
  pose proof (keeps_send_if_changed DirectTeleop.DEBUG_MODE
                (DirectTeleop.teleoperation_active w) smoothed
                ltac:(frame) ltac:(frame) ltac:(frame) w3) as Hk3.
  pose proof (keeps_send_if_changed DirectTeleop.lock_holder
                (DirectTeleop.teleoperation_active w) smoothed
                ltac:(frame) ltac:(frame) ltac:(frame) w3) as Hk4.
  unfold Py.bind at 1 in E.
  destruct (DirectTeleop.send_if_changed _ smoothed w3) as [[[] | e] w4];
    cbn [fst snd] in Hk3, Hk4; [| discriminate E].
  assert (Hd4 : DirectTeleop.DEBUG_MODE w4 = false)
    by (rewrite Hk3; unfold w3; cbn [DirectTeleop.DEBUG_MODE
          DirectTeleop.set_smoothed_positions]; rewrite Hk1; exact Hdebug).
  assert (Hl4 : DirectTeleop.lock_holder w4 = None)
    by (rewrite Hk4; unfold w3; cbn [DirectTeleop.lock_holder
          DirectTeleop.set_smoothed_positions]; rewrite Hk2; exact Hlock).
  unfold DirectTeleop.show_status in E.
  cbv [Py.bind Py.get Py.ret DirectTeleop.read_flag] in E.
  rewrite Hd4 in E. cbn [negb] in E.
  injection E as <-.
  exists (DirectTeleop.flag_accesses w4).
  unfold DirectTeleop.log_access, DirectTeleop.holds. rewrite Hl4. reflexivity.
Qed.

(** C7. Lock-guarded key-press flag, evaluated on one iteration of the
    loop of [main] entered with the module-level values of the globals
    (teleoperation active, debug mode off, lock free): the main thread
    reads [teleoperation_active] twice, at line 602 with the lock held and
    at line 633 without it, so not every access is made under the lock;
    the keyboard thread's accesses (lines 518-519) are all made under the
    lock. *)
Theorem main_reads_flag_without_lock :
  DirectTeleop.flag_accesses (snd (DirectTeleop.main_iteration (loop_entry 2048)))
  = [DirectTeleop.mkAccess DirectTeleop.MainThread DirectTeleop.ReadAccess 602 true;
     DirectTeleop.mkAccess DirectTeleop.MainThread DirectTeleop.ReadAccess 633 false]
  /\ DirectTeleop.all_locked
       (DirectTeleop.flag_accesses
          (snd (DirectTeleop.main_iteration (loop_entry 2048))))
     = false
  /\ fst (DirectTeleop.main_iteration (loop_entry 2048)) = Py.Ok tt
  /\ DirectTeleop.all_locked
       (DirectTeleop.flag_accesses (snd (DirectTeleop.on_space (loop_entry 2048))))
     = true.
Proof.
  repeat split; vm_compute; reflexivity.
Qed.

(** ** Exponential smoothing *)

(** One iteration of the loop of so101_direct_teleoperation.py replaces
    the smoothed positions by their smoothing with the fresh readings,
    [alpha = 0.2]; when the smoothing raises, the handler of the loop
    takes over and the smoothed positions stay as they were. *)
Lemma main_iteration_smooths (w : DirectTeleop.World) :
  DirectTeleop.lock_holder w = None ->
  exists readings,
    fst (DirectTeleop.read_leader_positions w) = Py.Ok readings
    /\ DirectTeleop.smoothed_positions (snd (DirectTeleop.main_iteration w))
       = match smooth Float64.lit_0_2 (map Int readings)
                 (DirectTeleop.smoothed_positions w) with
         | Py.Ok smoothed => smoothed
         | Py.Raised _ => DirectTeleop.smoothed_positions w
         end.
Proof.
  intros Hlock.
  pose proof (read_leader_loop_spec DirectTeleop.MOTOR_IDS [] w) as Hr.
  cbv zeta in Hr. fold DirectTeleop.read_leader_positions in Hr.
  eexists. split; [exact Hr |].
  unfold DirectTeleop.main_iteration.
  rewrite try_except_proj by (intros e; apply keeps_ret).
  unfold DirectTeleop.main_body.
  unfold Py.bind at 1. rewrite (locked_read w Hlock).
  set (w1 := DirectTeleop.set_flag_accesses _ w).
  assert (Hr1 : fst (DirectTeleop.read_leader_positions w1)
                = fst (DirectTeleop.read_leader_positions w))
    by (apply read_leader_positions_bus; reflexivity).
  rewrite Hr in Hr1.
  pose proof (keeps_read_leader_positions DirectTeleop.smoothed_positions
                ltac:(frame) w1) as Hk.
  unfold Py.bind at 1.
  destruct (DirectTeleop.read_leader_positions w1) as [r w2].
  cbn [fst snd] in Hr1, Hk. subst r.
  unfold Py.bind at 1. unfold Py.get at 1.
  unfold Py.bind at 1. unfold Py.lift at 1.
  rewrite Hk. change (DirectTeleop.smoothed_positions w1)
    with (DirectTeleop.smoothed_positions w).
  destruct (smooth _ _ _) as [smoothed | e]; [| exact Hk].
  unfold Py.bind at 1. unfold Py.modify at 1.
  rewrite keeps_bind.
  - reflexivity.
  - apply keeps_send_if_changed; frame.
  - intros _. apply keeps_show_status; frame.
Qed.

(** One pass of so101_teleoperation.py through its smoothing replaces the
    smoothed positions by their smoothing with the fresh readings,
    [alpha = 0.3]; when the smoothing raises, the exception leaves the
    step and the smoothed positions stay as they were. *)
Lemma teleoperate_step_smooths (st : Teleop.State) (readings : list Z) (b' : SdkBus) :
  Teleop.read_motor_positions Teleop.MOTOR_IDS [] (Teleop.leader_bus st)
  = (Py.Ok readings, b') ->
  match smooth Float64.lit_0_3 (map Int readings) (Teleop.smoothed_positions st) with
  | Py.Ok smoothed =>
      Teleop.smoothed_positions (snd (Teleop.teleoperate_step st)) = smoothed
  | Py.Raised e =>
      Teleop.teleoperate_step st
      = (Py.Raised e,
         Teleop.mkState (Teleop.teleoperation_active st) b' (Teleop.follower_bus st)
           (Teleop.smoothed_positions st))
  end.
Proof.
  intros H.
  assert (Step : Teleop.teleoperate_step st
                 = match smooth Float64.lit_0_3 (map Int readings)
                           (Teleop.smoothed_positions st) with
                   | Py.Ok smoothed =>
                       (targets <- Py.lift (Teleop.int_all smoothed) ;;
                        Teleop.on_follower
                          (Teleop.move_motors (combine Teleop.MOTOR_IDS targets)))
                         (Teleop.mkState (Teleop.teleoperation_active st) b'
                            (Teleop.follower_bus st) smoothed)
                   | Py.Raised e =>
                       (Py.Raised e,
                        Teleop.mkState (Teleop.teleoperation_active st) b'
                          (Teleop.follower_bus st) (Teleop.smoothed_positions st))
                   end).
  { unfold Teleop.teleoperate_step.
    unfold Py.bind at 1. unfold Teleop.on_leader at 1. rewrite H.
    unfold Py.bind at 1. unfold Py.get at 1.
    unfold Py.bind at 1. unfold Py.lift at 1.
    cbn [Teleop.smoothed_positions].
    destruct (smooth _ _ _) as [smoothed | e]; reflexivity. }
  rewrite Step.
  destruct (smooth _ _ _) as [smoothed | e]; [| reflexivity].
  unfold Py.bind at 1. unfold Py.lift at 1.
  destruct (Teleop.int_all _) as [targets | e]; [| reflexivity].
  unfold Teleop.on_follower. cbn [Teleop.follower_bus Teleop.smoothed_positions].
  destruct (Teleop.move_motors _ _). reflexivity.
Qed.

(** The loop of so101_teleoperation.py smooths exactly when
    teleoperation is active: a paused iteration changes nothing. *)
Lemma loop_iteration_active (st : Teleop.State) :
  Teleop.teleoperation_active st = true ->
  Teleop.smoothed_positions (snd (Teleop.loop_iteration false false false st))
  = Teleop.smoothed_positions (snd (Teleop.teleoperate_step st)).
Proof.
  intros H. unfold Teleop.loop_iteration.
  cbv [Py.bind Py.ret Py.get]. rewrite H.
  destruct (Teleop.teleoperate_step st) as [[[] | e] st']; reflexivity.
Qed.

Lemma loop_iteration_paused (st : Teleop.State) :
  Teleop.teleoperation_active st = false ->
  Teleop.loop_iteration false false false st = (Py.Ok true, st).
Proof.
  intros H. unfold Teleop.loop_iteration.
  cbv [Py.bind Py.ret Py.get]. rewrite H. reflexivity.
Qed.

Lemma ema_exact_between (alpha c s : Q) :
  (0 < alpha < 1)%Q ->
  (Qmin c s <= ema_exact alpha c s <= Qmax c s)%Q.
Proof.
  intros [H0 H1]. unfold ema_exact, ema_expr.
  destruct (Qlt_le_dec c s) as [L | L].
  - rewrite (Q.min_l c s) by (apply Qlt_le_weak; exact L).
    rewrite (Q.max_r c s) by (apply Qlt_le_weak; exact L).
    split; nra.
  - rewrite (Q.min_r c s) by exact L.
    rewrite (Q.max_l c s) by exact L.
    split; nra.
Qed.

(** A leader arm at rest at position 3: after one iteration every
    smoothed position is 3.0000000000000004 (0x4008000000000001), above
    both the previous value 3 and the reading 3. *)
Lemma stationary_leader_overshoots :
  DirectTeleop.smoothed_positions (snd (DirectTeleop.main_iteration (loop_entry 3)))
  = map (fun _ => Flt (S754_finite false 6755399441055745 (-51))) DirectTeleop.MOTOR_IDS
  /\ Float64.ltb (Float64.normalize 3) (S754_finite false 6755399441055745 (-51)) = true.
Proof.
  split; vm_compute; reflexivity.
Qed.

(** C6, as stated, fails: with [alpha = 0.2], previous value 3 and
    reading 3, the new smoothed value is not between 3 and 3. *)
Lemma ema_between_counterexample :
  ~ (forall (alpha : Float64.float) (c : Z) (smoothed new : num),
       alpha = Float64.lit_0_2 \/ alpha = Float64.lit_0_3 ->
       0 <= c <= 4095 ->
       ema alpha (Int c) smoothed = Py.Ok new ->
       lies_between new smoothed (Int c) = true).
Proof.
  intros H.
  specialize (H Float64.lit_0_2 3 (Int 3)
                (Flt (S754_finite false 6755399441055745 (-51)))
                (or_introl eq_refl) ltac:(lia) ltac:(vm_compute; reflexivity)).
  vm_compute in H. discriminate H.
Qed.

(** ** Rounding to binary64 *)

Lemma iter_pos_nat {A : Type} (f : A -> A) (p : positive) :
  forall x, iter_pos f p x = Nat.iter (Pos.to_nat p) f x.
Proof.
  induction p as [p IH | p IH |]; intros x; cbn [iter_pos].
  - rewrite !IH, Pos2Nat.inj_xI. rewrite <- Nat.iter_add, <- Nat.iter_succ_r.
    f_equal. lia.
  - rewrite !IH, Pos2Nat.inj_xO. rewrite <- Nat.iter_add. f_equal. lia.
  - reflexivity.
Qed.

(** One step of the right shift halves the mantissa and keeps the bit
    shifted out. *)
Lemma shr_1_step (m : Z) (r s : bool) :
  0 <= m ->
  exists q b,
    shr_1 (Build_shr_record m r s) = Build_shr_record q b (r || s)
    /\ m = 2 * q + (if b then 1 else 0) /\ 0 <= q.
Proof.
  intros Hm. destruct m as [| [p | p |] | p]; cbn [shr_1].
  - exists 0, false. repeat split; lia.
  - exists (Z.pos p), true. repeat split; lia.
  - exists (Z.pos p), false. repeat split; lia.
  - exists 0, true. repeat split; lia.
  - lia.
Qed.

(** After [k] steps: the mantissa [q], the round bit and the sticky bit
    account for all of [m]. *)
Lemma shr_iter (m : Z) (k : nat) :
  0 <= m ->
  exists q r s t,
    Nat.iter k shr_1 (Build_shr_record m false false) = Build_shr_record q r s
    /\ 0 <= q
    /\ 2 * m = q * (2 * 2 ^ Z.of_nat k) + (if r then 2 ^ Z.of_nat k else 0) + t
    /\ 0 <= t < 2 ^ Z.of_nat k
    /\ (s = false -> t = 0).
Proof.
  intros Hm. induction k as [| k IH].
  - exists m, false, false, 0. cbn [Nat.iter nat_rect].
    change (Z.of_nat 0) with 0. rewrite Z.pow_0_r.
    split; [reflexivity |]. repeat split; try lia.
  - destruct IH as [q [r [s [t [E [Hq [Hsum [Ht Hs]]]]]]]].
    destruct (shr_1_step q r s Hq) as [q' [b [E' [Hq2 Hq']]]].
    exists q', b, (r || s), ((if r then 2 ^ Z.of_nat k else 0) + t).
    cbn [Nat.iter nat_rect]. change (nat_rect _ _ _ k) with
      (Nat.iter k shr_1 (Build_shr_record m false false)).
    rewrite E, E'.
    rewrite Nat2Z.inj_succ, Z.pow_succ_r by lia.
    pose proof (Z.pow_pos_nonneg 2 (Z.of_nat k) ltac:(lia) ltac:(lia)) as HP.
    set (P := 2 ^ Z.of_nat k) in *.
    split; [reflexivity |]. split; [exact Hq' |].
    split; [| split].
    + subst q. destruct b, r; nia.
    + destruct r; lia.
    + intros Hrs. apply orb_false_elim in Hrs. destruct Hrs as [-> ->].
      rewrite (Hs eq_refl). lia.
Qed.

(** Rounding to nearest, ties to even, after a shift by [k] digits is
    off by at most half a unit of the digit kept. *)
Lemma round_nearest_even_error (m : Z) (k : nat) :
  0 <= m ->
  exists mr,
    round_nearest_even
      (shr_m (Nat.iter k shr_1 (Build_shr_record m false false)))
      (loc_of_shr_record (Nat.iter k shr_1 (Build_shr_record m false false)))
    = mr
    /\ 0 <= mr
    /\ - 2 ^ Z.of_nat k <= 2 * (mr * 2 ^ Z.of_nat k - m) <= 2 ^ Z.of_nat k.
Proof.
  intros Hm.
  destruct (shr_iter m k Hm) as [q [r [s [t [E [Hq [Hsum [Ht Hs]]]]]]]].
  rewrite E. cbn [shr_m].
  pose proof (Z.pow_pos_nonneg 2 (Z.of_nat k) ltac:(lia) ltac:(lia)) as HP.
  set (P := 2 ^ Z.of_nat k) in *.
  destruct r, s; cbn [loc_of_shr_record round_nearest_even].
  - exists (q + 1). split; [reflexivity |]. split; [lia | nia].
  - specialize (Hs eq_refl). subst t.
    destruct (Z.even q).
    + exists q. split; [reflexivity |]. split; [lia | nia].
    + exists (q + 1). split; [reflexivity |]. split; [lia | nia].
  - exists q. split; [reflexivity |]. split; [lia | nia].
  - exists q. split; [reflexivity |]. split; [lia | nia].
Qed.

Lemma digits2_pos_bounds (m : positive) :
  2 ^ (Z.pos (digits2_pos m) - 1) <= Z.pos m < 2 ^ Z.pos (digits2_pos m).
Proof.
  induction m as [m IH | m IH |]; cbn [digits2_pos].
  - rewrite Pos2Z.inj_succ.
    replace (Z.succ (Z.pos (digits2_pos m)) - 1)
      with (Z.succ (Z.pos (digits2_pos m) - 1)) by lia.
    rewrite !Z.pow_succ_r by lia. lia.
  - rewrite Pos2Z.inj_succ.
    replace (Z.succ (Z.pos (digits2_pos m)) - 1)
      with (Z.succ (Z.pos (digits2_pos m) - 1)) by lia.
    rewrite !Z.pow_succ_r by lia. lia.
  - cbn. lia.
Qed.

Lemma shr_fexp_exact (m e : Z) :
  shr_fexp 53 1024 m e loc_Exact
  = (if Z.max (Zdigits2 m + e - 53) (-1074) - e <=? 0
     then (Build_shr_record m false false, e)
     else (Nat.iter (Z.to_nat (Z.max (Zdigits2 m + e - 53) (-1074) - e)) shr_1
             (Build_shr_record m false false),
           e + (Z.max (Zdigits2 m + e - 53) (-1074) - e))).
Proof.
  unfold shr_fexp, shr, fexp, emin. cbn [shr_record_of_loc].
  change (3 - 1024 - 53) with (-1074).
  destruct (Z.max (Zdigits2 m + e - 53) (-1074) - e) as [| p | p] eqn:En.
  - reflexivity.
  - rewrite iter_pos_nat. reflexivity.
  - reflexivity.
Qed.

(** The rounding at the end of every operation, on an exact result
    [m0 * 2^e] below [2^1023]: the result is a zero or a finite float
    [mr * 2^er] within the format, equal to the exact result when no
    digit is dropped, and within half a unit of the last digit kept
    ([2^fe]) otherwise. *)
Lemma binary_round_aux_spec (sx : bool) (m0 : positive) (e : Z) :
  let d := Z.pos (digits2_pos m0) in
  let fe := Z.max (d + e - 53) (-1074) in
  d + e <= 1023 ->
  (fe <= e -> e <= 971) ->
  exists mr er,
    binary_round_aux 53 1024 sx (Z.pos m0) e loc_Exact
    = match mr with
      | Z0 => S754_zero sx
      | Z.pos p => S754_finite sx p er
      | Z.neg _ => S754_nan
      end
    /\ 0 <= mr
    /\ e <= er <= 971
    /\ (mr * 2 ^ (er - e) = Z.pos m0
        \/ (e < fe
            /\ - 2 ^ (fe - e) <= 2 * (mr * 2 ^ (er - e) - Z.pos m0) <= 2 ^ (fe - e))).
Proof.
  intros d fe Hmag Hexp.
  pose proof (digits2_pos_bounds m0) as Hd. fold d in Hd.
  unfold binary_round_aux. rewrite shr_fexp_exact.
  cbn [Zdigits2]. fold d. fold fe.
  destruct (Z.leb_spec (fe - e) 0) as [Hn | Hn].
  - (* no digit is dropped *)
    cbn [shr_m loc_of_shr_record round_nearest_even].
    rewrite shr_fexp_exact. cbn [Zdigits2]. fold d. fold fe.
    destruct (Z.leb_spec (fe - e) 0) as [_ | Hn']; [| lia].
    cbn [shr_m].
    replace (e <=? 1024 - 53) with true by (symmetry; apply Z.leb_le; lia).
    exists (Z.pos m0), e. split; [reflexivity |].
    split; [lia |]. split; [lia |]. left.
    rewrite Z.sub_diag. lia.
  - (* [fe - e] digits are dropped *)
    destruct (round_nearest_even_error (Z.pos m0) (Z.to_nat (fe - e)) ltac:(lia))
      as [mr [Emr [Hmr Herr]]].
    rewrite Emr. rewrite Z2Nat.id in Herr by lia.
    replace (e + (fe - e)) with fe by lia.
    pose proof (Z.pow_pos_nonneg 2 (fe - e) ltac:(lia) ltac:(lia)) as HP.
    assert (Hfe : fe <= 970) by (unfold fe; lia).
    assert (Hmr53 : mr <= 2 ^ 53).
    { assert (Hle : 2 ^ d <= 2 ^ (fe - e) * 2 ^ 53).
      { rewrite <- Z.pow_add_r by lia. apply Z.pow_le_mono_r; unfold fe; lia. }
      set (P := 2 ^ (fe - e)) in *. nia. }
    rewrite shr_fexp_exact.
    destruct mr as [| pm | pm]; [| | lia].
    + cbn [Zdigits2].
      destruct (Z.leb_spec (Z.max (0 + fe - 53) (-1074) - fe) 0) as [_ | Hn2];
        [| unfold fe in *; lia].
      cbn [shr_m]. exists 0, fe. split; [reflexivity |].
      split; [lia |]. split; [lia |]. right. split; [lia | exact Herr].
    + cbn [Zdigits2].
      pose proof (digits2_pos_bounds pm) as Hdm.
      set (dm := Z.pos (digits2_pos pm)) in *.
      assert (Hdm54 : dm <= 54).
      { destruct (Z_le_gt_dec dm 54) as [L | G]; [exact L |].
        assert (2 ^ 54 <= 2 ^ (dm - 1)) by (apply Z.pow_le_mono_r; lia).
        lia. }
      destruct (Z.leb_spec (Z.max (dm + fe - 53) (-1074) - fe) 0) as [Hn2 | Hn2].
      * cbn [shr_m].
        replace (fe <=? 1024 - 53) with true by (symmetry; apply Z.leb_le; lia).
        exists (Z.pos pm), fe. split; [reflexivity |].
        split; [lia |]. split; [lia |]. right. split; [lia | exact Herr].
      * assert (Edm : dm = 54) by (unfold fe in *; lia).
        assert (Epm : Z.pos pm = 2 ^ 53).
        { rewrite Edm in Hdm. change (54 - 1) with 53 in Hdm. lia. }
        replace (Z.max (dm + fe - 53) (-1074) - fe) with 1
          by (unfold fe in *; lia).
        change (Z.to_nat 1) with 1%nat. cbn [Nat.iter nat_rect].
        assert (Epm' : pm = 9007199254740992%positive)
          by (apply Pos2Z.inj; rewrite Epm; reflexivity).
        rewrite Epm'. cbn [shr_1 shr_m].
        replace (fe + 1 <=? 1024 - 53) with true by (symmetry; apply Z.leb_le; lia).
        exists 4503599627370496, (fe + 1). split; [reflexivity |].
        split; [lia |]. split; [lia |]. right. split; [lia |].
        replace (fe + 1 - e) with (Z.succ (fe - e)) by lia.
        rewrite Z.pow_succ_r by lia.
        rewrite Epm in Herr. set (P := 2 ^ (fe - e)) in *.
        change (2 ^ 53) with (2 * 4503599627370496) in Herr. lia.
Qed.

(** *** Values as rationals *)

Lemma two_neq_0 : ~ (2 == 0)%Q.
Proof. intros H. discriminate H. Qed.

Lemma pow2_pos (z : Z) : (0 < 2 ^ z)%Q.
Proof. apply Qpower_0_lt. reflexivity. Qed.

Lemma pow2_add (a b : Z) : (2 ^ (a + b) == 2 ^ a * 2 ^ b)%Q.
Proof. apply Qpower_plus. exact two_neq_0. Qed.

Lemma pow2_inject (n : Z) : 0 <= n -> (inject_Z (2 ^ n) == 2 ^ n)%Q.
Proof. intros H. exact (Zpower_Qpower 2 n H). Qed.

Lemma signed_abs (s : bool) (q : Q) : (Qabs (signed s q) == Qabs q)%Q.
Proof. destruct s; [apply Qabs_opp | reflexivity]. Qed.

Lemma to_Q_finite (s : bool) (m : positive) (e : Z) :
  (Float64.to_Q (S754_finite s m e) == signed s (inject_Z (Z.pos m) * 2 ^ e))%Q.
Proof.
  assert (H : ((if 0 <=? e then inject_Z (Z.pos m * 2 ^ e)
                else Z.pos m # Z.to_pos (2 ^ (- e)))
               == inject_Z (Z.pos m) * 2 ^ e)%Q).
  { destruct (Z.leb_spec 0 e) as [He | He].
    - rewrite inject_Z_mult, pow2_inject by exact He. reflexivity.
    - pose proof (Z.pow_pos_nonneg 2 (- e) ltac:(lia) ltac:(lia)) as HP.
      rewrite Qmake_Qdiv, Z2Pos.id by exact HP.
      rewrite pow2_inject by lia.
      assert (Hinv : (2 ^ e == / 2 ^ (- e))%Q)
        by (rewrite <- Qpower_opp, Z.opp_involutive; reflexivity).
      rewrite Hinv. reflexivity. }
  unfold Float64.to_Q, signed. cbv zeta.
  destruct s; rewrite H; reflexivity.
Qed.

Lemma magnitude_digits (m : positive) (e : Z) :
  (inject_Z (Z.pos m) * 2 ^ e < 2 ^ 1023)%Q ->
  Z.pos (digits2_pos m) + e <= 1023.
Proof.
  intros H. pose proof (digits2_pos_bounds m) as [Hd _].
  set (d := Z.pos (digits2_pos m)) in *.
  assert (L : (2 ^ (d - 1 + e) < 2 ^ 1023)%Q).
  { rewrite pow2_add. eapply Qle_lt_trans; [| exact H].
    apply Qmult_le_compat_r; [| apply Qlt_le_weak, pow2_pos].
    rewrite <- pow2_inject by (unfold d; lia).
    rewrite <- Zle_Qle. exact Hd. }
  apply Qpower_lt_compat_l_inv in L; [lia | reflexivity].
Qed.

(** The rounding at the end of an operation, on rationals. *)
Lemma binary_round_aux_rounds (sx : bool) (m0 : positive) (e : Z) :
  (inject_Z (Z.pos m0) * 2 ^ e < 2 ^ 1023)%Q ->
  (Z.max (Z.pos (digits2_pos m0) + e - 53) (-1074) <= e -> e <= 971) ->
  rounds_to (binary_round_aux 53 1024 sx (Z.pos m0) e loc_Exact)
    (signed sx (inject_Z (Z.pos m0) * 2 ^ e)).
Proof.
  intros Hmag Hexp.
  pose proof (magnitude_digits m0 e Hmag) as Hde.
  destruct (binary_round_aux_spec sx m0 e Hde Hexp)
    as [mr [er [E [Hmr [Her Herr]]]]].
  rewrite E. clear E.
  pose proof (digits2_pos_bounds m0) as [Hd _].
  set (d := Z.pos (digits2_pos m0)) in *.
  set (fe := Z.max (d + e - 53) (-1074)) in *.
  split.
  { destruct mr as [| p | p]; [reflexivity | | lia].
    cbn [Float64.in_range]. apply Z.leb_le. unfold Float64.emax, Float64.prec. lia. }
  assert (V : (Float64.to_Q match mr with
                            | 0%Z => S754_zero sx
                            | Z.pos p => S754_finite sx p er
                            | Z.neg _ => S754_nan
                            end
               == signed sx (inject_Z (mr * 2 ^ (er - e)) * 2 ^ e))%Q).
  { assert (S : (inject_Z (mr * 2 ^ (er - e)) * 2 ^ e == inject_Z mr * 2 ^ er)%Q).
    { rewrite inject_Z_mult, pow2_inject by lia.
      rewrite <- Qmult_assoc, <- pow2_add.
      replace (er - e + e) with er by lia. reflexivity. }
    destruct mr as [| p | p]; [| | lia].
    - cbn [Float64.to_Q]. rewrite Z.mul_0_l.
      destruct sx; unfold signed; ring.
    - rewrite to_Q_finite. destruct sx; unfold signed; rewrite S; reflexivity. }
  rewrite V. clear V.
  rewrite signed_abs.
  set (D := mr * 2 ^ (er - e) - Z.pos m0).
  assert (Ediff : (signed sx (inject_Z (mr * 2 ^ (er - e)) * 2 ^ e)
                   - signed sx (inject_Z (Z.pos m0) * 2 ^ e)
                   == signed sx (inject_Z D * 2 ^ e))%Q).
  { unfold D. unfold Z.sub. rewrite inject_Z_plus, inject_Z_opp.
    destruct sx; unfold signed; ring. }
  rewrite Ediff, signed_abs. clear Ediff.
  pose proof (pow2_pos e) as Hp.
  assert (Hx : (0 <= inject_Z (Z.pos m0) * 2 ^ e)%Q).
  { apply Qmult_le_0_compat; [| apply Qlt_le_weak; exact Hp].
    change 0%Q with (inject_Z 0). rewrite <- Zle_Qle. lia. }
  rewrite (Qabs_pos _ Hx).
  apply Qabs_Qle_condition.
  destruct Herr as [Hexact | [Hlt Herr]].
  - assert (D0 : D = 0) by (unfold D; lia). rewrite D0.
    change (inject_Z 0) with 0%Q.
    unfold Float64.unit_roundoff, Float64.eta.
    set (x := (inject_Z (Z.pos m0) * 2 ^ e)%Q) in *.
    set (p := (2 ^ e)%Q) in *.
    assert (E0 : (0 * p == 0)%Q) by ring. rewrite E0.
    assert (0 <= (1 # 2 ^ 53) * x)%Q by (apply Qmult_le_0_compat; [discriminate | exact Hx]).
    assert (0 <= 1 # 2 ^ 1075)%Q by discriminate.
    split; lra.
  - fold D in Herr.
    assert (HK : (inject_Z (2 ^ (fe - e)) * 2 ^ e == 2 ^ fe)%Q).
    { rewrite pow2_inject by lia. rewrite <- pow2_add.
      replace (fe - e + e) with fe by lia. reflexivity. }
    assert (HF : (2 ^ fe <= 2 * (Float64.unit_roundoff * (inject_Z (Z.pos m0) * 2 ^ e)
                                 + Float64.eta))%Q).
    { assert (unit : (2 ^ (-52) == 2 * Float64.unit_roundoff)%Q) by reflexivity.
      assert (tiny : (2 ^ (-1074) == 2 * Float64.eta)%Q) by reflexivity.
      assert (0 <= Float64.eta)%Q by discriminate.
      assert (0 <= Float64.unit_roundoff * (inject_Z (Z.pos m0) * 2 ^ e))%Q
        by (apply Qmult_le_0_compat; [discriminate | exact Hx]).
      destruct (Z_le_gt_dec (-1074) (d + e - 53)) as [Hn | Hs].
      - replace fe with (d - 1 + e + (-52)) by (unfold fe; lia).
        rewrite pow2_add, unit, pow2_add.
        assert (L : (2 ^ (d - 1) * 2 ^ e <= inject_Z (Z.pos m0) * 2 ^ e)%Q).
        { apply Qmult_le_compat_r; [| apply Qlt_le_weak; exact Hp].
          rewrite <- pow2_inject by (unfold d; lia).
          rewrite <- Zle_Qle. exact Hd. }
        set (x := (inject_Z (Z.pos m0) * 2 ^ e)%Q) in *.
        set (y := (2 ^ (d - 1) * 2 ^ e)%Q) in *.
        unfold Float64.unit_roundoff in *. nra.
      - replace fe with (-1074) by (unfold fe; lia).
        rewrite tiny. lra. }
    destruct Herr as [Hlo Hhi].
    rewrite Zle_Qle in Hlo, Hhi.
    rewrite inject_Z_mult in Hlo, Hhi. rewrite inject_Z_opp in Hlo.
    change (inject_Z 2) with 2%Q in Hlo, Hhi.
    set (iD := inject_Z D) in *.
    set (K := inject_Z (2 ^ (fe - e))) in *.
    set (p := (2 ^ e)%Q) in *.
    set (bound := (Float64.unit_roundoff * (inject_Z (Z.pos m0) * p) + Float64.eta)%Q) in *.
    assert (P1 : (0 <= (K - 2 * iD) * p)%Q)
      by (apply Qmult_le_0_compat; [lra | apply Qlt_le_weak; exact Hp]).
    assert (P2 : (0 <= (K + 2 * iD) * p)%Q)
      by (apply Qmult_le_0_compat; [lra | apply Qlt_le_weak; exact Hp]).
    set (F := (2 ^ fe)%Q) in *.
    split; nra.
Qed.

Lemma rounds_to_eq (r : Float64.float) (x y : Q) :
  (x == y)%Q -> rounds_to r x -> rounds_to r y.
Proof.
  intros E [H1 H2]. split; [exact H1 |]. rewrite <- E. exact H2.
Qed.

Lemma rounds_to_exact (f : Float64.float) (x : Q) :
  Float64.in_range f = true -> (Float64.to_Q f == x)%Q -> rounds_to f x.
Proof.
  intros H E. split; [exact H |].
  rewrite E. unfold Qminus. rewrite Qplus_opp_r.
  pose proof (Qabs_nonneg x).
  assert (0 <= Float64.unit_roundoff * Qabs x)%Q
    by (apply Qmult_le_0_compat; [discriminate | assumption]).
  assert (0 <= Float64.eta)%Q by discriminate.
  change (Qabs 0) with 0%Q. lra.
Qed.

Lemma iter_xO (m k : positive) : Z.pos (Pos.iter xO m k) = Z.pos m * 2 ^ Z.pos k.
Proof.
  induction k as [| k IH] using Pos.peano_ind.
  - cbn [Pos.iter]. rewrite Pos2Z.inj_xO. change (2 ^ 1) with 2. lia.
  - rewrite Pos.iter_succ, Pos2Z.inj_xO, IH, Pos2Z.inj_succ, Z.pow_succ_r by lia.
    lia.
Qed.

Lemma shl_align_fst (m : positive) (e e' : Z) :
  e' <= e -> Z.pos (fst (shl_align m e e')) = Z.pos m * 2 ^ (e - e').
Proof.
  intros H. unfold shl_align.
  destruct (e' - e) as [| k | k] eqn:E; cbn [fst].
  - replace (e - e') with 0 by lia. lia.
  - lia.
  - rewrite iter_xO. replace (e - e') with (Z.pos k) by lia. reflexivity.
Qed.

(** [binary_round]: the mantissa is first shifted left when it is short. *)
Lemma binary_round_rounds (sx : bool) (m : positive) (e : Z) :
  (inject_Z (Z.pos m) * 2 ^ e < 2 ^ 1023)%Q ->
  rounds_to (binary_round 53 1024 sx m e) (signed sx (inject_Z (Z.pos m) * 2 ^ e)).
Proof.
  intros Hmag. pose proof (magnitude_digits m e Hmag) as Hde.
  unfold binary_round, shl_align, fexp, emin.
  change (3 - 1024 - 53) with (-1074).
  set (fe := Z.max (Z.pos (digits2_pos m) + e - 53) (-1074)) in *.
  destruct (fe - e) as [| k | k] eqn:E.
  - apply binary_round_aux_rounds; [exact Hmag |]. fold fe. lia.
  - apply binary_round_aux_rounds; [exact Hmag |]. fold fe. lia.
  - assert (V : (inject_Z (Z.pos (Pos.iter xO m k)) * 2 ^ fe
                 == inject_Z (Z.pos m) * 2 ^ e)%Q).
    { rewrite iter_xO, inject_Z_mult, pow2_inject by lia.
      rewrite <- Qmult_assoc, <- pow2_add.
      replace (Z.pos k + fe) with e by lia. reflexivity. }
    apply (rounds_to_eq _ (signed sx (inject_Z (Z.pos (Pos.iter xO m k)) * 2 ^ fe))).
    { destruct sx; unfold signed; rewrite V; reflexivity. }
    apply binary_round_aux_rounds; [rewrite V; exact Hmag |].
    intros _. unfold fe. lia.
Qed.

Lemma binary_normalize_rounds (z e : Z) :
  (Qabs (inject_Z z * 2 ^ e) < 2 ^ 1023)%Q ->
  rounds_to (binary_normalize 53 1024 z e false) (inject_Z z * 2 ^ e).
Proof.
  intros Hmag. pose proof (pow2_pos e) as Hp.
  destruct z as [| m | m]; cbn [binary_normalize].
  - apply rounds_to_exact; [reflexivity |].
    change (inject_Z 0) with 0%Q. cbn [Float64.to_Q]. ring.
  - apply (binary_round_rounds false m e).
    rewrite Qabs_pos in Hmag; [exact Hmag |].
    apply Qmult_le_0_compat; [discriminate | apply Qlt_le_weak; exact Hp].
  - apply (rounds_to_eq _ (signed true (inject_Z (Z.pos m) * 2 ^ e))).
    { unfold signed. change (inject_Z (Z.neg m)) with (- inject_Z (Z.pos m))%Q. ring. }
    apply binary_round_rounds.
    assert (E : (inject_Z (Z.neg m) * 2 ^ e == - (inject_Z (Z.pos m) * 2 ^ e))%Q).
    { change (inject_Z (Z.neg m)) with (- inject_Z (Z.pos m))%Q. ring. }
    rewrite E, Qabs_opp, Qabs_pos in Hmag; [exact Hmag |].
    apply Qmult_le_0_compat; [discriminate | apply Qlt_le_weak; exact Hp].
Qed.

(** [float(z)] and the conversion of an [int] operand. *)
Lemma of_int_rounds (z : Z) :
  (Qabs (inject_Z z) < 2 ^ 1023)%Q ->
  exists f, Float64.of_int z = Py.Ok f /\ rounds_to f (inject_Z z).
Proof.
  intros Hmag.
  assert (R : rounds_to (Float64.normalize z) (inject_Z z)).
  { apply (rounds_to_eq _ (inject_Z z * 2 ^ 0)%Q).
    - change (2 ^ 0)%Q with 1%Q. ring.
    - apply binary_normalize_rounds.
      assert (E : (inject_Z z * 2 ^ 0 == inject_Z z)%Q)
        by (change (2 ^ 0)%Q with 1%Q; ring).
      rewrite E. exact Hmag. }
  exists (Float64.normalize z). split; [| exact R].
  unfold Float64.of_int. destruct R as [R _].
  destruct (Float64.normalize z); try reflexivity. discriminate R.
Qed.

(** A product by a float constant with a negative exponent. *)
Lemma mul_rounds (sa : bool) (ma : positive) (ea : Z) (y : Float64.float) :
  ea <= 0 ->
  Float64.in_range y = true ->
  (Qabs (Float64.to_Q (S754_finite sa ma ea) * Float64.to_Q y) < 2 ^ 1023)%Q ->
  rounds_to (Float64.mul (S754_finite sa ma ea) y)
    (Float64.to_Q (S754_finite sa ma ea) * Float64.to_Q y).
Proof.
  intros Hea Hy Hmag.
  destruct y as [sy | sy | | sy my ey]; try discriminate Hy.
  - apply rounds_to_exact; [reflexivity |]. cbn [Float64.to_Q Float64.mul SFmul].
    ring.
  - cbn [Float64.in_range] in Hy. apply Z.leb_le in Hy.
    unfold Float64.emax, Float64.prec in Hy.
    assert (V : (Float64.to_Q (S754_finite sa ma ea) * Float64.to_Q (S754_finite sy my ey)
                 == signed (xorb sa sy)
                      (inject_Z (Z.pos (ma * my)) * 2 ^ (ea + ey)))%Q).
    { rewrite !to_Q_finite.
      destruct sa, sy; unfold signed; cbn [xorb];
        rewrite Pos2Z.inj_mul, inject_Z_mult, pow2_add; ring. }
    apply (rounds_to_eq _ _ _ (Qeq_sym _ _ V)).
    unfold Float64.mul, SFmul.
    apply binary_round_aux_rounds.
    + rewrite V, signed_abs in Hmag.
      rewrite Qabs_pos in Hmag; [exact Hmag |].
      apply Qmult_le_0_compat; [discriminate | apply Qlt_le_weak, pow2_pos].
    + intros _. lia.
Qed.

Lemma cond_Zopp_signed (s : bool) (m : positive) (e ez : Z) :
  ez <= e ->
  (inject_Z (cond_Zopp s (Z.pos (fst (shl_align m e ez)))) * 2 ^ ez
   == Float64.to_Q (S754_finite s m e))%Q.
Proof.
  intros H. rewrite to_Q_finite, shl_align_fst by exact H.
  assert (E : (inject_Z (Z.pos m * 2 ^ (e - ez)) * 2 ^ ez
               == inject_Z (Z.pos m) * 2 ^ e)%Q).
  { rewrite inject_Z_mult, pow2_inject by lia.
    rewrite <- Qmult_assoc, <- pow2_add.
    replace (e - ez + ez) with e by lia. reflexivity. }
  destruct s; unfold signed, cond_Zopp.
  - rewrite inject_Z_opp, <- E. ring.
  - exact E.
Qed.

(** A sum of two floats. *)
Lemma add_rounds (x y : Float64.float) :
  Float64.in_range x = true ->
  Float64.in_range y = true ->
  (Qabs (Float64.to_Q x + Float64.to_Q y) < 2 ^ 1023)%Q ->
  rounds_to (Float64.add x y) (Float64.to_Q x + Float64.to_Q y).
Proof.
  intros Hx Hy Hmag.
  destruct x as [sx | sx | | sx mx ex]; try discriminate Hx;
    destruct y as [sy | sy | | sy my ey]; try discriminate Hy.
  - apply rounds_to_exact.
    + destruct sx, sy; reflexivity.
    + destruct sx, sy; cbn; reflexivity.
  - apply rounds_to_exact; [exact Hy |].
    cbn [Float64.add SFadd]. cbn [Float64.to_Q]. ring.
  - apply rounds_to_exact; [exact Hx |].
    cbn [Float64.add SFadd]. cbn [Float64.to_Q]. ring.
  - assert (V : (inject_Z
                   (cond_Zopp sx (Z.pos (fst (shl_align mx ex (Z.min ex ey))))
                    + cond_Zopp sy (Z.pos (fst (shl_align my ey (Z.min ex ey)))))
                 * 2 ^ Z.min ex ey
                 == Float64.to_Q (S754_finite sx mx ex)
                    + Float64.to_Q (S754_finite sy my ey))%Q).
    { rewrite inject_Z_plus, Qmult_plus_distr_l.
      rewrite !cond_Zopp_signed by lia. reflexivity. }
    apply (rounds_to_eq _ _ _ V).
    unfold Float64.add, SFadd. cbv zeta.
    apply binary_normalize_rounds. rewrite V. exact Hmag.
Qed.

(** *** The smoothing expression *)

Lemma rounds_to_bound (r : Float64.float) (x bound : Q) :
  rounds_to r x ->
  (Qabs x <= bound)%Q ->
  (x - (Float64.unit_roundoff * bound + Float64.eta) <= Float64.to_Q r
   <= x + (Float64.unit_roundoff * bound + Float64.eta))%Q.
Proof.
  intros [_ H] Hb.
  assert (L : (Float64.unit_roundoff * Qabs x <= Float64.unit_roundoff * bound)%Q).
  { rewrite !(Qmult_comm Float64.unit_roundoff).
    apply Qmult_le_compat_r; [exact Hb | discriminate]. }
  apply Qabs_Qle_condition in H. destruct H as [H1 H2].
  set (rq := Float64.to_Q r) in *. set (ax := Qabs x) in *.
  split; lra.
Qed.

Lemma to_float_rounds (x : num) (bound : Q) :
  within bound x ->
  (bound <= 2 ^ 1000)%Q ->
  exists f, to_float x = Py.Ok f /\ rounds_to f (value x).
Proof.
  intros [Hr Hb] HB. destruct x as [z | f]; cbn [to_float value] in *.
  - apply of_int_rounds.
    eapply Qle_lt_trans; [exact Hb |].
    eapply Qle_lt_trans; [exact HB | reflexivity].
  - exists f. split; [reflexivity |]. apply rounds_to_exact; [exact Hr | reflexivity].
Qed.

Ltac smoothing_error :=
  lazymatch goal with
  | Rc : rounds_to ?cf ?C, Rs : rounds_to ?sf ?S,
    Hc : (Qabs ?C <= ?B)%Q, Hs : (Qabs ?S <= ?B)%Q,
    HB : (?B <= 2 ^ 1000)%Q
    |- exists r, Py.Ok (Flt (Float64.add (Float64.mul (S754_finite false ?ma ?ea) ?cf)
                               (Float64.mul (S754_finite false ?mb ?eb) ?sf)))
                 = Py.Ok (Flt r) /\ _ =>
      let A := eval vm_compute in (Float64.to_Q (S754_finite false ma ea)) in
      let Bq := eval vm_compute in (Float64.to_Q (S754_finite false mb eb)) in
      pose proof (rounds_to_bound _ _ _ Rc Hc) as Bc;
      pose proof (rounds_to_bound _ _ _ Rs Hs) as Bs;
      apply Qabs_Qle_condition in Hc; apply Qabs_Qle_condition in Hs;
      assert (Heta : (0 <= Float64.eta <= 1)%Q) by (split; discriminate);
      assert (HT : (1 <= 2 ^ 1000 /\ 8 * 2 ^ 1000 <= 2 ^ 1023)%Q)
        by (split; discriminate);
      assert (Htol : ((1 # 2 ^ 1072) == 8 * Float64.eta)%Q) by reflexivity;
      change Float64.unit_roundoff with (1 # 9007199254740992) in Bc, Bs;
      set (T := (2 ^ 1000)%Q) in *; set (T' := (2 ^ 1023)%Q) in *;
      set (eta := Float64.eta) in *;
      set (cq := Float64.to_Q cf) in *; set (sq := Float64.to_Q sf) in *;
      assert (M1 : (Qabs (Float64.to_Q (S754_finite false ma ea) * cq)
                    <= A * (B + ((1 # 9007199254740992) * B + eta)))%Q)
        by (change (Float64.to_Q (S754_finite false ma ea)) with A;
            apply Qabs_Qle_condition; split; lra);
      assert (M2 : (Qabs (Float64.to_Q (S754_finite false mb eb) * sq)
                    <= Bq * (B + ((1 # 9007199254740992) * B + eta)))%Q)
        by (change (Float64.to_Q (S754_finite false mb eb)) with Bq;
            apply Qabs_Qle_condition; split; lra);
      assert (R1 : rounds_to (Float64.mul (S754_finite false ma ea) cf)
                     (Float64.to_Q (S754_finite false ma ea) * cq))
        by (apply mul_rounds;
            [lia | exact (proj1 Rc)
             | eapply Qle_lt_trans; [exact M1 | fold T'; lra]]);
      assert (R2 : rounds_to (Float64.mul (S754_finite false mb eb) sf)
                     (Float64.to_Q (S754_finite false mb eb) * sq))
        by (apply mul_rounds;
            [lia | exact (proj1 Rs)
             | eapply Qle_lt_trans; [exact M2 | fold T'; lra]]);
      pose proof (rounds_to_bound _ _ _ R1 M1) as B1;
      pose proof (rounds_to_bound _ _ _ R2 M2) as B2;
      change Float64.unit_roundoff with (1 # 9007199254740992) in B1, B2;
      change (Float64.to_Q (S754_finite false ma ea)) with A in B1;
      change (Float64.to_Q (S754_finite false mb eb)) with Bq in B2;
      fold eta in B1, B2;
      set (p1 := Float64.to_Q (Float64.mul (S754_finite false ma ea) cf)) in *;
      set (p2 := Float64.to_Q (Float64.mul (S754_finite false mb eb) sf)) in *;
      assert (M3 : (Qabs (p1 + p2) <= (5 # 4) * B + 4 * eta)%Q)
        by (apply Qabs_Qle_condition; split; lra);
      assert (R3 : rounds_to (Float64.add (Float64.mul (S754_finite false ma ea) cf)
                                (Float64.mul (S754_finite false mb eb) sf))
                     (p1 + p2))
        by (apply add_rounds;
            [exact (proj1 R1) | exact (proj1 R2)
             | eapply Qle_lt_trans; [exact M3 | fold T'; lra]]);
      pose proof (rounds_to_bound _ _ _ R3 M3) as B3;
      change Float64.unit_roundoff with (1 # 9007199254740992) in B3;
      fold eta in B3;
      eexists; split; [reflexivity |]; split; [exact (proj1 R3) |];
      pose proof (Q.le_min_l C S); pose proof (Q.le_min_r C S);
      pose proof (Q.le_max_l C S); pose proof (Q.le_max_r C S);
      pose proof (Q.min_glb C S (- B) (proj1 Hc) (proj1 Hs));
      pose proof (Q.max_lub C S B (proj2 Hc) (proj2 Hs));
      unfold tolerance; change (1 # 2 ^ 51) with (1 # 2251799813685248);
      set (t := 1 # 2 ^ 1072) in *;
      set (lo := Qmin C S) in *; set (hi := Qmax C S) in *;
      split; lra
  end.

(** One smoothing of positions of magnitude at most [bound]: the float
    stored is between the reading and the previous value, up to the
    rounding tolerance. *)
Lemma ema_within (alpha : Float64.float) (c s : num) (bound : Q) :
  alpha = Float64.lit_0_2 \/ alpha = Float64.lit_0_3 ->
  within bound c ->
  within bound s ->
  (bound <= 2 ^ 1000)%Q ->
  exists r,
    ema alpha c s = Py.Ok (Flt r)
    /\ Float64.in_range r = true
    /\ (Qmin (value c) (value s) - tolerance bound <= Float64.to_Q r
        <= Qmax (value c) (value s) + tolerance bound)%Q.
Proof.
  intros Halpha Hc Hs HB.
  destruct (to_float_rounds c bound Hc HB) as [cf [Ec Rc]].
  destruct (to_float_rounds s bound Hs HB) as [sf [Es Rs]].
  destruct Hc as [_ Hc], Hs as [_ Hs].
  unfold ema. rewrite Ec, Es. cbn [Py.obind]. unfold ema_expr.
  destruct Halpha as [-> | ->].
  - change (Float64.sub (Float64.normalize 1) Float64.lit_0_2)
      with (S754_finite false 7205759403792794 (-53)).
    unfold Float64.lit_0_2.
    smoothing_error.
  - change (Float64.sub (Float64.normalize 1) Float64.lit_0_3)
      with (S754_finite false 6305039478318694 (-53)).
    unfold Float64.lit_0_3.
    smoothing_error.
Qed.

Lemma ema_smoothed_within (alpha : Float64.float) (c s : num) (bound : Q) :
  alpha = Float64.lit_0_2 \/ alpha = Float64.lit_0_3 ->
  (bound <= 2 ^ 1000)%Q ->
  within bound c ->
  within bound s ->
  exists new,
    ema alpha c s = Py.Ok new
    /\ smoothed_within bound c s new
    /\ within (bound + tolerance bound) new.
Proof.
  intros Halpha HB Hc Hs.
  destruct (ema_within alpha c s bound Halpha Hc Hs HB) as [r [E [Hr Hb]]].
  exists (Flt r). split; [exact E |].
  split; [exists r; auto |].
  split; [exact Hr |]. cbn [value].
  destruct Hc as [_ Hc], Hs as [_ Hs].
  apply Qabs_Qle_condition in Hc, Hs.
  pose proof (Q.min_glb (value c) (value s) (- bound) (proj1 Hc) (proj1 Hs)).
  pose proof (Q.max_lub (value c) (value s) bound (proj2 Hc) (proj2 Hs)).
  apply Qabs_Qle_condition.
  set (t := tolerance bound) in *. set (rq := Float64.to_Q r) in *.
  set (lo := Qmin _ _) in *. set (hi := Qmax _ _) in *.
  split; lra.
Qed.

(** The comprehension smooths position by position. *)
Lemma smooth_each (alpha : Float64.float) (cs ss out : list num) :
  smooth alpha cs ss = Py.Ok out ->
  Forall2 (fun p new => ema alpha (fst p) (snd p) = Py.Ok new) (combine cs ss) out.
Proof.
  unfold smooth. generalize (combine cs ss) as pairs.
  intros pairs. revert out.
  induction pairs as [| p rest IH]; intros out E; cbn [Py.comprehension] in E.
  - injection E as <-. constructor.
  - destruct (ema alpha (fst p) (snd p)) as [y | e] eqn:Ey; [| discriminate E].
    cbn [Py.obind] in E.
    destruct (Py.comprehension _ rest) as [ys | e]; [| discriminate E].
    cbn [Py.obind] in E. injection E as <-.
    constructor; [exact Ey | apply IH; reflexivity].
Qed.

(** The only exception of the smoothing is the conversion of an [int]
    too large for a float. *)
Lemma ema_raises (alpha : Float64.float) (c s : num) (e : Py.exn) :
  ema alpha c s = Py.Raised e -> e = Py.OverflowError.
Proof.
  assert (T : forall x e', to_float x = Py.Raised e' -> e' = Py.OverflowError).
  { intros [z | f] e' H; cbn [to_float] in H; [| discriminate H].
    unfold Float64.of_int in H.
    destruct (Float64.normalize z); try discriminate H.
    injection H as <-. reflexivity. }
  unfold ema. intros H.
  destruct (to_float c) as [cf | e1] eqn:Ec.
  - destruct (to_float s) as [sf | e2] eqn:Es; cbn [Py.obind] in H.
    + discriminate H.
    + injection H as <-. exact (T s e2 Es).
  - cbn [Py.obind] in H. injection H as <-. exact (T c e1 Ec).
Qed.

Lemma smooth_raises (alpha : Float64.float) (cs ss : list num) (e : Py.exn) :
  smooth alpha cs ss = Py.Raised e -> e = Py.OverflowError.
Proof.
  unfold smooth. generalize (combine cs ss) as pairs.
  induction pairs as [| p rest IH]; intros E; cbn [Py.comprehension] in E.
  - discriminate E.
  - destruct (ema alpha (fst p) (snd p)) as [y | e1] eqn:Ey; cbn [Py.obind] in E.
    + destruct (Py.comprehension _ rest) as [ys | e2]; cbn [Py.obind] in E.
      * discriminate E.
      * injection E as <-. apply IH. reflexivity.
    + injection E as <-. exact (ema_raises _ _ _ _ Ey).
Qed.

(** Positions within the bound are smoothed without an exception, each
    to a float between its reading and its previous value, up to the
    tolerance. *)
Lemma smooth_within (alpha : Float64.float) (cs ss : list num) (bound : Q) :
  alpha = Float64.lit_0_2 \/ alpha = Float64.lit_0_3 ->
  (bound <= 2 ^ 1000)%Q ->
  Forall (within bound) cs ->
  Forall (within bound) ss ->
  exists out,
    smooth alpha cs ss = Py.Ok out
    /\ Forall2 (fun p new => smoothed_within bound (fst p) (snd p) new)
         (combine cs ss) out.
Proof.
  intros Halpha HB. unfold smooth. revert ss.
  induction cs as [| c cs IH]; intros ss Hc Hs.
  - exists []. split; [reflexivity | constructor].
  - destruct ss as [| s ss].
    + exists []. split; [reflexivity | constructor].
    + inversion Hc as [| ? ? Hc1 Hc2]; subst.
      inversion Hs as [| ? ? Hs1 Hs2]; subst.
      destruct (ema_smoothed_within alpha c s bound Halpha HB Hc1 Hs1)
        as [new [E [W _]]].
      destruct (IH ss Hc2 Hs2) as [out [Eo Fo]].
      exists (new :: out). cbn [combine Py.comprehension fst snd].
      rewrite E. cbn [Py.obind]. rewrite Eo. cbn [Py.obind].
      split; [reflexivity |]. constructor; [exact W | exact Fo].
Qed.

(** C6, amended.  Exponential-moving-average smoothing.  Whenever the
    teleoperation loop smooths (every iteration of the direct script; the
    iterations of the SDK script in which teleoperation is active) each
    smoothed position is updated to
    [alpha * current + (1 - alpha) * previous], evaluated in binary64
    floating point, with [alpha] the float 0.2 (direct script) or 0.3 (SDK
    script), both in (0, 1).  The only exception of the expression is the
    [OverflowError] of an [int] too large for a float: the direct script
    then keeps the previous smoothed positions, the SDK script lets the
    exception leave the step.  For positions of magnitude at most [bound],
    [bound <= 2^1000], no exception is raised and every new smoothed
    position is a finite float between the previous smoothed value and the
    current reading up to the rounding tolerance
    [bound * 2^-51 + 2^-1072]; in exact arithmetic the tolerance is 0. *)
Theorem ema_smoothing (w : DirectTeleop.World) (st : Teleop.State)
    (sdk_readings : list Z) (b' : SdkBus) (bound : Q) :
  DirectTeleop.lock_holder w = None ->
  Teleop.read_motor_positions Teleop.MOTOR_IDS [] (Teleop.leader_bus st)
  = (Py.Ok sdk_readings, b') ->
  (bound <= 2 ^ 1000)%Q ->
  (exists readings,
     fst (DirectTeleop.read_leader_positions w) = Py.Ok readings
     /\ DirectTeleop.smoothed_positions (snd (DirectTeleop.main_iteration w))
        = match smooth Float64.lit_0_2 (map Int readings)
                  (DirectTeleop.smoothed_positions w) with
          | Py.Ok smoothed => smoothed
          | Py.Raised _ => DirectTeleop.smoothed_positions w
          end
     /\ (Forall (within bound) (map Int readings) ->
         Forall (within bound) (DirectTeleop.smoothed_positions w) ->
         Forall2 (fun p new => smoothed_within bound (fst p) (snd p) new)
           (combine (map Int readings) (DirectTeleop.smoothed_positions w))
           (DirectTeleop.smoothed_positions (snd (DirectTeleop.main_iteration w)))))
  /\ match smooth Float64.lit_0_3 (map Int sdk_readings)
             (Teleop.smoothed_positions st) with
     | Py.Ok smoothed =>
         Teleop.smoothed_positions (snd (Teleop.teleoperate_step st)) = smoothed
     | Py.Raised e =>
         Teleop.teleoperate_step st
         = (Py.Raised e,
            Teleop.mkState (Teleop.teleoperation_active st) b'
              (Teleop.follower_bus st) (Teleop.smoothed_positions st))
     end
  /\ (Forall (within bound) (map Int sdk_readings) ->
      Forall (within bound) (Teleop.smoothed_positions st) ->
      Forall2 (fun p new => smoothed_within bound (fst p) (snd p) new)
        (combine (map Int sdk_readings) (Teleop.smoothed_positions st))
        (Teleop.smoothed_positions (snd (Teleop.teleoperate_step st))))
  /\ (Teleop.teleoperation_active st = true ->
      Teleop.smoothed_positions (snd (Teleop.loop_iteration false false false st))
      = Teleop.smoothed_positions (snd (Teleop.teleoperate_step st)))
  /\ (Teleop.teleoperation_active st = false ->
      Teleop.loop_iteration false false false st = (Py.Ok true, st))
  /\ (forall a current smoothed,
        ema a current smoothed
        = Py.obind (to_float current) (fun c =>
          Py.obind (to_float smoothed) (fun s =>
          Py.Ok (Flt (Float64.add
                        (Float64.mul a c)
                        (Float64.mul (Float64.sub (Float64.normalize 1) a) s))))))
  /\ (forall a cs ss out,
        smooth a cs ss = Py.Ok out ->
        Forall2 (fun p new => ema a (fst p) (snd p) = Py.Ok new) (combine cs ss) out)
  /\ (forall a cs ss e, smooth a cs ss = Py.Raised e -> e = Py.OverflowError)
  /\ ema Float64.lit_0_2 (Int (2 ^ 1024)) (Int 0) = Py.Raised Py.OverflowError
  /\ Float64.lit_0_2 = Float64.div (Float64.normalize 2) (Float64.normalize 10)
  /\ Float64.lit_0_3 = Float64.div (Float64.normalize 3) (Float64.normalize 10)
  /\ (0 < Float64.to_Q Float64.lit_0_2 < 1)%Q
  /\ (0 < Float64.to_Q Float64.lit_0_3 < 1)%Q
  /\ (forall alpha current smoothed,
        alpha = Float64.lit_0_2 \/ alpha = Float64.lit_0_3 ->
        within bound current ->
        within bound smoothed ->
        exists new,
          ema alpha current smoothed = Py.Ok new
          /\ smoothed_within bound current smoothed new
          /\ within (bound + tolerance bound) new)
  /\ (forall alpha c s : Q,
        (0 < alpha < 1)%Q -> (Qmin c s <= ema_exact alpha c s <= Qmax c s)%Q).
Proof.
  intros Hlock Hread HB.
  split.
  { destruct (main_iteration_smooths w Hlock) as [readings [Er Es]].
    exists readings. split; [exact Er |]. split; [exact Es |].
    intros Hc Hs. rewrite Es.
    destruct (smooth_within Float64.lit_0_2 _ _ bound (or_introl eq_refl) HB Hc Hs)
      as [out [Eo Fo]].
    rewrite Eo. exact Fo. }
  pose proof (teleoperate_step_smooths st sdk_readings b' Hread) as Hstep.
  split; [exact Hstep |].
  split.
  { intros Hc Hs.
    destruct (smooth_within Float64.lit_0_3 _ _ bound (or_intror eq_refl) HB Hc Hs)
      as [out [Eo Fo]].
    rewrite Eo in Hstep. rewrite Hstep. exact Fo. }
  split; [exact (loop_iteration_active st) |].
  split; [exact (loop_iteration_paused st) |].
  split; [intros a current smoothed; reflexivity |].
  split; [exact smooth_each |].
  split; [exact smooth_raises |].
  split; [vm_compute; reflexivity |].
  split; [vm_compute; reflexivity |].
  split; [vm_compute; reflexivity |].
  split; [split; reflexivity |].
  split; [split; reflexivity |].
  split.
  { intros alpha current smoothed Halpha Hc Hs.
    exact (ema_smoothed_within alpha current smoothed bound Halpha HB Hc Hs). }
  exact ema_exact_between.
Qed.

Lemma ema_smoothing_witness :
  Forall2 (fun p new => smoothed_within 4095 (fst p) (snd p) new)
    (combine (map Int [1617; 1617; 1617; 1617; 1617; 1617])
       (Teleop.smoothed_positions (sdk_loop_entry 1617)))
    (Teleop.smoothed_positions (snd (Teleop.teleoperate_step (sdk_loop_entry 1617))))
  /\ exists new,
       ema Float64.lit_0_2 (Int 3) (Int 3) = Py.Ok new
       /\ smoothed_within 4095 (Int 3) (Int 3) new
       /\ within (4095 + tolerance 4095) new.
Proof.
  assert (Hlock : DirectTeleop.lock_holder (loop_entry 3) = None) by reflexivity.
  assert (Hread : Teleop.read_motor_positions Teleop.MOTOR_IDS []
                    (Teleop.leader_bus (sdk_loop_entry 1617))
                  = (Py.Ok [1617; 1617; 1617; 1617; 1617; 1617],
                     snd (Teleop.read_motor_positions Teleop.MOTOR_IDS []
                            (Teleop.leader_bus (sdk_loop_entry 1617)))))
    by (vm_compute; reflexivity).
  assert (HB : (4095 <= 2 ^ 1000)%Q) by discriminate.
  assert (W : forall z, 0 <= z <= 4095 -> within 4095 (Int z)).
  { intros z Hz. split; [exact I |]. cbn [value].
    apply Qabs_Qle_condition. change 4095%Q with (inject_Z 4095).
    rewrite <- inject_Z_opp, <- !Zle_Qle. lia. }
  pose proof (ema_smoothing (loop_entry 3) (sdk_loop_entry 1617)
                [1617; 1617; 1617; 1617; 1617; 1617] _ 4095 Hlock Hread HB) as T.
  destruct T as [_ [_ [Hsdk [_ [_ [_ [_ [_ [_ [_ [_ [_ [_ [Hema _]]]]]]]]]]]]]].
  split.
  - apply Hsdk; repeat constructor; apply W; lia.
  - apply Hema; [left; reflexivity | apply W; lia | apply W; lia].
Defined.

(** * Further properties *)

(** ** One exchange on the serial line *)

(** After a write and the wait for the reply, the script has seen all the
    bytes received, and the receive buffer is empty again. *)
Lemma exchange_post {A : Type} (d : A) (k : list Z -> A) (packet : list Z)
    (s : Serial) :
  (SerialPort.write packet ;;;
   SerialPort.sleep ;;;
   n <- SerialPort.in_waiting ;;
   if n =? 0 then Py.ret d
   else
     response <- SerialPort.read n ;;
     Py.ret (k response)) s
  = (Py.Ok (match SerialPort.received s with
            | [] => d
            | _ => k (SerialPort.received s)
            end),
     mkSerial (written s ++ [packet]) [] (tl (arrivals s))).
Proof.
  unfold Py.bind, SerialPort.write, SerialPort.sleep, SerialPort.in_waiting,
    SerialPort.read, SerialPort.received, Py.modify, Py.ret.
  cbn [written in_buffer arrivals].
  destruct (in_buffer s ++ hd [] (arrivals s)) as [| b l] eqn:E.
  - reflexivity.
  - replace (Z.of_nat (length (b :: l)) =? 0) with false
      by (symmetry; apply Z.eqb_neq; simpl length; lia).
    rewrite Nat2Z.id, firstn_all, skipn_all. reflexivity.
Qed.

Lemma write_byte_packet_encode (motor_id address value : Z) :
  0 <= motor_id < 256 -> 0 <= address < 256 -> 0 <= value < 256 ->
  DirectReset.write_byte_packet motor_id address value
  = Py.Ok (byte_write motor_id address value).
Proof.
  intros Hid Haddr Hv. unfold DirectReset.write_byte_packet, byte_write.
  rewrite encode_2. cbv zeta. apply bytearray_bytes.
  pose proof (checksum_byte (motor_id + 4 + 3 + address + value)).
  repeat constructor; lia.
Qed.

Lemma write_byte_exchange (motor_id address value : Z) (s : Serial) :
  0 <= motor_id < 256 -> 0 <= address < 256 -> 0 <= value < 256 ->
  exists response,
    DirectReset.write_byte motor_id address value s
    = (Py.Ok (header_and_id_ok 6 motor_id (SerialPort.received s), response),
       mkSerial (written s ++ [byte_write motor_id address value]) []
         (tl (arrivals s))).
Proof.
  intros Hid Haddr Hv. unfold DirectReset.write_byte, DirectReset.await_status.
  rewrite write_byte_packet_encode by assumption.
  unfold Py.bind at 1. unfold Py.lift.
  rewrite (exchange_post (false, None)
             (fun response => (header_and_id_ok 6 motor_id response, Some response))).
  destruct (SerialPort.received s); eexists; reflexivity.
Qed.

Lemma write_word_exchange (motor_id address value : Z) (s : Serial) :
  0 <= motor_id < 256 -> 0 <= address < 256 ->
  exists response,
    DirectReset.write_word motor_id address value s
    = (Py.Ok (header_and_id_ok 6 motor_id (SerialPort.received s), response),
       mkSerial (written s ++ [word_write motor_id address value]) []
         (tl (arrivals s))).
Proof.
  intros Hid Haddr. unfold DirectReset.write_word, DirectReset.await_status.
  rewrite write_word_packet_encode by assumption.
  unfold Py.bind at 1. unfold Py.lift.
  rewrite (exchange_post (false, None)
             (fun response => (header_and_id_ok 6 motor_id response, Some response))).
  destruct (SerialPort.received s); eexists; reflexivity.
Qed.

Lemma read_word_exchange (motor_id address : Z) (s : Serial) :
  0 <= motor_id < 256 -> 0 <= address < 256 ->
  exists response,
    DirectReset.read_word motor_id address 2 s
    = (Py.Ok (DirectReset.parse_word motor_id (SerialPort.received s), response),
       mkSerial (written s ++ [word_read motor_id address]) [] (tl (arrivals s))).
Proof.
  intros Hid Haddr. unfold DirectReset.read_word.
  rewrite read_word_packet_encode by (assumption || lia).
  unfold Py.bind at 1. unfold Py.lift.
  rewrite (exchange_post (0, false, None)
             (fun response => (DirectReset.parse_word motor_id response, Some response))).
  destruct (SerialPort.received s); eexists; reflexivity.
Qed.

(** ** Writing and reading registers *)

Lemma shiftr_8_low_word (v : Z) :
  Z.land (Z.shiftr (v mod 65536) 8) 255 = Z.land (Z.shiftr v 8) 255.
Proof.
  rewrite !land_255_mod, !Z.shiftr_div_pow2 by lia. change (2 ^ 8) with 256.
  assert (E : v / 256 = v mod 65536 / 256 + (v / 65536) * 256).
  { rewrite <- Z.div_add by lia. f_equal.
    pose proof (Z.div_mod v 65536 ltac:(lia)) as D. lia. }
  rewrite E. symmetry. apply Z.mod_add. lia.
Qed.

Lemma low_byte_low_word (v : Z) : Z.land (v mod 65536) 255 = Z.land v 255.
Proof.
  rewrite !land_255_mod.
  pose proof (Z.div_mod v 65536 ltac:(lia)) as D.
  assert (E : v = v mod 65536 + (v / 65536 * 256) * 256) by lia.
  rewrite E at 2. symmetry. apply Z.mod_add. lia.
Qed.

(** X1. [write_word] keeps only the low 16 bits of the value, silently:
    a value and its remainder modulo 65536 give the same packet, for any
    integer; [write_byte], to the contrary, raises on a value that does
    not fit a byte and sends nothing. *)
Theorem write_word_truncates (motor_id address value : Z) (s : Serial) :
  DirectReset.write_word_packet motor_id address value
  = DirectReset.write_word_packet motor_id address (value mod 65536)
  /\ DirectReset.write_word motor_id address value s
     = DirectReset.write_word motor_id address (value mod 65536) s
  /\ (~ 0 <= value < 256 ->
      DirectReset.write_byte motor_id address value s = (Py.Raised Py.ValueError, s)).
Proof.
  assert (E : DirectReset.write_word_packet motor_id address value
              = DirectReset.write_word_packet motor_id address (value mod 65536)).
  { unfold DirectReset.write_word_packet.
    rewrite shiftr_8_low_word, low_byte_low_word. reflexivity. }
  split; [exact E |]. split.
  - unfold DirectReset.write_word. rewrite E. reflexivity.
  - intros Hv. unfold DirectReset.write_byte, DirectReset.write_byte_packet,
      Py.bytearray.
    assert (F : Py.is_byte value = false).
    { destruct (Py.is_byte value) eqn:B; [| reflexivity].
      apply is_byte_range in B. contradiction. }
    cbn [forallb]. rewrite F.
    rewrite !andb_false_r, ?andb_false_l.
    destruct (Py.is_byte 255 && (Py.is_byte 255 && (Py.is_byte motor_id
               && (Py.is_byte 4 && (Py.is_byte 3 && (Py.is_byte address && false))))))
      eqn:G.
    + rewrite !andb_false_r in G. discriminate G.
    + reflexivity.
Qed.

Lemma write_word_truncates_witness :
  DirectReset.write_byte 1 40 256 silent_port = (Py.Raised Py.ValueError, silent_port).
Proof.
  refine (proj2 (proj2 (write_word_truncates 1 40 256 silent_port)) _). lia.
Defined.

Lemma header_and_id_ok_8 (motor_id : Z) (response : list Z) :
  header_and_id_ok 8 motor_id response = true
  <-> valid_ping_reply motor_id response /\ (8 <= length response)%nat.
Proof.
  unfold header_and_id_ok, valid_ping_reply. rewrite !andb_true_iff, Z.leb_le.
  split.
  - intros [[[Hlen H0] H1] H2].
    assert (L : (8 <= length response)%nat) by lia.
    rewrite item_nth_error in H0, H1, H2 by lia. repeat split; try assumption; lia.
  - intros [[H0 [H1 [H2 _]]] L].
    rewrite !item_nth_error by lia. repeat split; try assumption. lia.
Qed.

Lemma item_byte (response : list Z) (i : nat) :
  Forall (fun b => 0 <= b < 256) response -> 0 <= Py.item response i < 256.
Proof.
  intros F. unfold Py.item.
  destruct (Nat.lt_ge_cases i (length response)) as [L | L].
  - rewrite Forall_forall in F. apply F. apply nth_In. exact L.
  - rewrite nth_overflow by exact L. lia.
Qed.

(** X2. [read_word] reports success exactly when the bytes received
    start with 0xFF 0xFF and the queried id and are at least 8; the value
    is then byte 5 plus 256 times byte 6, within [0, 65535]; on failure
    the value is 0. *)
Theorem read_word_result (motor_id address : Z) (s : Serial) :
  0 <= motor_id < 256 -> 0 <= address < 256 ->
  Forall (fun b => 0 <= b < 256) (SerialPort.received s) ->
  exists value ok response,
    fst (DirectReset.read_word motor_id address 2 s) = Py.Ok (value, ok, response)
    /\ (ok = true
        <-> valid_ping_reply motor_id (SerialPort.received s)
            /\ (8 <= length (SerialPort.received s))%nat)
    /\ (ok = true ->
        value = Py.item (SerialPort.received s) 5
                + 256 * Py.item (SerialPort.received s) 6)
    /\ (ok = false -> value = 0)
    /\ 0 <= value <= 65535.
Proof.
  intros Hid Haddr Hbytes.
  destruct (read_word_exchange motor_id address s Hid Haddr) as [response E].
  rewrite E. cbn [fst].
  unfold DirectReset.parse_word.
  pose proof (header_and_id_ok_8 motor_id (SerialPort.received s)) as V.
  pose proof (item_byte (SerialPort.received s) 5 Hbytes) as B5.
  pose proof (item_byte (SerialPort.received s) 6 Hbytes) as B6.
  destruct (header_and_id_ok 8 motor_id (SerialPort.received s)).
  - eexists _, true, response. split; [reflexivity |].
    split; [split; [intros _; apply V; reflexivity | reflexivity] |].
    rewrite Z.shiftl_mul_pow2 by lia. change (2 ^ 8) with 256.
    split; [intros _; lia |]. split; [discriminate | lia].
  - exists 0, false, response. split; [reflexivity |].
    split; [split; [discriminate | intros H; apply V in H; discriminate H] |].
    split; [discriminate |]. split; [reflexivity | lia].
Qed.

Lemma read_word_result_witness :
  exists value ok response,
    fst (DirectReset.read_word 6 56 2 (mkSerial [] [] [[255; 255; 6; 4; 0; 0; 8; 237]]))
    = Py.Ok (value, ok, response)
    /\ 0 <= value <= 65535.
Proof.
  destruct (read_word_result 6 56 (mkSerial [] [] [[255; 255; 6; 4; 0; 0; 8; 237]]))
    as [value [ok [response [E [_ [_ [_ R]]]]]]].
  - lia.
  - lia.
  - simpl. repeat constructor; lia.
  - exists value, ok, response. split; assumption.
Defined.

(** ** The reset sequence *)

Ltac exchange lemma :=
  let r := fresh "response" in
  let E := fresh "E" in
  destruct lemma as [r E]; rewrite E; clear E;
  cbv beta iota; cbn [written in_buffer arrivals fst snd]; try clear r.

(** X3. [reset_motor] sends the same nine register writes in the same
    order whatever the motor answers, and its result is decided by the
    reply to the last one alone (the tenth arrival, after the pause of
    line 208): a motor that ignored every configuration write but
    acknowledges the final torque enable is reported as reset. *)
Theorem reset_motor_result (motor_id : Z) (s : Serial) :
  0 <= motor_id < 256 ->
  in_buffer s = [] ->
  fst (ResetSequence.reset_motor motor_id s)
  = Py.Ok (header_and_id_ok 6 motor_id (nth 9 (arrivals s) []))
  /\ written (snd (ResetSequence.reset_motor motor_id s))
     = written s
       ++ [byte_write motor_id 40 0;
           word_write motor_id 34 1000;
           byte_write motor_id 11 0;
           word_write motor_id 46 500;
           byte_write motor_id 5 0;
           byte_write motor_id 18 3;
           byte_write motor_id 41 1;
           byte_write motor_id 41 0;
           byte_write motor_id 40 1].
Proof.
  intros Hid Hbuf.
  assert (R : exists r s',
             ResetSequence.reset_motor motor_id s = (Py.Ok r, s')
             /\ r = header_and_id_ok 6 motor_id (nth 9 (arrivals s) [])
             /\ written s'
                = written s
                  ++ [byte_write motor_id 40 0;
                      word_write motor_id 34 1000;
                      byte_write motor_id 11 0;
                      word_write motor_id 46 500;
                      byte_write motor_id 5 0;
                      byte_write motor_id 18 3;
                      byte_write motor_id 41 1;
                      byte_write motor_id 41 0;
                      byte_write motor_id 40 1]).
  { eexists. eexists. split.
    - unfold ResetSequence.reset_motor.
      unfold ResetSequence.ADDR_TORQUE_ENABLE, ResetSequence.ADDR_MAX_TORQUE,
        ResetSequence.ADDR_OPERATING_MODE, ResetSequence.ADDR_GOAL_SPEED,
        ResetSequence.ADDR_RETURN_DELAY, ResetSequence.ADDR_ALARM_SHUTDOWN,
        ResetSequence.ADDR_LED.
      unfold Py.bind at 1.
      exchange (write_byte_exchange motor_id 40 0 s ltac:(lia) ltac:(lia) ltac:(lia)).
      unfold Py.bind at 1.
      match goal with |- context [DirectReset.write_word _ _ _ ?t] =>
        exchange (write_word_exchange motor_id 34 1000 t ltac:(lia) ltac:(lia)) end.
      unfold Py.bind at 1.
      match goal with |- context [DirectReset.write_byte _ _ _ ?t] =>
        exchange (write_byte_exchange motor_id 11 0 t ltac:(lia) ltac:(lia) ltac:(lia))
      end.
      unfold Py.bind at 1.
      match goal with |- context [DirectReset.write_word _ _ _ ?t] =>
        exchange (write_word_exchange motor_id 46 500 t ltac:(lia) ltac:(lia)) end.
      unfold Py.bind at 1.
      match goal with |- context [DirectReset.write_byte _ _ _ ?t] =>
        exchange (write_byte_exchange motor_id 5 0 t ltac:(lia) ltac:(lia) ltac:(lia))
      end.
      unfold Py.bind at 1.
      match goal with |- context [DirectReset.write_byte _ _ _ ?t] =>
        exchange (write_byte_exchange motor_id 18 3 t ltac:(lia) ltac:(lia) ltac:(lia))
      end.
      unfold Py.bind at 1.
      match goal with |- context [DirectReset.write_byte _ _ _ ?t] =>
        exchange (write_byte_exchange motor_id 41 1 t ltac:(lia) ltac:(lia) ltac:(lia))
      end.
      unfold Py.bind at 1. unfold SerialPort.sleep at 1, Py.modify at 1.
      cbv beta iota. cbn [written in_buffer arrivals].
      unfold Py.bind at 1.
      match goal with |- context [DirectReset.write_byte _ _ _ ?t] =>
        exchange (write_byte_exchange motor_id 41 0 t ltac:(lia) ltac:(lia) ltac:(lia))
      end.
      unfold Py.bind at 1.
      match goal with |- context [DirectReset.write_byte _ _ _ ?t] =>
        exchange (write_byte_exchange motor_id 40 1 t ltac:(lia) ltac:(lia) ltac:(lia))
      end.
      unfold Py.ret. cbn [fst]. reflexivity.
    - split.
      + unfold SerialPort.received. cbn [in_buffer arrivals app]. f_equal.
        destruct (arrivals s) as [| a0 [| a1 [| a2 [| a3 [| a4 [| a5 [| a6 [| a7
          [| a8 [| a9 l]]]]]]]]]]; reflexivity.
      + cbn [written]. rewrite <- !app_assoc. reflexivity. }
  destruct R as [r [s' [E [Hr Hw]]]]. rewrite E. cbn [fst snd].
  split; [rewrite Hr; reflexivity | exact Hw].
Qed.

Lemma reset_motor_result_witness :
  fst (ResetSequence.reset_motor 1
         (mkSerial [] [] [[]; []; []; []; []; []; []; []; []; [255; 255; 1; 2; 0; 252]]))
  = Py.Ok (header_and_id_ok 6 1
             (nth 9 (arrivals
                       (mkSerial [] []
                          [[]; []; []; []; []; []; []; []; [];
                           [255; 255; 1; 2; 0; 252]])) [])).
Proof.
  refine (proj1 (reset_motor_result 1
            (mkSerial [] [] [[]; []; []; []; []; []; []; []; []; [255; 255; 1; 2; 0; 252]])
            _ _)).
  - lia.
  - reflexivity.
Defined.

(** The run of [test_motor_movement], reply by reply. *)
Lemma test_motor_movement_run (motor_id : Z) (s : Serial) :
  0 <= motor_id < 256 ->
  let reply i := nth i (arrivals s) [] in
  let torque_ack := header_and_id_ok 6 motor_id (SerialPort.received s) in
  let current_pos := fst (DirectReset.parse_word motor_id (reply 1%nat)) in
  let read_ok := snd (DirectReset.parse_word motor_id (reply 1%nat)) in
  let target_pos := (current_pos + 100) mod 4096 in
  let goal_ack := header_and_id_ok 6 motor_id (reply 2%nat) in
  let new_pos :=
    fst (DirectReset.parse_word motor_id (reply 3%nat ++ reply 4%nat)) in
  let reread_ok :=
    snd (DirectReset.parse_word motor_id (reply 3%nat ++ reply 4%nat)) in
  let moved := Z.abs (new_pos - target_pos) <? 20 in
  exists s',
    ResetSequence.test_motor_movement motor_id s
    = (Py.Ok (torque_ack && read_ok && goal_ack && reread_ok && moved), s')
    /\ written s'
       = written s
         ++ byte_write motor_id 40 1
            :: (if torque_ack then
                  word_read motor_id 56
                  :: (if read_ok then
                        word_write motor_id 42 target_pos
                        :: (if goal_ack then
                              word_read motor_id 56
                              :: (if reread_ok && moved
                                  then [word_write motor_id 42 current_pos]
                                  else [])
                            else [])
                      else [])
                else []).
Proof.
  intros Hid reply torque_ack current_pos read_ok target_pos goal_ack
    new_pos reread_ok moved.
  unfold ResetSequence.test_motor_movement.
  unfold ResetSequence.ADDR_TORQUE_ENABLE, DirectReset.ADDR_PRESENT_POSITION,
    DirectReset.ADDR_GOAL_POSITION.
  unfold Py.bind at 1.
  exchange (write_byte_exchange motor_id 40 1 s ltac:(lia) ltac:(lia) ltac:(lia)).
  fold torque_ack.
  destruct torque_ack; cbn [negb andb].
  2: { unfold Py.ret. eexists. split; reflexivity. }
  set (s1 := mkSerial (written s ++ [byte_write motor_id 40 1]) [] (tl (arrivals s))).
  assert (R1 : SerialPort.received s1 = reply 1%nat).
  { unfold SerialPort.received, s1, reply. cbn [in_buffer arrivals app].
    destruct (arrivals s) as [| a0 [| a1 l]]; reflexivity. }
  unfold Py.bind at 1.
  exchange (read_word_exchange motor_id 56 s1 ltac:(lia) ltac:(lia)).
  rewrite R1.
  change (fst (DirectReset.parse_word motor_id (reply 1%nat))) with current_pos.
  change (snd (DirectReset.parse_word motor_id (reply 1%nat))) with read_ok.
  destruct read_ok; cbn [negb andb].
  2: { unfold Py.ret. eexists. split; [reflexivity |].
       unfold s1. cbn [written]. rewrite <- app_assoc. reflexivity. }
  fold target_pos.
  set (s2 := mkSerial (written s1 ++ [word_read motor_id 56]) [] (tl (arrivals s1))).
  assert (R2 : SerialPort.received s2 = reply 2%nat).
  { unfold SerialPort.received, s2, s1, reply. cbn [in_buffer arrivals app].
    destruct (arrivals s) as [| a0 [| a1 [| a2 l]]]; reflexivity. }
  unfold Py.bind at 1.
  exchange (write_word_exchange motor_id 42 target_pos s2 ltac:(lia) ltac:(lia)).
  rewrite R2. fold goal_ack.
  destruct goal_ack; cbn [negb andb].
  2: { unfold Py.ret. eexists. split; [reflexivity |].
       unfold s2, s1. cbn [written]. rewrite <- !app_assoc. reflexivity. }
  set (s3 := mkSerial (written s2 ++ [word_write motor_id 42 target_pos]) []
               (tl (arrivals s2))).
  unfold Py.bind at 1. unfold SerialPort.sleep at 1, Py.modify at 1.
  cbv beta iota.
  set (s4 := mkSerial (written s3) (in_buffer s3 ++ hd [] (arrivals s3))
               (tl (arrivals s3))).
  assert (R4 : SerialPort.received s4 = reply 3%nat ++ reply 4%nat).
  { unfold SerialPort.received, s4, s3, s2, s1, reply. cbn [in_buffer arrivals app].
    destruct (arrivals s) as [| a0 [| a1 [| a2 [| a3 [| a4 l]]]]]; reflexivity. }
  unfold Py.bind at 1.
  exchange (read_word_exchange motor_id 56 s4 ltac:(lia) ltac:(lia)).
  rewrite R4.
  change (fst (DirectReset.parse_word motor_id (reply 3%nat ++ reply 4%nat)))
    with new_pos.
  change (snd (DirectReset.parse_word motor_id (reply 3%nat ++ reply 4%nat)))
    with reread_ok.
  destruct reread_ok; cbn [negb andb].
  2: { unfold Py.ret. eexists. split; [reflexivity |].
       unfold s4, s3, s2, s1. cbn [written]. rewrite <- !app_assoc. reflexivity. }
  fold moved.
  set (s5 := mkSerial (written s4 ++ [word_read motor_id 56]) [] (tl (arrivals s4))).
  destruct moved.
  - unfold Py.bind at 1. unfold Py.bind at 1.
    exchange (write_word_exchange motor_id 42 current_pos s5 ltac:(lia) ltac:(lia)).
    unfold SerialPort.sleep, Py.modify, Py.ret.
    eexists. split; [reflexivity |].
    cbn [written]. unfold s5, s4, s3, s2, s1. cbn [written].
    rewrite <- !app_assoc. reflexivity.
  - unfold Py.bind, Py.ret. eexists. split; [reflexivity |].
    unfold s5, s4, s3, s2, s1. cbn [written]. rewrite <- !app_assoc. reflexivity.
Qed.

(** X4. [test_motor_movement], reply by reply.  With [reply i] the bytes
    that arrive after the i-th exchange on the port, [current_pos] is the
    word parsed from the reply to the first position read, [target_pos]
    is [(current_pos + 100) mod 4096], and [new_pos] is the word parsed
    from what has arrived by the second position read (the one-second
    wait in between takes one arrival into the input buffer).  The
    function returns [True] exactly when the torque enable and the goal
    write are acknowledged, both reads parse, and [new_pos] is within 20
    steps of [target_pos].  It sends the torque enable, then after each
    success the next of: position read, goal write of [target_pos],
    position read, and (only when the motor moved) a goal write of
    [current_pos], the position read first, which sends the motor back. *)
Theorem test_motor_movement_restores (motor_id : Z) (s : Serial) :
  0 <= motor_id < 256 ->
  let reply i := nth i (arrivals s) [] in
  let torque_ack := header_and_id_ok 6 motor_id (SerialPort.received s) in
  let current_pos := fst (DirectReset.parse_word motor_id (reply 1%nat)) in
  let read_ok := snd (DirectReset.parse_word motor_id (reply 1%nat)) in
  let target_pos := (current_pos + 100) mod 4096 in
  let goal_ack := header_and_id_ok 6 motor_id (reply 2%nat) in
  let new_pos :=
    fst (DirectReset.parse_word motor_id (reply 3%nat ++ reply 4%nat)) in
  let reread_ok :=
    snd (DirectReset.parse_word motor_id (reply 3%nat ++ reply 4%nat)) in
  let moved := Z.abs (new_pos - target_pos) <? 20 in
  fst (ResetSequence.test_motor_movement motor_id s)
  = Py.Ok (torque_ack && read_ok && goal_ack && reread_ok && moved)
  /\ written (snd (ResetSequence.test_motor_movement motor_id s))
     = written s
       ++ byte_write motor_id 40 1
          :: (if torque_ack then
                word_read motor_id 56
                :: (if read_ok then
                      word_write motor_id 42 target_pos
                      :: (if goal_ack then
                            word_read motor_id 56
                            :: (if reread_ok && moved
                                then [word_write motor_id 42 current_pos]
                                else [])
                          else [])
                    else [])
              else [])
  /\ 0 <= target_pos <= 4095.
Proof.
  intros Hid reply torque_ack current_pos read_ok target_pos goal_ack
    new_pos reread_ok moved.
  destruct (test_motor_movement_run motor_id s Hid) as [s' [E W]].
  rewrite E. cbn [fst snd].
  split; [reflexivity |]. split; [exact W |].
  pose proof (Z.mod_pos_bound (current_pos + 100) 4096 ltac:(lia)).
  unfold target_pos. lia.
Qed.

Lemma test_motor_movement_restores_witness :
  fst (ResetSequence.test_motor_movement 1 moving_motor_port) = Py.Ok true
  /\ written (snd (ResetSequence.test_motor_movement 1 moving_motor_port))
     = [byte_write 1 40 1; word_read 1 56; word_write 1 42 1100;
        word_read 1 56; word_write 1 42 1000]
  /\ 0 <= 1100 <= 4095.
Proof.
  refine (test_motor_movement_restores 1 moving_motor_port _). lia.
Defined.

(** ** The whole reset sequence *)

Lemma quiet_received (s : Serial) : quiet s -> SerialPort.received s = [].
Proof.
  intros [B A]. unfold SerialPort.received. rewrite B.
  destruct (arrivals s) as [| c l]; [reflexivity |].
  inversion A; subst. reflexivity.
Qed.

Lemma quiet_after_exchange (s : Serial) (packets : list (list Z)) :
  quiet s -> quiet (mkSerial packets [] (tl (arrivals s))).
Proof.
  intros [B A]. split; [reflexivity |]. cbn [arrivals].
  destruct (arrivals s) as [| c l]; [constructor |].
  inversion A; subst. assumption.
Qed.

Lemma ping_motor_exchange (motor_id : Z) (s : Serial) :
  0 <= motor_id < 256 ->
  DirectReset.ping_motor motor_id s
  = (Py.Ok (header_and_id_ok 6 motor_id (SerialPort.received s)),
     mkSerial (written s ++ [Codec.encode motor_id 1 []]) [] (tl (arrivals s))).
Proof.
  intros Hid. unfold DirectReset.ping_motor.
  rewrite direct_reset_ping_encode by exact Hid.
  unfold Py.bind at 1. unfold Py.lift.
  rewrite (exchange_post false (header_and_id_ok 6 motor_id)).
  destruct (SerialPort.received s); reflexivity.
Qed.

Lemma collect_pings_quiet (ids : list Z) :
  Forall (fun id => 0 <= id < 256) ids ->
  forall passed s,
    quiet s ->
    exists s',
      ResetSequence.collect DirectReset.ping_motor ids passed s = (Py.Ok passed, s')
      /\ written s' = written s ++ map (fun id => Codec.encode id 1 []) ids.
Proof.
  induction ids as [| motor_id rest IH]; intros F passed s Q.
  - exists s. simpl. rewrite app_nil_r. split; reflexivity.
  - inversion F as [| x l Hid F']; subst.
    cbn [ResetSequence.collect map]. unfold Py.bind at 1.
    rewrite ping_motor_exchange by exact Hid.
    rewrite (quiet_received s Q).
    change (header_and_id_ok 6 motor_id []) with false. cbv iota.
    destruct (IH F' passed
                (mkSerial (written s ++ [Codec.encode motor_id 1 []]) []
                   (tl (arrivals s)))
                (quiet_after_exchange s _ Q)) as [s' [E W]].
    exists s'. split; [exact E |].
    rewrite W. cbn [written]. rewrite <- app_assoc. reflexivity.
Qed.

(** X5. When no motor answers, [perform_reset_sequence] sends the six
    pings and nothing else: no register is written, and the three lists
    of its report are empty. *)
Theorem reset_sequence_on_silence (s : Serial) :
  quiet s ->
  fst (ResetSequence.perform_reset_sequence s) = Py.Ok ([], [], [])
  /\ written (snd (ResetSequence.perform_reset_sequence s))
     = written s ++ map (fun id => Codec.encode id 1 []) [1; 2; 3; 4; 5; 6].
Proof.
  intros Q. unfold ResetSequence.perform_reset_sequence.
  destruct (collect_pings_quiet ResetSequence.MOTOR_IDS
              ltac:(repeat constructor; lia) [] s Q) as [s' [E W]].
  unfold Py.bind at 1. rewrite E. cbn [fst snd]. unfold Py.bind at 1. rewrite E.
  split; [reflexivity | exact W].
Qed.

Lemma reset_sequence_on_silence_witness :
  fst (ResetSequence.perform_reset_sequence silent_port) = Py.Ok ([], [], []).
Proof.
  refine (proj1 (reset_sequence_on_silence silent_port _)).
  split; [reflexivity | constructor].
Defined.

Lemma collect_incl (stage : Z -> Py.M Serial bool) (ids : list Z) :
  forall passed s l s',
    ResetSequence.collect stage ids passed s = (Py.Ok l, s') ->
    exists l', l = passed ++ l' /\ incl l' ids.
Proof.
  induction ids as [| motor_id rest IH]; intros passed s l s' E.
  - cbn in E. injection E as <- _. exists []. rewrite app_nil_r.
    split; [reflexivity | apply incl_nil_l].
  - cbn [ResetSequence.collect] in E. unfold Py.bind at 1 in E.
    destruct (stage motor_id s) as [[ok | e] s1]; [| discriminate E].
    apply IH in E. destruct E as [l' [E I]].
    destruct ok.
    + exists (motor_id :: l'). split.
      * rewrite E, <- app_assoc. reflexivity.
      * intros x [<- | Hx]; [left; reflexivity | right; apply I; exact Hx].
    + exists l'. split; [exact E |]. apply incl_tl. exact I.
Qed.

(** *** Every stage returns *)

Lemma returns_ret {S A : Type} (x : A) : returns (Py.ret (S := S) x).
Proof. intros s. exists x, s. reflexivity. Qed.

Lemma returns_bind {S A B : Type} (m : Py.M S A) (k : A -> Py.M S B) :
  returns m -> (forall x, returns (k x)) -> returns (Py.bind m k).
Proof.
  intros Hm Hk s. destruct (Hm s) as [x [s1 E]].
  unfold Py.bind. rewrite E. apply Hk.
Qed.

Lemma returns_sleep : returns SerialPort.sleep.
Proof. intros s. eexists. eexists. reflexivity. Qed.

Lemma returns_write_byte (motor_id address value : Z) :
  0 <= motor_id < 256 -> 0 <= address < 256 -> 0 <= value < 256 ->
  returns (DirectReset.write_byte motor_id address value).
Proof.
  intros Hid Ha Hv s.
  destruct (write_byte_exchange motor_id address value s Hid Ha Hv) as [r E].
  rewrite E. eexists. eexists. reflexivity.
Qed.

Lemma returns_write_word (motor_id address value : Z) :
  0 <= motor_id < 256 -> 0 <= address < 256 ->
  returns (DirectReset.write_word motor_id address value).
Proof.
  intros Hid Ha s.
  destruct (write_word_exchange motor_id address value s Hid Ha) as [r E].
  rewrite E. eexists. eexists. reflexivity.
Qed.

Lemma returns_read_word (motor_id address : Z) :
  0 <= motor_id < 256 -> 0 <= address < 256 ->
  returns (DirectReset.read_word motor_id address 2).
Proof.
  intros Hid Ha s.
  destruct (read_word_exchange motor_id address s Hid Ha) as [r E].
  rewrite E. eexists. eexists. reflexivity.
Qed.

Lemma returns_ping_motor (motor_id : Z) :
  0 <= motor_id < 256 -> returns (DirectReset.ping_motor motor_id).
Proof.
  intros Hid s. rewrite ping_motor_exchange by exact Hid.
  eexists. eexists. reflexivity.
Qed.

Ltac returns_step :=
  lazymatch goal with
  | |- returns (Py.ret _) => apply returns_ret
  | |- returns SerialPort.sleep => apply returns_sleep
  | |- returns (DirectReset.write_byte _ _ _) => apply returns_write_byte; lia
  | |- returns (DirectReset.write_word _ _ _) => apply returns_write_word; lia
  | |- returns (DirectReset.read_word _ _ 2) => apply returns_read_word; lia
  | |- returns (Py.bind _ _) => apply returns_bind; [| intros ? ]
  | |- returns (if ?c then _ else _) => destruct c
  end.

Lemma returns_reset_motor (motor_id : Z) :
  0 <= motor_id < 256 -> returns (ResetSequence.reset_motor motor_id).
Proof.
  intros Hid. unfold ResetSequence.reset_motor.
  unfold ResetSequence.ADDR_TORQUE_ENABLE, ResetSequence.ADDR_MAX_TORQUE,
    ResetSequence.ADDR_OPERATING_MODE, ResetSequence.ADDR_GOAL_SPEED,
    ResetSequence.ADDR_RETURN_DELAY, ResetSequence.ADDR_ALARM_SHUTDOWN,
    ResetSequence.ADDR_LED.
  repeat returns_step.
Qed.

Lemma returns_test_motor_movement (motor_id : Z) :
  0 <= motor_id < 256 -> returns (ResetSequence.test_motor_movement motor_id).
Proof.
  intros Hid s. destruct (test_motor_movement_run motor_id s Hid) as [s' [E _]].
  rewrite E. eexists. eexists. reflexivity.
Qed.

Lemma returns_center_motor (motor_id : Z) :
  0 <= motor_id < 256 -> returns (ResetSequence.center_motor motor_id).
Proof.
  intros Hid. unfold ResetSequence.center_motor.
  unfold ResetSequence.ADDR_TORQUE_ENABLE, DirectReset.ADDR_GOAL_POSITION,
    ResetSequence.CENTER_POSITION.
  repeat returns_step.
Qed.

Lemma returns_collect (stage : Z -> Py.M Serial bool) (ids : list Z) :
  (forall motor_id, In motor_id ids -> returns (stage motor_id)) ->
  forall passed, returns (ResetSequence.collect stage ids passed).
Proof.
  induction ids as [| motor_id rest IH]; intros H passed; cbn [ResetSequence.collect].
  - apply returns_ret.
  - apply returns_bind; [apply H; left; reflexivity |].
    intros ok. apply IH. intros x Hx. apply H. right. exact Hx.
Qed.

Lemma returns_for_each {A : Type} (body : A -> Py.M Serial unit) (xs : list A) :
  (forall x, In x xs -> returns (body x)) -> returns (Py.for_each xs body).
Proof.
  induction xs as [| x rest IH]; intros H; cbn [Py.for_each].
  - apply returns_ret.
  - apply returns_bind; [apply H; left; reflexivity |].
    intros _. apply IH. intros y Hy. apply H. right. exact Hy.
Qed.

Lemma reset_ids_bytes (motor_id : Z) :
  In motor_id [1; 2; 3; 4; 5; 6] -> 0 <= motor_id < 256.
Proof. cbn [In]. lia. Qed.

Lemma perform_reset_sequence_run (s : Serial) :
  exists responsive reset moving s',
    ResetSequence.perform_reset_sequence s = (Py.Ok (responsive, reset, moving), s')
    /\ incl moving reset
    /\ incl reset responsive
    /\ incl responsive [1; 2; 3; 4; 5; 6].
Proof.
  unfold ResetSequence.perform_reset_sequence. unfold Py.bind at 1.
  destruct (returns_collect DirectReset.ping_motor ResetSequence.MOTOR_IDS
              (fun id H => returns_ping_motor id (reset_ids_bytes id H)) [] s)
    as [l1 [s1 E1]].
  rewrite E1.
  pose proof (collect_incl _ _ _ _ _ _ E1) as [l1' [-> I1]]. cbn [app] in *.
  destruct l1' as [| a l1'].
  - exists [], [], [], s1. split; [reflexivity |].
    repeat split; apply incl_nil_l.
  - unfold Py.bind at 1.
    destruct (returns_collect ResetSequence.reset_motor (a :: l1')
                (fun id H => returns_reset_motor id (reset_ids_bytes id (I1 id H)))
                [] s1) as [l2 [s2 E2]].
    rewrite E2.
    pose proof (collect_incl _ _ _ _ _ _ E2) as [l2' [-> I2]]. cbn [app] in *.
    unfold Py.bind at 1.
    destruct (returns_collect ResetSequence.test_motor_movement l2'
                (fun id H => returns_test_motor_movement id
                               (reset_ids_bytes id (I1 id (I2 id H))))
                [] s2) as [l3 [s3 E3]].
    rewrite E3.
    pose proof (collect_incl _ _ _ _ _ _ E3) as [l3' [-> I3]]. cbn [app] in *.
    assert (R : returns
                  (match l3' with
                   | [] => Py.ret tt
                   | _ :: _ =>
                       Py.for_each l3'
                         (fun motor_id =>
                            _ <- ResetSequence.center_motor motor_id ;; Py.ret tt) ;;;
                       SerialPort.sleep
                   end)).
    { destruct l3' as [| b l3'']; [apply returns_ret |].
      apply returns_bind; [| intros _; apply returns_sleep].
      apply returns_for_each. intros id H.
      apply returns_bind; [| intros _; apply returns_ret].
      apply returns_center_motor, reset_ids_bytes, I1, I2, I3, H. }
    destruct (R s3) as [[] [s4 E4]].
    unfold Py.bind at 1. rewrite E4.
    exists (a :: l1'), l2', l3', s4. split; [reflexivity |].
    split; [exact I3 |]. split; [exact I2 | exact I1].
Qed.

(** X6. [perform_reset_sequence] always returns its report, and in the
    report every moving motor is a reset motor, every reset motor is a
    responsive motor, and every responsive motor is one of the ids 1 to
    6. *)
Theorem reset_sequence_stages (s : Serial) (responsive reset moving : list Z) :
  (exists report, fst (ResetSequence.perform_reset_sequence s) = Py.Ok report)
  /\ (fst (ResetSequence.perform_reset_sequence s) = Py.Ok (responsive, reset, moving) ->
      incl moving reset /\ incl reset responsive /\ incl responsive [1; 2; 3; 4; 5; 6]).
Proof.
  destruct (perform_reset_sequence_run s) as [l1 [l2 [l3 [s' [E [I3 [I2 I1]]]]]]].
  rewrite E. cbn [fst].
  split; [eexists; reflexivity |].
  intros H. injection H as <- <- <-.
  split; [exact I3 |]. split; [exact I2 | exact I1].
Qed.

Lemma reset_sequence_stages_witness :
  fst (ResetSequence.perform_reset_sequence one_motor_port) = Py.Ok ([1], [1], [1])
  /\ incl [1] [1] /\ incl [1] [1] /\ incl [1] [1; 2; 3; 4; 5; 6].
Proof.
  assert (E : fst (ResetSequence.perform_reset_sequence one_motor_port)
              = Py.Ok ([1], [1], [1])) by (vm_compute; reflexivity).
  split; [exact E |].
  exact (proj2 (reset_sequence_stages one_motor_port [1] [1] [1]) E).
Defined.

(** ** The follower arm controller *)

Lemma controller_read_packet_shape (motor_id : Z) :
  0 <= motor_id < 256 ->
  ArmControl.read_packet motor_id
  = Py.Ok [255; 255; motor_id; 4; 2; 56; 2; 255 - (motor_id + 4 + 2 + 56) mod 256].
Proof.
  intros Hid. unfold ArmControl.read_packet.
  rewrite bytearray_bytes by (repeat constructor; lia).
  unfold Py.obind, Py.slice_to_end_minus. simpl firstn.
  rewrite complement_checksum. rewrite !sum_cons. change (Py.sum []) with 0.
  replace (motor_id + (4 + (2 + (56 + 0)))) with (motor_id + 4 + 2 + 56) by lia.
  unfold Py.append. rewrite is_byte_true by apply checksum_byte.
  reflexivity.
Qed.

Lemma controller_torque_packet_shape (motor_id : Z) (enable : bool) :
  0 <= motor_id < 256 ->
  ArmControl.torque_packet motor_id enable
  = Py.Ok [255; 255; motor_id; 4; 3; 40; if enable then 1 else 0;
           255 - (motor_id + 4 + 3 + 40) mod 256].
Proof.
  intros Hid. unfold ArmControl.torque_packet.
  rewrite bytearray_bytes by (destruct enable; repeat constructor; lia).
  unfold Py.obind, Py.slice_to_end_minus. simpl firstn.
  rewrite complement_checksum. rewrite !sum_cons. change (Py.sum []) with 0.
  replace (motor_id + (4 + (3 + (40 + 0)))) with (motor_id + 4 + 3 + 40) by lia.
  unfold Py.append. rewrite is_byte_true by apply checksum_byte.
  reflexivity.
Qed.

Lemma sum_with_short_checksum (t last : Z) :
  (t + last + (255 - t mod 256)) mod 256 = (255 + last) mod 256.
Proof.
  pose proof (Z.div_mod t 256 ltac:(lia)).
  replace (t + last + (255 - t mod 256)) with (255 + last + (t / 256) * 256) by lia.
  apply Z.mod_add. lia.
Qed.

(** X7. The two other packets of the controller take their checksum over
    [packet[2:-1]] too: the position request of [read_positions] never
    carries a valid checksum (its bytes sum to 1 modulo 256), and the
    packet of [set_torque] carries a valid one exactly when it disables
    the torque. *)
Theorem controller_request_checksums (motor_id : Z) :
  0 <= motor_id < 256 ->
  (exists packet,
     ArmControl.read_packet motor_id = Py.Ok packet
     /\ Codec.checked_sum packet mod 256 = 1
     /\ Codec.checksum_ok packet = false)
  /\ (forall enable,
        exists packet,
          ArmControl.torque_packet motor_id enable = Py.Ok packet
          /\ Codec.checksum_ok packet = negb enable).
Proof.
  intros Hid. split.
  - rewrite controller_read_packet_shape by exact Hid.
    eexists. split; [reflexivity |].
    assert (S : Codec.checked_sum
                  [255; 255; motor_id; 4; 2; 56; 2;
                   255 - (motor_id + 4 + 2 + 56) mod 256] mod 256 = 1).
    { unfold Codec.checked_sum, Py.slice_from. cbn [skipn].
      rewrite !sum_cons. change (Py.sum []) with 0.
      replace (motor_id + (4 + (2 + (56 + (2
                 + (255 - (motor_id + 4 + 2 + 56) mod 256 + 0))))))
        with (motor_id + 4 + 2 + 56 + 2 + (255 - (motor_id + 4 + 2 + 56) mod 256))
        by lia.
      rewrite sum_with_short_checksum. reflexivity. }
    split; [exact S |]. unfold Codec.checksum_ok. rewrite S. reflexivity.
  - intros enable. rewrite controller_torque_packet_shape by exact Hid.
    eexists. split; [reflexivity |].
    unfold Codec.checksum_ok, Codec.checked_sum, Py.slice_from. cbn [skipn].
    rewrite !sum_cons. change (Py.sum []) with 0.
    replace (motor_id + (4 + (3 + (40 + ((if enable then 1 else 0)
               + (255 - (motor_id + 4 + 3 + 40) mod 256 + 0))))))
      with (motor_id + 4 + 3 + 40 + (if enable then 1 else 0)
            + (255 - (motor_id + 4 + 3 + 40) mod 256))
      by lia.
    rewrite sum_with_short_checksum. destruct enable; reflexivity.
Qed.

Lemma controller_request_checksums_witness :
  exists packet,
    ArmControl.torque_packet 1 true = Py.Ok packet
    /\ Codec.checksum_ok packet = negb true.
Proof.
  refine (proj2 (controller_request_checksums 1 _) true). lia.
Defined.

Lemma set_item_length (l : list Z) :
  forall i v l', Py.set_item l i v = Py.Ok l' -> length l' = length l.
Proof.
  induction l as [| x l IH]; intros i v l' E; [discriminate E |].
  destruct i as [| j]; cbn [Py.set_item] in E.
  - injection E as <-. reflexivity.
  - destruct (Py.set_item l j v) as [r |] eqn:R; [| discriminate E].
    cbn in E. injection E as <-. cbn [length]. rewrite (IH j v r R). reflexivity.
Qed.

Lemma set_item_nth (l : list Z) :
  forall i v l',
    Py.set_item l i v = Py.Ok l' ->
    (i < length l)%nat
    /\ nth i l' 0 = v
    /\ forall j, j <> i -> nth j l' 0 = nth j l 0.
Proof.
  induction l as [| x l IH]; intros i v l' E; [discriminate E |].
  destruct i as [| k]; cbn [Py.set_item] in E.
  - injection E as <-. split; [cbn; lia |]. split; [reflexivity |].
    intros [| j] Hj; [contradiction | reflexivity].
  - destruct (Py.set_item l k v) as [r |] eqn:R; [| discriminate E].
    cbn in E. injection E as <-. destruct (IH k v r R) as [L [S O]].
    split; [cbn; lia |]. split; [exact S |].
    intros [| j] Hj; [reflexivity |]. cbn [nth]. apply O. lia.
Qed.

Lemma set_item_Forall (P : Z -> Prop) (l : list Z) :
  forall i v l',
    Py.set_item l i v = Py.Ok l' -> Forall P l -> P v -> Forall P l'.
Proof.
  induction l as [| x l IH]; intros i v l' E F Hv; [discriminate E |].
  inversion F; subst.
  destruct i as [| k]; cbn [Py.set_item] in E.
  - injection E as <-. constructor; assumption.
  - destruct (Py.set_item l k v) as [r |] eqn:R; [| discriminate E].
    cbn in E. injection E as <-. constructor; [assumption |].
    apply (IH k v r R); assumption.
Qed.

(** What [set_position] does to the controller, case by case. *)
Lemma set_position_cases (motor_id position : Z) (c : FollowerArmController.t) :
  let r := FollowerArmController.set_position motor_id position c in
  (fst r = Py.Ok true
   /\ FollowerArmController.connected c = true
   /\ 1 <= motor_id <= 6
   /\ Py.set_item (FollowerArmController.current_positions c)
        (Z.to_nat (motor_id - 1)) (FollowerArmController.clamp_position position)
      = Py.Ok (FollowerArmController.current_positions (snd r)))
  \/ (fst r <> Py.Ok true
      /\ FollowerArmController.current_positions (snd r)
         = FollowerArmController.current_positions c).
Proof.
  cbv zeta. unfold FollowerArmController.set_position.
  cbv [Py.bind Py.get Py.ret Py.lift Py.modify FollowerArmController.on_ser
       SerialPort.write SerialPort.sleep SerialPort.in_waiting SerialPort.read
       FollowerArmController.store_position].
  cbn [FollowerArmController.ser FollowerArmController.connected
       FollowerArmController.current_positions in_buffer arrivals written fst snd].
  destruct (FollowerArmController.connected c) eqn:Hc; cbn [negb];
    [| right; split; [discriminate | reflexivity]].
  destruct ((motor_id <? 1) || (motor_id >? 6)) eqn:Hid;
    [right; split; [discriminate | reflexivity] |].
  assert (Hr : 1 <= motor_id <= 6).
  { apply orb_false_elim in Hid. destruct Hid as [H1 H2].
    apply Z.ltb_ge in H1. rewrite Z.gtb_ltb in H2. apply Z.ltb_ge in H2. lia. }
  destruct (FollowerArmController.write_packet motor_id
              (FollowerArmController.clamp_position position)) as [packet |];
    [| right; split; [discriminate | reflexivity]].
  cbn [FollowerArmController.ser FollowerArmController.connected
       FollowerArmController.current_positions in_buffer arrivals written fst snd].
  destruct (Z.of_nat _ =? 0); cbn [FollowerArmController.current_positions fst snd];
    [right; split; [discriminate | reflexivity] |].
  destruct (header_and_id_ok 6 motor_id _);
    cbn [FollowerArmController.current_positions fst snd];
    [| right; split; [discriminate | reflexivity]].
  destruct (Py.set_item (FollowerArmController.current_positions c)
              (Z.to_nat (motor_id - 1))
              (FollowerArmController.clamp_position position)) as [l |] eqn:S;
    cbn [FollowerArmController.current_positions fst snd].
  - left. repeat split; try reflexivity; lia.
  - right. split; [discriminate | reflexivity].
Qed.

(** X8. [set_position] answers True only for a connected controller and
    a motor id in 1..6, and has then stored the clamped position for that
    motor and left the other stored positions alone; whenever it does not
    answer True the stored positions are unchanged; a disconnected
    controller or an id outside 1..6 sends nothing at all. *)
Theorem set_position_effect (motor_id position : Z) (c : FollowerArmController.t) :
  let r := FollowerArmController.set_position motor_id position c in
  let stored := FollowerArmController.current_positions (snd r) in
  (fst r = Py.Ok true ->
   FollowerArmController.connected c = true
   /\ 1 <= motor_id <= 6
   /\ list_index stored (motor_id - 1)
      = Py.Ok (FollowerArmController.clamp_position position)
   /\ length stored = length (FollowerArmController.current_positions c)
   /\ forall j, j <> Z.to_nat (motor_id - 1) ->
        nth j stored 0 = nth j (FollowerArmController.current_positions c) 0)
  /\ (fst r <> Py.Ok true ->
      stored = FollowerArmController.current_positions c)
  /\ (FollowerArmController.connected c = false \/ motor_id < 1 \/ 6 < motor_id ->
      r = (Py.Ok false, c)).
Proof.
  cbv zeta. split; [| split].
  - intros T.
    destruct (set_position_cases motor_id position c) as [[_ [Hc [Hid S]]] | [N _]];
      [| contradiction].
    destruct (set_item_nth _ _ _ _ S) as [L [V O]].
    pose proof (set_item_length _ _ _ _ S) as Len.
    split; [exact Hc |]. split; [exact Hid |]. split; [| split; [exact Len | exact O]].
    unfold list_index. rewrite Len.
    replace ((0 <=? motor_id - 1)
             && (motor_id - 1
                 <? Z.of_nat (length (FollowerArmController.current_positions c))))
      with true.
    + rewrite V. reflexivity.
    + symmetry. apply andb_true_intro. split; [apply Z.leb_le; lia |].
      apply Z.ltb_lt. lia.
  - intros N.
    destruct (set_position_cases motor_id position c) as [[T _] | [_ E]];
      [contradiction | exact E].
  - intros H. unfold FollowerArmController.set_position.
    unfold Py.bind at 1. unfold Py.get.
    destruct H as [H | H].
    + rewrite H. reflexivity.
    + destruct (negb (FollowerArmController.connected c)); [reflexivity |].
      replace ((motor_id <? 1) || (motor_id >? 6)) with true; [reflexivity |].
      symmetry. apply orb_true_iff. rewrite Z.gtb_ltb, !Z.ltb_lt. lia.
Qed.

Lemma set_position_effect_witness :
  FollowerArmController.set_position 7 2048 (FollowerArmController.init silent_port)
  = (Py.Ok false, FollowerArmController.init silent_port).
Proof.
  refine (proj2 (proj2 (set_position_effect 7 2048
                          (FollowerArmController.init silent_port))) _).
  right. right. lia.
Defined.

Lemma set_position_keeps_range (motor_id position : Z) (c : FollowerArmController.t) :
  let c' := snd (FollowerArmController.set_position motor_id position c) in
  length (FollowerArmController.current_positions c')
  = length (FollowerArmController.current_positions c)
  /\ (Forall (fun p => 0 <= p <= 4095) (FollowerArmController.current_positions c) ->
      Forall (fun p => 0 <= p <= 4095) (FollowerArmController.current_positions c')).
Proof.
  cbv zeta.
  destruct (set_position_cases motor_id position c) as [[_ [_ [_ S]]] | [_ E]].
  - split; [exact (set_item_length _ _ _ _ S) |].
    intros F. apply (set_item_Forall _ _ _ _ _ S F).
    apply clamp_range.
  - rewrite E. split; [reflexivity | auto].
Qed.

Lemma return_to_rest_keeps_range (ids : list Z) :
  forall all_success c,
    let c' := snd (FollowerArmController.return_to_rest_loop ids all_success c) in
    length (FollowerArmController.current_positions c')
    = length (FollowerArmController.current_positions c)
    /\ (Forall (fun p => 0 <= p <= 4095) (FollowerArmController.current_positions c) ->
        Forall (fun p => 0 <= p <= 4095)
          (FollowerArmController.current_positions c')).
Proof.
  induction ids as [| motor_id rest IH]; intros all_success c; cbv zeta.
  - cbn. split; [reflexivity | auto].
  - assert (Step :
      FollowerArmController.return_to_rest_loop (motor_id :: rest) all_success c
      = match FollowerArmController.set_position motor_id
                (Py.item (FollowerArmController.rest_positions c)
                   (Z.to_nat (motor_id - 1))) c with
        | (Py.Ok ok, c1) =>
            FollowerArmController.return_to_rest_loop rest (all_success && ok) c1
        | (Py.Raised e, c1) => (Py.Raised e, c1)
        end) by reflexivity.
    rewrite Step. clear Step.
    pose proof (set_position_keeps_range motor_id
                  (Py.item (FollowerArmController.rest_positions c)
                     (Z.to_nat (motor_id - 1))) c) as K.
    cbv zeta in K.
    destruct (FollowerArmController.set_position motor_id _ c) as [[ok | e] c1];
      cbn [snd] in K |- *.
    + destruct (IH (all_success && ok) c1) as [L F]. destruct K as [KL KF].
      split; [exact (eq_trans L KL) | intros H; exact (F (KF H))].
    + exact K.
Qed.

Lemma set_torque_keeps_positions (motor_id : Z) (enable : bool)
    (c : FollowerArmController.t) :
  FollowerArmController.current_positions (snd (ArmControl.set_torque motor_id enable c))
  = FollowerArmController.current_positions c.
Proof.
  unfold ArmControl.set_torque.
  cbv [Py.bind Py.get Py.ret Py.lift Py.modify FollowerArmController.on_ser
       SerialPort.write SerialPort.sleep SerialPort.in_waiting SerialPort.read].
  cbn [FollowerArmController.ser FollowerArmController.connected
       FollowerArmController.current_positions in_buffer arrivals written fst snd].
  destruct (negb (FollowerArmController.connected c)); [reflexivity |].
  destruct (ArmControl.torque_packet motor_id enable); [| reflexivity].
  repeat (split_if;
          cbn [FollowerArmController.ser FollowerArmController.connected
               FollowerArmController.current_positions in_buffer arrivals written
               fst snd]);
    reflexivity.
Qed.

Lemma torque_all_keeps_positions (enable : bool) (ids : list Z) :
  forall all_success c,
    FollowerArmController.current_positions
      (snd (ArmControl.torque_all_loop enable ids all_success c))
    = FollowerArmController.current_positions c.
Proof.
  induction ids as [| motor_id rest IH]; intros all_success c.
  - reflexivity.
  - assert (Step :
      ArmControl.torque_all_loop enable (motor_id :: rest) all_success c
      = match ArmControl.set_torque motor_id enable c with
        | (Py.Ok ok, c1) =>
            ArmControl.torque_all_loop enable rest (all_success && ok) c1
        | (Py.Raised e, c1) => (Py.Raised e, c1)
        end) by reflexivity.
    rewrite Step. clear Step.
    pose proof (set_torque_keeps_positions motor_id enable c) as K.
    destruct (ArmControl.set_torque motor_id enable c) as [[ok | e] c1];
      cbn [snd] in K |- *.
    + rewrite IH. exact K.
    + exact K.
Qed.

Lemma snd_bind_ret {S A B : Type} (m : Py.M S A) (b : B) (s : S) :
  snd (Py.bind m (fun _ => Py.ret b) s) = snd (m s).
Proof.
  unfold Py.bind, Py.ret. destruct (m s) as [[a | e] s']; reflexivity.
Qed.

Lemma move_selected_keeps_console (steps : Z) (u : ArmControl.Console) :
  console_ok u -> console_ok (snd (ArmControl.move_selected_motor steps u)).
Proof.
  intros Hu. pose proof Hu as [Hsel [Hstep [Hlen Hrange]]].
  unfold ArmControl.move_selected_motor.
  unfold Py.bind at 1. unfold Py.get. unfold Py.bind at 1. unfold Py.lift.
  destruct (list_index _ _) as [current_pos | e]; [| exact Hu].
  unfold ArmControl.on_arm.
  pose proof (set_position_keeps_range (ArmControl.selected_motor u + 1)
                (current_pos + steps) (ArmControl.arm u)) as K.
  cbv zeta in K.
  destruct (FollowerArmController.set_position _ _ (ArmControl.arm u)) as [r c1].
  cbn [snd] in K |- *. destruct K as [KL KF].
  unfold console_ok.
  cbn [ArmControl.arm ArmControl.selected_motor ArmControl.step_size].
  split; [exact Hsel |]. split; [exact Hstep |].
  split; [rewrite KL; exact Hlen | apply KF; exact Hrange].
Qed.

Lemma torque_all_keeps_console (enable flag : bool) (u : ArmControl.Console) :
  console_ok u ->
  console_ok
    (snd ((all_success <-
             ArmControl.on_arm (ArmControl.torque_all_loop enable (Py.range 1 7) true) ;;
           Py.modify (ArmControl.set_torque_enabled flag) ;;;
           Py.ret all_success) u)).
Proof.
  intros Hu. pose proof Hu as [Hsel [Hstep [Hlen Hrange]]].
  unfold Py.bind, Py.modify, Py.ret, ArmControl.on_arm.
  pose proof (torque_all_keeps_positions enable (Py.range 1 7) true
                (ArmControl.arm u)) as K.
  destruct (ArmControl.torque_all_loop enable (Py.range 1 7) true
              (ArmControl.arm u)) as [[ok | e] c1];
    cbn [snd] in K |- *; unfold console_ok;
    cbn [ArmControl.arm ArmControl.selected_motor ArmControl.step_size
         ArmControl.set_torque_enabled];
    rewrite K; (split; [exact Hsel |]; split; [exact Hstep |];
                split; [exact Hlen | exact Hrange]).
Qed.

(** X9. Whatever key is pressed and whatever the arm answers, the
    interactive control keeps its state well formed: a motor in 0..5
    stays selected, the step never drops below 10, and the six stored
    positions stay within [0, 4095]. *)
Theorem handle_key_keeps_console (k : ArmControl.key) (u : ArmControl.Console) :
  console_ok u -> console_ok (snd (ArmControl.handle_key k u)).
Proof.
  intros Hu. pose proof Hu as [Hsel [Hstep [Hlen Hrange]]].
  destruct k; cbn [ArmControl.handle_key].
  - exact Hu.
  - unfold Py.bind, Py.modify, Py.ret. cbn [snd]. unfold console_ok.
    cbn [ArmControl.arm ArmControl.selected_motor ArmControl.step_size
         ArmControl.set_selected_motor].
    split; [destruct d; cbn; lia |]. split; [exact Hstep |].
    split; [exact Hlen | exact Hrange].
  - change (console_ok
              (snd (Py.bind (ArmControl.move_selected_motor (ArmControl.step_size u))
                      (fun _ => Py.ret true) u))).
    rewrite snd_bind_ret. apply move_selected_keeps_console. exact Hu.
  - change (console_ok
              (snd (Py.bind (ArmControl.move_selected_motor (- ArmControl.step_size u))
                      (fun _ => Py.ret true) u))).
    rewrite snd_bind_ret. apply move_selected_keeps_console. exact Hu.
  - rewrite snd_bind_ret. unfold ArmControl.on_arm.
    unfold FollowerArmController.return_to_rest.
    pose proof (return_to_rest_keeps_range (Py.range 1 7) true (ArmControl.arm u))
      as K.
    cbv zeta in K.
    destruct (FollowerArmController.return_to_rest_loop (Py.range 1 7) true
                (ArmControl.arm u)) as [r c1].
    cbn [snd] in K |- *. destruct K as [KL KF]. unfold console_ok.
    cbn [ArmControl.arm ArmControl.selected_motor ArmControl.step_size].
    split; [exact Hsel |]. split; [exact Hstep |].
    split; [rewrite KL; exact Hlen | apply KF; exact Hrange].
  - rewrite snd_bind_ret. unfold ArmControl.toggle_torque.
    unfold Py.bind at 1. unfold Py.get.
    destruct (ArmControl.torque_enabled u).
    + apply (torque_all_keeps_console false false u Hu).
    + apply (torque_all_keeps_console true true u Hu).
  - unfold Py.bind, Py.modify, Py.ret. cbn [snd]. unfold console_ok.
    cbn [ArmControl.arm ArmControl.selected_motor ArmControl.step_size
         ArmControl.set_step_size].
    split; [exact Hsel |]. split; [lia |]. split; [exact Hlen | exact Hrange].
  - unfold Py.bind, Py.modify, Py.ret. cbn [snd]. unfold console_ok.
    cbn [ArmControl.arm ArmControl.selected_motor ArmControl.step_size
         ArmControl.set_step_size].
    split; [exact Hsel |]. split; [lia |]. split; [exact Hlen | exact Hrange].
  - unfold Py.bind, Py.modify, Py.ret. cbn [snd]. unfold console_ok.
    cbn [ArmControl.arm ArmControl.selected_motor ArmControl.step_size
         ArmControl.set_step_size].
    split; [exact Hsel |]. split; [unfold Py.max; lia |].
    split; [exact Hlen | exact Hrange].
  - exact Hu.
  - exact Hu.
Qed.

Lemma handle_key_keeps_console_witness :
  console_ok (snd (ArmControl.handle_key ArmControl.Key_minus
                     (ArmControl.init_console silent_port))).
Proof.
  apply handle_key_keeps_console.
  unfold console_ok. cbn. repeat split; try lia.
  repeat constructor; lia.
Defined.

(** ** The follower arm controller: pinging, torque, reading back *)

Lemma header_and_id_ok_nil (n motor_id : Z) :
  0 < n -> header_and_id_ok n motor_id [] = false.
Proof.
  intros H. unfold header_and_id_ok.
  replace (n <=? Z.of_nat (length (@nil Z))) with false; [reflexivity |].
  symmetry. apply Z.leb_gt. cbn. lia.
Qed.

Lemma received_empty_buffer (s : Serial) :
  in_buffer s = [] -> SerialPort.received s = hd [] (arrivals s).
Proof.
  intros H. unfold SerialPort.received. rewrite H. reflexivity.
Qed.

Lemma ping_loop_step (motor_id : Z) (rest : list Z) (all_responsive : bool)
    (c : FollowerArmController.t) :
  0 <= motor_id < 256 ->
  ArmControl.ping_loop (motor_id :: rest) all_responsive c
  = ArmControl.ping_loop rest
      (all_responsive
       && header_and_id_ok 6 motor_id (SerialPort.received (FollowerArmController.ser c)))
      (after_exchange (Codec.encode motor_id 1 []) c).
Proof.
  intros H. cbn [ArmControl.ping_loop]. unfold ArmControl.ping_packet.
  rewrite (ping_packet_bytes motor_id H). rewrite <- (encode_0 motor_id 1).
  cbv [Py.bind Py.get Py.ret Py.lift Py.modify FollowerArmController.on_ser
       SerialPort.write SerialPort.sleep SerialPort.in_waiting SerialPort.read
       SerialPort.received after_exchange].
  cbn [FollowerArmController.ser FollowerArmController.connected
       FollowerArmController.current_positions FollowerArmController.rest_positions
       in_buffer arrivals written fst snd].
  destruct (in_buffer (FollowerArmController.ser c)
            ++ hd [] (arrivals (FollowerArmController.ser c))) as [| x l] eqn:E.
  - cbn [length Z.of_nat Z.eqb]. rewrite header_and_id_ok_nil by lia.
    rewrite andb_false_r. reflexivity.
  - replace (Z.of_nat (length (x :: l)) =? 0) with false
      by (symmetry; apply Z.eqb_neq; simpl length; lia).
    cbn [FollowerArmController.ser FollowerArmController.connected
         FollowerArmController.current_positions FollowerArmController.rest_positions
         in_buffer arrivals written fst snd].
    rewrite Nat2Z.id, firstn_all, skipn_all.
    destruct (header_and_id_ok 6 motor_id (x :: l)), all_responsive; reflexivity.
Qed.

Lemma ping_loop_verdict (ids : list Z) :
  Forall (fun motor_id => 0 <= motor_id < 256) ids ->
  forall all_responsive c,
    in_buffer (FollowerArmController.ser c) = [] ->
    exists c',
      ArmControl.ping_loop ids all_responsive c
      = (Py.Ok (all_responsive
                && replies_ok ids (arrivals (FollowerArmController.ser c))), c')
      /\ written (FollowerArmController.ser c')
         = written (FollowerArmController.ser c)
           ++ map (fun motor_id => Codec.encode motor_id 1 []) ids
      /\ FollowerArmController.current_positions c'
         = FollowerArmController.current_positions c.
Proof.
  induction ids as [| motor_id rest IH]; intros F all_responsive c Hbuf.
  - exists c. cbn. rewrite andb_true_r, app_nil_r. repeat split.
  - inversion F as [| x l Hid F']; subst.
    rewrite ping_loop_step by exact Hid.
    rewrite received_empty_buffer by exact Hbuf.
    destruct (IH F'
                (all_responsive
                 && header_and_id_ok 6 motor_id
                      (hd [] (arrivals (FollowerArmController.ser c))))
                (after_exchange (Codec.encode motor_id 1 []) c) eq_refl)
      as [c' [E [W P]]].
    exists c'. rewrite E. cbn [replies_ok]. rewrite andb_assoc.
    split; [reflexivity |]. split; [| exact P].
    rewrite W. cbn [after_exchange FollowerArmController.ser written map].
    rewrite <- app_assoc. reflexivity.
Qed.

Lemma range_1_7_bytes : Forall (fun motor_id => 0 <= motor_id < 256) (Py.range 1 7).
Proof.
  change (Py.range 1 7) with [1; 2; 3; 4; 5; 6]. repeat constructor; lia.
Qed.

(** X10. [ping_motors] on a disconnected controller answers False and
    sends nothing.  On a connected one whose receive buffer is empty it
    sends the six ping packets for the ids 1 to 6, in order, and answers
    True exactly when each motor's reply, taken in turn, is at least 6
    bytes long and starts with 0xFF 0xFF and the motor's id. *)
Theorem ping_motors_verdict (c : FollowerArmController.t) :
  (FollowerArmController.connected c = false ->
   ArmControl.ping_motors c = (Py.Ok false, c))
  /\ (FollowerArmController.connected c = true ->
      in_buffer (FollowerArmController.ser c) = [] ->
      fst (ArmControl.ping_motors c)
      = Py.Ok (replies_ok (Py.range 1 7) (arrivals (FollowerArmController.ser c)))
      /\ written (FollowerArmController.ser (snd (ArmControl.ping_motors c)))
         = written (FollowerArmController.ser c)
           ++ map (fun motor_id => Codec.encode motor_id 1 []) (Py.range 1 7)).
Proof.
  unfold ArmControl.ping_motors, Py.bind, Py.get. split.
  - intros H. rewrite H. reflexivity.
  - intros H Hbuf. rewrite H. cbn [negb].
    destruct (ping_loop_verdict (Py.range 1 7) range_1_7_bytes true c Hbuf)
      as [c' [E [W _]]].
    rewrite E. cbn [fst snd andb]. split; [reflexivity | exact W].
Qed.

Lemma ping_motors_verdict_witness :
  ArmControl.ping_motors
    (FollowerArmController.mk false silent_port [] [])
  = (Py.Ok false, FollowerArmController.mk false silent_port [] [])
  /\ fst (ArmControl.ping_motors (FollowerArmController.init silent_port))
     = Py.Ok false.
Proof.
  split.
  - apply (proj1 (ping_motors_verdict
                    (FollowerArmController.mk false silent_port [] []))).
    reflexivity.
  - apply (proj1 (proj2 (ping_motors_verdict (FollowerArmController.init silent_port))
                    eq_refl eq_refl)).
Defined.

Lemma set_torque_step (motor_id : Z) (enable : bool) (c : FollowerArmController.t) :
  0 <= motor_id < 256 ->
  ArmControl.set_torque motor_id enable c
  = if FollowerArmController.connected c
    then (Py.Ok (header_and_id_ok 6 motor_id
                   (SerialPort.received (FollowerArmController.ser c))),
          after_exchange
            [255; 255; motor_id; 4; 3; 40; if enable then 1 else 0;
             255 - (motor_id + 4 + 3 + 40) mod 256] c)
    else (Py.Ok false, c).
Proof.
  intros H. unfold ArmControl.set_torque.
  rewrite (controller_torque_packet_shape motor_id enable H).
  destruct c as [conn s rp cp].
  cbv [Py.bind Py.get Py.ret Py.lift Py.modify FollowerArmController.on_ser
       SerialPort.write SerialPort.sleep SerialPort.in_waiting SerialPort.read
       SerialPort.received after_exchange].
  cbn [FollowerArmController.ser FollowerArmController.connected
       FollowerArmController.current_positions FollowerArmController.rest_positions
       in_buffer arrivals written fst snd].
  destruct conn; cbn [negb]; [| reflexivity].
  cbn [FollowerArmController.ser FollowerArmController.connected
       FollowerArmController.current_positions FollowerArmController.rest_positions
       in_buffer arrivals written fst snd].
  destruct (in_buffer s ++ hd [] (arrivals s)) as [| x l] eqn:E.
  - cbn [length Z.of_nat Z.eqb]. rewrite header_and_id_ok_nil by lia. reflexivity.
  - replace (Z.of_nat (length (x :: l)) =? 0) with false
      by (symmetry; apply Z.eqb_neq; simpl length; lia).
    cbn [FollowerArmController.ser FollowerArmController.connected
         FollowerArmController.current_positions FollowerArmController.rest_positions
         in_buffer arrivals written fst snd].
    rewrite Nat2Z.id, firstn_all, skipn_all.
    destruct (header_and_id_ok 6 motor_id (x :: l)); reflexivity.
Qed.

Lemma torque_all_loop_outcome (enable : bool) (ids : list Z) :
  Forall (fun motor_id => 0 <= motor_id < 256) ids ->
  forall all_success c,
    exists ok c',
      ArmControl.torque_all_loop enable ids all_success c = (Py.Ok ok, c')
      /\ (FollowerArmController.connected c = false ->
          c' = c /\ (ids <> [] -> ok = false))
      /\ (FollowerArmController.connected c = true ->
          in_buffer (FollowerArmController.ser c) = [] ->
          ok = all_success && replies_ok ids (arrivals (FollowerArmController.ser c))).
Proof.
  induction ids as [| motor_id rest IH]; intros F all_success c.
  - exists all_success, c. cbn. rewrite andb_true_r.
    split; [reflexivity |]. split; [| reflexivity].
    intros _. split; [reflexivity | intros N; contradiction].
  - inversion F as [| x l Hid F']; subst.
    assert (Step :
      ArmControl.torque_all_loop enable (motor_id :: rest) all_success c
      = match ArmControl.set_torque motor_id enable c with
        | (Py.Ok ok, c1) =>
            ArmControl.torque_all_loop enable rest (all_success && ok) c1
        | (Py.Raised e, c1) => (Py.Raised e, c1)
        end) by reflexivity.
    rewrite Step. clear Step. rewrite (set_torque_step motor_id enable c Hid).
    destruct (FollowerArmController.connected c) eqn:Hc.
    + match goal with
      | |- context [ArmControl.torque_all_loop enable rest ?a ?t] =>
          destruct (IH F' a t) as [ok [c' [E [_ On]]]]
      end.
      exists ok, c'. split; [exact E |]. split; [discriminate |].
      intros _ Hbuf. rewrite (On Hc eq_refl).
      rewrite received_empty_buffer by exact Hbuf.
      cbn [replies_ok after_exchange FollowerArmController.ser arrivals].
      rewrite andb_assoc. reflexivity.
    + destruct (IH F' (all_success && false) c) as [ok [c' [E [Off _]]]].
      exists ok, c'. split; [exact E |]. split; [| discriminate].
      intros _. destruct (Off Hc) as [Ec Eok]. split; [exact Ec |].
      intros _. destruct rest as [| next rest'].
      * cbn in E. injection E as <- _. apply andb_false_r.
      * apply Eok. discriminate.
Qed.

(** X11. [toggle_torque] always returns and always flips
    [torque_enabled], whatever the motors answered: the selection and the
    step are untouched; on a disconnected controller it reports False and
    leaves the arm alone, yet the flag is flipped; on a connected one with
    an empty receive buffer it reports whether all six replies passed the
    reply test. *)
Theorem toggle_torque_flips (u : ArmControl.Console) :
  exists all_success u',
    ArmControl.toggle_torque u = (Py.Ok all_success, u')
    /\ ArmControl.torque_enabled u' = negb (ArmControl.torque_enabled u)
    /\ ArmControl.selected_motor u' = ArmControl.selected_motor u
    /\ ArmControl.step_size u' = ArmControl.step_size u
    /\ (FollowerArmController.connected (ArmControl.arm u) = false ->
        all_success = false /\ ArmControl.arm u' = ArmControl.arm u)
    /\ (FollowerArmController.connected (ArmControl.arm u) = true ->
        in_buffer (FollowerArmController.ser (ArmControl.arm u)) = [] ->
        all_success
        = replies_ok (Py.range 1 7)
            (arrivals (FollowerArmController.ser (ArmControl.arm u)))).
Proof.
  assert (Go : forall enable,
            exists all_success u',
              (all_success <-
                 ArmControl.on_arm (ArmControl.torque_all_loop enable (Py.range 1 7) true) ;;
               Py.modify (ArmControl.set_torque_enabled enable) ;;;
               Py.ret all_success) u
              = (Py.Ok all_success, u')
              /\ ArmControl.torque_enabled u' = enable
              /\ ArmControl.selected_motor u' = ArmControl.selected_motor u
              /\ ArmControl.step_size u' = ArmControl.step_size u
              /\ (FollowerArmController.connected (ArmControl.arm u) = false ->
                  all_success = false /\ ArmControl.arm u' = ArmControl.arm u)
              /\ (FollowerArmController.connected (ArmControl.arm u) = true ->
                  in_buffer (FollowerArmController.ser (ArmControl.arm u)) = [] ->
                  all_success
                  = replies_ok (Py.range 1 7)
                      (arrivals (FollowerArmController.ser (ArmControl.arm u))))).
  { intros enable.
    destruct (torque_all_loop_outcome enable (Py.range 1 7) range_1_7_bytes true
                (ArmControl.arm u)) as [ok [c' [E [Off On]]]].
    unfold Py.bind, Py.modify, Py.ret, ArmControl.on_arm. rewrite E.
    eexists; eexists; split; [reflexivity |].
    cbn [ArmControl.torque_enabled ArmControl.selected_motor ArmControl.step_size
         ArmControl.arm ArmControl.set_torque_enabled].
    split; [reflexivity |]. split; [reflexivity |]. split; [reflexivity |]. split.
    - intros Hc. destruct (Off Hc) as [Ec Eok]. split; [| exact Ec].
      apply Eok. change (Py.range 1 7) with [1; 2; 3; 4; 5; 6]. discriminate.
    - intros Hc Hbuf. rewrite (On Hc Hbuf). reflexivity. }
  unfold ArmControl.toggle_torque. unfold Py.bind at 1. unfold Py.get.
  unfold ArmControl.disable_torque_all, ArmControl.enable_torque_all.
  destruct (ArmControl.torque_enabled u); cbn [negb].
  - exact (Go false).
  - exact (Go true).
Qed.

Lemma toggle_torque_flips_witness :
  exists all_success u',
    ArmControl.toggle_torque
      (ArmControl.mkConsole (FollowerArmController.mk false silent_port [] []) 0 50 true)
    = (Py.Ok all_success, u')
    /\ all_success = false
    /\ ArmControl.torque_enabled u' = false.
Proof.
  destruct (toggle_torque_flips
              (ArmControl.mkConsole (FollowerArmController.mk false silent_port [] [])
                 0 50 true)) as [all_success [u' [E [T [_ [_ [Off _]]]]]]].
  exists all_success, u'. split; [exact E |]. split; [| exact T].
  apply Off. reflexivity.
Defined.

Lemma set_item_ok (l : list Z) :
  forall i v, (i < length l)%nat -> exists l', Py.set_item l i v = Py.Ok l'.
Proof.
  induction l as [| x l IH]; intros i v H; [cbn in H; lia |].
  destruct i as [| j]; cbn [Py.set_item].
  - eexists. reflexivity.
  - destruct (IH j v) as [l' E]; [cbn in H; lia |].
    rewrite E. eexists. reflexivity.
Qed.

Lemma read_positions_loop_step (motor_id : Z) (rest : list Z)
    (c : FollowerArmController.t) :
  0 <= motor_id < 256 ->
  ArmControl.read_positions_loop (motor_id :: rest) c
  = let response := SerialPort.received (FollowerArmController.ser c) in
    let c1 :=
      after_exchange
        [255; 255; motor_id; 4; 2; 56; 2; 255 - (motor_id + 4 + 2 + 56) mod 256] c in
    if header_and_id_ok 8 motor_id response
    then match FollowerArmController.store_position motor_id
                 (Py.item response 5 + Z.shiftl (Py.item response 6) 8) c1 with
         | (Py.Ok _, c2) => ArmControl.read_positions_loop rest c2
         | (Py.Raised e, c2) => (Py.Raised e, c2)
         end
    else ArmControl.read_positions_loop rest c1.
Proof.
  intros H. cbn [ArmControl.read_positions_loop].
  rewrite (controller_read_packet_shape motor_id H).
  destruct c as [conn s rp cp].
  cbv [Py.bind Py.get Py.ret Py.lift Py.modify FollowerArmController.on_ser
       SerialPort.write SerialPort.sleep SerialPort.in_waiting SerialPort.read
       SerialPort.received after_exchange].
  cbn [FollowerArmController.ser FollowerArmController.connected
       FollowerArmController.current_positions FollowerArmController.rest_positions
       in_buffer arrivals written fst snd].
  destruct (in_buffer s ++ hd [] (arrivals s)) as [| x l] eqn:E.
  - cbn [length Z.of_nat Z.eqb]. rewrite header_and_id_ok_nil by lia. reflexivity.
  - replace (Z.of_nat (length (x :: l)) =? 0) with false
      by (symmetry; apply Z.eqb_neq; simpl length; lia).
    cbn [FollowerArmController.ser FollowerArmController.connected
         FollowerArmController.current_positions FollowerArmController.rest_positions
         in_buffer arrivals written fst snd].
    rewrite Nat2Z.id, firstn_all, skipn_all.
    destruct (header_and_id_ok 8 motor_id (x :: l)); reflexivity.
Qed.

Lemma read_positions_loop_outcome (ids : list Z) :
  Forall (fun motor_id => 1 <= motor_id <= 6) ids ->
  forall c,
    length (FollowerArmController.current_positions c) = 6%nat ->
    exists c',
      ArmControl.read_positions_loop ids c = (Py.Ok tt, c')
      /\ length (FollowerArmController.current_positions c') = 6%nat
      /\ written (FollowerArmController.ser c')
         = written (FollowerArmController.ser c)
           ++ map (fun motor_id =>
                     [255; 255; motor_id; 4; 2; 56; 2;
                      255 - (motor_id + 4 + 2 + 56) mod 256]) ids
      /\ (quiet (FollowerArmController.ser c) ->
          FollowerArmController.current_positions c'
          = FollowerArmController.current_positions c).
Proof.
  induction ids as [| motor_id rest IH]; intros F c L.
  - exists c. cbn. rewrite app_nil_r. repeat split. exact L.
  - inversion F as [| x l Hid F']; subst.
    rewrite read_positions_loop_step by lia. cbv zeta.
    set (packet := [255; 255; motor_id; 4; 2; 56; 2;
                    255 - (motor_id + 4 + 2 + 56) mod 256]).
    assert (Q1 : quiet (FollowerArmController.ser c) ->
                 quiet (FollowerArmController.ser (after_exchange packet c))).
    { intros [Qb Qa]. split; [reflexivity |]. cbn [after_exchange
        FollowerArmController.ser arrivals].
      destruct (arrivals (FollowerArmController.ser c)); [constructor |].
      inversion Qa; assumption. }
    destruct (header_and_id_ok 8 motor_id
                (SerialPort.received (FollowerArmController.ser c))) eqn:Hok.
    + unfold FollowerArmController.store_position.
      cbn [after_exchange FollowerArmController.current_positions
           FollowerArmController.connected FollowerArmController.ser
           FollowerArmController.rest_positions].
      destruct (set_item_ok (FollowerArmController.current_positions c)
                  (Z.to_nat (motor_id - 1))
                  (Py.item (SerialPort.received (FollowerArmController.ser c)) 5
                   + Z.shiftl
                       (Py.item (SerialPort.received (FollowerArmController.ser c)) 6) 8))
        as [l' S]; [rewrite L; lia |].
      rewrite S.
      match goal with
      | |- context [ArmControl.read_positions_loop rest ?t] =>
          destruct (IH F' t) as [c' [E [L' [W Q]]]]
      end.
      { cbn [FollowerArmController.current_positions].
        rewrite (set_item_length _ _ _ _ S). exact L. }
      exists c'. split; [exact E |]. split; [exact L' |]. split.
      * rewrite W. cbn [FollowerArmController.ser written map].
        rewrite <- app_assoc. reflexivity.
      * intros Qc. rewrite (quiet_received _ Qc) in Hok.
        rewrite header_and_id_ok_nil in Hok by lia. discriminate Hok.
    + destruct (IH F' (after_exchange packet c) L) as [c' [E [L' [W Q]]]].
      exists c'. split; [exact E |]. split; [exact L' |]. split.
      * rewrite W. cbn [after_exchange FollowerArmController.ser written map].
        rewrite <- app_assoc. reflexivity.
      * intros Qc. rewrite (Q (Q1 Qc)). reflexivity.
Qed.

(** X12. [read_positions] on a disconnected controller answers False and
    sends nothing.  On a connected one holding six positions it always
    answers True, sends the six position requests for the ids 1 to 6 and
    keeps six stored positions; when no motor answers at all the stored
    positions are left exactly as they were. *)
Theorem read_positions_reports_true (c : FollowerArmController.t) :
  (FollowerArmController.connected c = false ->
   ArmControl.read_positions c = (Py.Ok false, c))
  /\ (FollowerArmController.connected c = true ->
      length (FollowerArmController.current_positions c) = 6%nat ->
      exists c',
        ArmControl.read_positions c = (Py.Ok true, c')
        /\ length (FollowerArmController.current_positions c') = 6%nat
        /\ written (FollowerArmController.ser c')
           = written (FollowerArmController.ser c)
             ++ map (fun motor_id =>
                       [255; 255; motor_id; 4; 2; 56; 2;
                        255 - (motor_id + 4 + 2 + 56) mod 256]) (Py.range 1 7)
        /\ (quiet (FollowerArmController.ser c) ->
            FollowerArmController.current_positions c'
            = FollowerArmController.current_positions c)).
Proof.
  split.
  - intros H. unfold ArmControl.read_positions. unfold Py.bind at 1. unfold Py.get.
    rewrite H. reflexivity.
  - intros H L. unfold ArmControl.read_positions. unfold Py.bind at 1. unfold Py.get.
    rewrite H. cbn [negb].
    destruct (read_positions_loop_outcome (Py.range 1 7)) with (c := c)
      as [c' [E [L' [W Q]]]].
    + change (Py.range 1 7) with [1; 2; 3; 4; 5; 6]. repeat constructor; lia.
    + exact L.
    + exists c'. unfold Py.bind, Py.ret. rewrite E.
      split; [reflexivity |]. split; [exact L' |]. split; [exact W | exact Q].
Qed.

Lemma read_positions_reports_true_witness :
  exists c',
    ArmControl.read_positions (FollowerArmController.init silent_port) = (Py.Ok true, c')
    /\ FollowerArmController.current_positions c' = [3014; 890; 2954; 1084; 74; 2065].
Proof.
  destruct (proj2 (read_positions_reports_true (FollowerArmController.init silent_port))
              eq_refl eq_refl) as [c' [E [_ [_ Q]]]].
  exists c'. split; [exact E |]. apply Q. split; [reflexivity | constructor].
Defined.

(** ** Centring a motor in the reset script *)

(** X13. [center_motor] reports True exactly when both the torque
    enable and the goal write are acknowledged; the goal position 2048 is
    sent only after the torque enable has been acknowledged, so a motor
    that does not answer is sent one packet and no move command. *)
Theorem center_motor_result (motor_id : Z) (s : Serial) :
  0 <= motor_id < 256 ->
  in_buffer s = [] ->
  let torque_ack := header_and_id_ok 6 motor_id (nth 0 (arrivals s) []) in
  let goal_ack := header_and_id_ok 6 motor_id (nth 1 (arrivals s) []) in
  fst (ResetSequence.center_motor motor_id s) = Py.Ok (torque_ack && goal_ack)
  /\ written (snd (ResetSequence.center_motor motor_id s))
     = written s
       ++ byte_write motor_id 40 1
          :: (if torque_ack then [word_write motor_id 42 2048] else []).
Proof.
  intros Hid Hbuf torque_ack goal_ack.
  assert (R : exists r s',
             ResetSequence.center_motor motor_id s = (Py.Ok r, s')
             /\ r = torque_ack && goal_ack
             /\ written s'
                = written s
                  ++ byte_write motor_id 40 1
                     :: (if torque_ack then [word_write motor_id 42 2048] else [])).
  { assert (T : header_and_id_ok 6 motor_id (SerialPort.received s) = torque_ack).
    { unfold torque_ack, SerialPort.received. rewrite Hbuf. cbn [app].
      destruct (arrivals s); reflexivity. }
    unfold ResetSequence.center_motor.
    unfold ResetSequence.ADDR_TORQUE_ENABLE, DirectReset.ADDR_GOAL_POSITION,
      ResetSequence.CENTER_POSITION.
    unfold Py.bind at 1.
    exchange (write_byte_exchange motor_id 40 1 s ltac:(lia) ltac:(lia) ltac:(lia)).
    rewrite T. destruct torque_ack eqn:Ht; cbn [negb andb].
    - unfold Py.bind at 1.
      match goal with |- context [DirectReset.write_word _ _ _ ?t] =>
        exchange (write_word_exchange motor_id 42 2048 t ltac:(lia) ltac:(lia)) end.
      assert (G : header_and_id_ok 6 motor_id
                    (SerialPort.received
                       (mkSerial (written s ++ [byte_write motor_id 40 1]) []
                          (tl (arrivals s))))
                  = goal_ack).
      { unfold goal_ack, SerialPort.received. cbn [in_buffer arrivals app].
        destruct (arrivals s) as [| a0 [| a1 l]]; reflexivity. }
      rewrite G. destruct goal_ack; cbn [negb]; unfold Py.ret;
        (eexists; eexists; split; [reflexivity |]; split; [reflexivity |]);
        cbn [written]; rewrite <- app_assoc; reflexivity.
    - unfold Py.ret. eexists; eexists; split; [reflexivity |].
      split; [reflexivity |]. reflexivity. }
  destruct R as [r [s' [E [Hr Hw]]]]. rewrite E. cbn [fst snd].
  split; [rewrite Hr; reflexivity | exact Hw].
Qed.

Lemma center_motor_result_witness :
  fst (ResetSequence.center_motor 1 silent_port) = Py.Ok false.
Proof.
  refine (proj1 (center_motor_result 1 silent_port _ _)).
  - lia.
  - reflexivity.
Defined.

(** ** The protocol test of the leader arm *)

Lemma protocol_ping_one (protocol_idx motor_id : Z) (s : Serial) :
  0 <= motor_id < 256 ->
  exists answered s',
    LeaderProtocolTest.ping_one protocol_idx motor_id s = (Py.Ok answered, s')
    /\ written s' = written s ++ [protocol_packet protocol_idx motor_id].
Proof.
  intros H. unfold LeaderProtocolTest.ping_one, protocol_packet.
  destruct (protocol_ping_packet_built protocol_idx motor_id H) as [packet E].
  rewrite E. unfold Py.bind at 1. unfold Py.lift.
  destruct (reply_idiom (fun response => 0 <? Z.of_nat (length response)) packet s)
    as [s' [E' W]].
  rewrite E'. eexists; eexists; split; [reflexivity | exact W].
Qed.

Lemma protocol_round (protocol_idx : Z) (s : Serial) :
  exists s',
    Py.for_each (Py.range 1 7)
      (fun motor_id =>
         _ <- LeaderProtocolTest.ping_one protocol_idx motor_id ;; Py.ret tt) s
    = (Py.Ok tt, s')
    /\ written s' = written s ++ map (protocol_packet protocol_idx) (Py.range 1 7).
Proof.
  apply for_each_written. intros x t Hx.
  change (Py.range 1 7) with [1; 2; 3; 4; 5; 6] in Hx.
  assert (Hb : 0 <= x < 256) by (simpl in Hx; lia).
  destruct (protocol_ping_one protocol_idx x t Hb) as [answered [t' [E W]]].
  exists t'. unfold Py.bind. rewrite E. split; [reflexivity | exact W].
Qed.

(** X14. On an opened port [test_protocol] returns True whatever the
    arm answers, even if it never answers: it sends eighteen packets, the
    six pings of the first protocol guess, the same six again for the
    second guess, and six packets of the third form, and raises
    nothing. *)
Theorem test_protocol_reports_true (s : Serial) :
  exists s',
    LeaderProtocolTest.test_protocol s = (Py.Ok true, s')
    /\ written s'
       = written s
         ++ map (fun motor_id => Codec.encode motor_id 1 []) (Py.range 1 7)
         ++ map (fun motor_id => Codec.encode motor_id 1 []) (Py.range 1 7)
         ++ map (fun motor_id => [255; 255; 253; 0; motor_id; 3; 0; 1; 0; 0])
              (Py.range 1 7).
Proof.
  unfold LeaderProtocolTest.test_protocol, Py.try_except.
  cbn [Py.for_each].
  destruct (protocol_round 0 s) as [s0 [E0 W0]].
  destruct (protocol_round 1 s0) as [s1 [E1 W1]].
  destruct (protocol_round 2 s1) as [s2 [E2 W2]].
  exists s2.
  unfold Py.bind at 1. unfold Py.bind at 1. rewrite E0.
  unfold Py.bind at 1. rewrite E1.
  unfold Py.bind at 1. rewrite E2. unfold Py.ret.
  split; [reflexivity |].
  rewrite W2, W1, W0, <- !app_assoc. reflexivity.
Qed.

(** ** The direct teleoperation script: torque, commands, calibration *)

Lemma torque_on_command_encode (motor_id : Z) :
  0 <= motor_id < 256 ->
  TeleopControl.torque_on_command motor_id = Py.Ok (Codec.encode motor_id 3 [40; 1]).
Proof.
  intros H. unfold TeleopControl.torque_on_command. rewrite encode_2. cbv zeta.
  apply bytearray_bytes.
  pose proof (checksum_byte (motor_id + 4 + 3 + 40 + 1)).
  repeat constructor; lia.
Qed.

Lemma enable_direct_loop_spec (ids : list Z) :
  Forall (fun motor_id => 0 <= motor_id < 256) ids ->
  forall count s, exists count' s',
    TeleopControl.enable_direct_loop ids count s = (Py.Ok count', s')
    /\ count <= count' <= count + Z.of_nat (length ids)
    /\ written s'
       = written s ++ map (fun motor_id => Codec.encode motor_id 3 [40; 1]) ids.
Proof.
  induction ids as [| motor_id rest IH]; intros F count s.
  - exists count, s. cbn. rewrite app_nil_r. repeat split; lia.
  - inversion F as [| x l Hid F']; subst.
    cbn [TeleopControl.enable_direct_loop].
    rewrite (torque_on_command_encode motor_id Hid).
    unfold Py.bind at 1. unfold Py.lift.
    unfold Py.bind at 1. unfold Py.try_except.
    unfold Py.bind, SerialPort.write, SerialPort.sleep, SerialPort.in_waiting,
      SerialPort.read, Py.modify, Py.ret. cbn [in_buffer arrivals written].
    destruct (Z.of_nat (length (in_buffer s ++ hd [] (arrivals s))) =? 0).
    + match goal with
      | |- context [TeleopControl.enable_direct_loop rest count ?t] =>
          destruct (IH F' count t) as [count' [s' [E [B W]]]]
      end.
      exists count', s'. rewrite E. split; [reflexivity |].
      split; [cbn [length]; lia |].
      rewrite W. cbn [written map]. rewrite <- app_assoc. reflexivity.
    + destruct (header_and_id_ok 6 motor_id _).
      * match goal with
        | |- context [TeleopControl.enable_direct_loop rest (count + 1) ?t] =>
            destruct (IH F' (count + 1) t) as [count' [s' [E [B W]]]]
        end.
        exists count', s'. rewrite E. split; [reflexivity |].
        split; [cbn [length]; lia |].
        rewrite W. cbn [written map]. rewrite <- app_assoc. reflexivity.
      * match goal with
        | |- context [TeleopControl.enable_direct_loop rest count ?t] =>
            destruct (IH F' count t) as [count' [s' [E [B W]]]]
        end.
        exists count', s'. rewrite E. split; [reflexivity |].
        split; [cbn [length]; lia |].
        rewrite W. cbn [written map]. rewrite <- app_assoc. reflexivity.
Qed.

Lemma enable_sdk_loop_spec (ids : list Z) :
  forall count b, exists count' b',
    TeleopControl.enable_sdk_loop ids count b = (Py.Ok count', b')
    /\ count <= count' <= count + Z.of_nat (length ids)
    /\ sdk_sent b' = sdk_sent b ++ map (fun motor_id => (motor_id, 40, 1)) ids.
Proof.
  induction ids as [| motor_id rest IH]; intros count b.
  - exists count, b. cbn. rewrite app_nil_r. repeat split; lia.
  - cbn [TeleopControl.enable_sdk_loop].
    unfold Py.bind at 1. unfold Py.try_except.
    unfold TeleopControl.write1ByteTxRx, Sdk.transmit, Py.bind, Py.ret.
    destruct (sdk_script b (sdk_calls b) motor_id) as [value result error | code].
    + cbn [fst snd]. destruct (result =? Sdk.COMM_SUCCESS).
      * match goal with
        | |- context [TeleopControl.enable_sdk_loop rest (count + 1) ?t] =>
            destruct (IH (count + 1) t) as [count' [b' [E [B W]]]]
        end.
        exists count', b'. rewrite E. split; [reflexivity |].
        split; [cbn [length]; lia |].
        rewrite W. cbn [sdk_sent map]. rewrite <- app_assoc. reflexivity.
      * match goal with
        | |- context [TeleopControl.enable_sdk_loop rest count ?t] =>
            destruct (IH count t) as [count' [b' [E [B W]]]]
        end.
        exists count', b'. rewrite E. split; [reflexivity |].
        split; [cbn [length]; lia |].
        rewrite W. cbn [sdk_sent map]. rewrite <- app_assoc. reflexivity.
    + cbn [Py.is_exception].
      match goal with
      | |- context [TeleopControl.enable_sdk_loop rest count ?t] =>
          destruct (IH count t) as [count' [b' [E [B W]]]]
      end.
      exists count', b'. rewrite E. split; [reflexivity |].
      split; [cbn [length]; lia |].
      rewrite W. cbn [sdk_sent map]. rewrite <- app_assoc. reflexivity.
Qed.

Lemma motor_ids_bytes : Forall (fun motor_id => 0 <= motor_id < 256) DirectTeleop.MOTOR_IDS.
Proof.
  unfold DirectTeleop.MOTOR_IDS. change (Py.range 1 7) with [1; 2; 3; 4; 5; 6].
  repeat constructor; lia.
Qed.

(** X15. [enable_all_follower_motors] never raises and returns a count
    between 0 and 6.  Over the serial link it sends the six torque-on
    packets (register 40, value 1) with a valid checksum and leaves the
    SDK bus alone; otherwise it requests the six SDK writes
    [(id, 40, 1)] and leaves the serial port alone. *)
Theorem enable_all_follower_motors_count (w : DirectTeleop.World) :
  exists count w',
    TeleopControl.enable_all_follower_motors w = (Py.Ok count, w')
    /\ 0 <= count <= 6
    /\ (if direct_link w
        then follower_written w'
             = follower_written w
               ++ map (fun motor_id => Codec.encode motor_id 3 [40; 1])
                    DirectTeleop.MOTOR_IDS
             /\ DirectTeleop.follower_bus w' = DirectTeleop.follower_bus w
        else sdk_sent (DirectTeleop.follower_bus w')
             = sdk_sent (DirectTeleop.follower_bus w)
               ++ map (fun motor_id => (motor_id, 40, 1)) DirectTeleop.MOTOR_IDS
             /\ DirectTeleop.follower_serial w' = DirectTeleop.follower_serial w).
Proof.
  unfold TeleopControl.enable_all_follower_motors, direct_link, follower_written.
  unfold Py.bind at 1. unfold Py.get.
  assert (Sdk_case :
            exists count w',
              DirectTeleop.on_follower_bus
                (TeleopControl.enable_sdk_loop DirectTeleop.MOTOR_IDS 0) w
              = (Py.Ok count, w')
              /\ 0 <= count <= 6
              /\ sdk_sent (DirectTeleop.follower_bus w')
                 = sdk_sent (DirectTeleop.follower_bus w)
                   ++ map (fun motor_id => (motor_id, 40, 1)) DirectTeleop.MOTOR_IDS
              /\ DirectTeleop.follower_serial w' = DirectTeleop.follower_serial w).
  { unfold DirectTeleop.on_follower_bus.
    destruct (enable_sdk_loop_spec DirectTeleop.MOTOR_IDS 0 (DirectTeleop.follower_bus w))
      as [count [b' [E [B W]]]].
    rewrite E. eexists; eexists; split; [reflexivity |].
    split; [exact B |]. split; [exact W | reflexivity]. }
  destruct (DirectTeleop.DIRECT_MODE w); [| exact Sdk_case].
  destruct (DirectTeleop.follower_serial w) as [s |] eqn:S; [| exact Sdk_case].
  unfold DirectTeleop.on_follower_serial. rewrite S. cbn [andb].
  destruct (enable_direct_loop_spec DirectTeleop.MOTOR_IDS motor_ids_bytes 0 s)
    as [count [s' [E [B W]]]].
  rewrite E. eexists; eexists; split; [reflexivity |].
  split; [exact B |]. cbn [DirectTeleop.follower_serial DirectTeleop.set_follower_serial
                           DirectTeleop.follower_bus].
  split; [exact W | reflexivity].
Qed.

Lemma set_direct_loop_count (pairs : list (Z * Z)) :
  Forall (fun p => 0 <= fst p < 256) pairs ->
  forall count s,
    fst (DirectTeleop.set_direct_loop pairs count s)
    = Py.Ok (count + Z.of_nat (length pairs)).
Proof.
  induction pairs as [| [motor_id position] rest IH]; intros F count s.
  - cbn. f_equal. lia.
  - inversion F as [| p l Hid F']; subst. cbn [fst] in Hid.
    cbn [DirectTeleop.set_direct_loop].
    rewrite goal_command_encode by exact Hid.
    unfold Py.bind at 1. unfold Py.lift.
    unfold Py.bind at 1. unfold Py.try_except.
    unfold Py.bind, SerialPort.write, SerialPort.sleep, SerialPort.in_waiting,
      SerialPort.read, Py.modify, Py.ret. cbn [in_buffer arrivals written].
    destruct (Z.of_nat (length (in_buffer s ++ hd [] (arrivals s))) =? 0);
      rewrite (IH F'); f_equal; cbn [length]; lia.
Qed.

Lemma set_sdk_loop_count (pairs : list (Z * Z)) :
  forall count b, exists count',
    fst (DirectTeleop.set_sdk_loop pairs count b) = Py.Ok count'
    /\ count <= count' <= count + Z.of_nat (length pairs).
Proof.
  induction pairs as [| [motor_id position] rest IH]; intros count b.
  - exists count. cbn. split; [reflexivity | lia].
  - cbn [DirectTeleop.set_sdk_loop].
    unfold Py.bind at 1. unfold Py.try_except.
    unfold Sdk.write2ByteTxRx, Sdk.transmit, Py.bind, Py.ret.
    destruct (sdk_script b (sdk_calls b) motor_id) as [value result error | code].
    + cbn [fst snd]. destruct (result =? Sdk.COMM_SUCCESS).
      * match goal with
        | |- context [DirectTeleop.set_sdk_loop rest (count + 1) ?t] =>
            destruct (IH (count + 1) t) as [count' [E B]]
        end.
        exists count'. split; [exact E | cbn [length]; lia].
      * match goal with
        | |- context [DirectTeleop.set_sdk_loop rest count ?t] =>
            destruct (IH count t) as [count' [E B]]
        end.
        exists count'. split; [exact E | cbn [length]; lia].
    + cbn [Py.is_exception].
      match goal with
      | |- context [DirectTeleop.set_sdk_loop rest count ?t] =>
          destruct (IH count t) as [count' [E B]]
      end.
      exists count'. split; [exact E | cbn [length]; lia].
Qed.

Lemma combine_ids_length (positions : list Z) :
  Z.of_nat (length (combine DirectTeleop.MOTOR_IDS positions))
  = Z.min 6 (Z.of_nat (length positions)).
Proof.
  rewrite length_combine. unfold DirectTeleop.MOTOR_IDS.
  change (length (Py.range 1 7)) with 6%nat. lia.
Qed.

Lemma set_follower_positions_branch (positions : list Z) (w : DirectTeleop.World) :
  DirectTeleop.set_follower_positions positions w
  = if direct_link w
    then DirectTeleop.on_follower_serial
           (DirectTeleop.set_direct_loop (combine DirectTeleop.MOTOR_IDS positions) 0) w
    else DirectTeleop.on_follower_bus
           (DirectTeleop.set_sdk_loop (combine DirectTeleop.MOTOR_IDS positions) 0) w.
Proof.
  unfold DirectTeleop.set_follower_positions, direct_link, Py.bind, Py.get.
  destruct (DirectTeleop.DIRECT_MODE w); [| reflexivity].
  destruct (DirectTeleop.follower_serial w); reflexivity.
Qed.

(** X16. [set_follower_positions] never raises; the count it returns
    lies between 0 and [min(6, len(positions))], positions beyond the
    sixth being ignored.  Over the serial link the count is always
    [min(6, len(positions))]: every command counts as a success whatever
    the arm answers. *)
Theorem set_follower_positions_count (positions : list Z) (w : DirectTeleop.World) :
  exists count,
    fst (DirectTeleop.set_follower_positions positions w) = Py.Ok count
    /\ 0 <= count <= Z.min 6 (Z.of_nat (length positions))
    /\ (direct_link w = true -> count = Z.min 6 (Z.of_nat (length positions))).
Proof.
  unfold DirectTeleop.set_follower_positions, direct_link.
  unfold Py.bind at 1. unfold Py.get.
  assert (Sdk_case :
            exists count,
              fst (DirectTeleop.on_follower_bus
                     (DirectTeleop.set_sdk_loop
                        (combine DirectTeleop.MOTOR_IDS positions) 0) w)
              = Py.Ok count
              /\ 0 <= count <= Z.min 6 (Z.of_nat (length positions))).
  { unfold DirectTeleop.on_follower_bus.
    destruct (set_sdk_loop_count (combine DirectTeleop.MOTOR_IDS positions) 0
                (DirectTeleop.follower_bus w)) as [count [E B]].
    rewrite combine_ids_length in B.
    destruct (DirectTeleop.set_sdk_loop _ 0 (DirectTeleop.follower_bus w)) as [r b'].
    cbn [fst] in E |- *. exists count. split; [exact E | lia]. }
  destruct (DirectTeleop.DIRECT_MODE w); cbn [andb].
  - destruct (DirectTeleop.follower_serial w) as [s |] eqn:S.
    + unfold DirectTeleop.on_follower_serial. rewrite S.
      pose proof (set_direct_loop_count (combine DirectTeleop.MOTOR_IDS positions)
                    (combine_ids_bytes positions) 0 s) as E.
      rewrite combine_ids_length in E.
      destruct (DirectTeleop.set_direct_loop _ 0 s) as [r s'].
      cbn [fst] in E |- *. eexists. split; [exact E |]. split; [lia |].
      intros _. lia.
    + destruct Sdk_case as [count [E B]]. exists count.
      split; [exact E |]. split; [exact B | discriminate].
  - destruct Sdk_case as [count [E B]]. exists count.
    split; [exact E |]. split; [exact B | discriminate].
Qed.

Lemma set_follower_positions_count_witness :
  exists count,
    fst (DirectTeleop.set_follower_positions [100; 200; 300] (module_level 2048))
    = Py.Ok count
    /\ count = 3.
Proof.
  destruct (set_follower_positions_count [100; 200; 300] (module_level 2048))
    as [count [E [_ D]]].
  exists count. split; [exact E |]. apply D. reflexivity.
Defined.

(** X17. [reset_to_center] never raises and commands the goal 2048 for
    each of the six motors, in order: over the serial link as six
    goal-position packets with the bytes 0x00 0x08, otherwise as six SDK
    writes to register 42. *)
Theorem reset_to_center_commands (w : DirectTeleop.World) :
  fst (TeleopControl.reset_to_center w) = Py.Ok tt
  /\ (if direct_link w
      then follower_written (snd (TeleopControl.reset_to_center w))
           = follower_written w
             ++ map (fun motor_id => Codec.encode motor_id 3 [42; 0; 8])
                  DirectTeleop.MOTOR_IDS
      else sdk_sent (DirectTeleop.follower_bus (snd (TeleopControl.reset_to_center w)))
           = sdk_sent (DirectTeleop.follower_bus w)
             ++ map (fun motor_id => (motor_id, 42, 2048)) DirectTeleop.MOTOR_IDS).
Proof.
  unfold TeleopControl.reset_to_center. cbv zeta.
  set (positions := map (fun _ : Z => DirectTeleop.CENTER_POSITION) DirectTeleop.MOTOR_IDS).
  assert (E : exists count,
             fst (DirectTeleop.set_follower_positions positions w) = Py.Ok count).
  { rewrite set_follower_positions_branch. destruct (direct_link w) eqn:D.
    - unfold direct_link in D. apply andb_prop in D. destruct D as [_ D].
      destruct (DirectTeleop.follower_serial w) as [s |] eqn:S; [| discriminate D].
      unfold DirectTeleop.on_follower_serial. rewrite S.
      pose proof (set_direct_loop_count (combine DirectTeleop.MOTOR_IDS positions)
                    (combine_ids_bytes positions) 0 s) as C.
      destruct (DirectTeleop.set_direct_loop _ 0 s) as [r s'].
      cbn [fst] in C |- *. eexists. exact C.
    - unfold DirectTeleop.on_follower_bus.
      destruct (set_sdk_loop_count (combine DirectTeleop.MOTOR_IDS positions) 0
                  (DirectTeleop.follower_bus w)) as [count [C _]].
      destruct (DirectTeleop.set_sdk_loop _ 0 (DirectTeleop.follower_bus w)) as [r b'].
      cbn [fst] in C |- *. exists count. exact C. }
  destruct E as [count E].
  assert (W : if direct_link w
              then follower_written (snd (DirectTeleop.set_follower_positions positions w))
                   = follower_written w
                     ++ map (fun motor_id => Codec.encode motor_id 3 [42; 0; 8])
                          DirectTeleop.MOTOR_IDS
              else sdk_sent (DirectTeleop.follower_bus
                               (snd (DirectTeleop.set_follower_positions positions w)))
                   = sdk_sent (DirectTeleop.follower_bus w)
                     ++ map (fun motor_id => (motor_id, 42, 2048)) DirectTeleop.MOTOR_IDS).
  { rewrite set_follower_positions_branch. unfold follower_written.
    destruct (direct_link w) eqn:D.
    - unfold direct_link in D. apply andb_prop in D. destruct D as [_ D].
      destruct (DirectTeleop.follower_serial w) as [s |] eqn:S; [| discriminate D].
      unfold DirectTeleop.on_follower_serial. rewrite S.
      pose proof (set_direct_loop_written (combine DirectTeleop.MOTOR_IDS positions)
                    (combine_ids_bytes positions) 0 s) as Wr.
      destruct (DirectTeleop.set_direct_loop _ 0 s) as [r s'].
      cbn [snd DirectTeleop.follower_serial DirectTeleop.set_follower_serial] in Wr |- *.
      rewrite Wr. reflexivity.
    - unfold DirectTeleop.on_follower_bus.
      pose proof (set_sdk_loop_sent (combine DirectTeleop.MOTOR_IDS positions) 0
                    (DirectTeleop.follower_bus w)) as S.
      destruct (DirectTeleop.set_sdk_loop _ 0 (DirectTeleop.follower_bus w)) as [r b'].
      cbn [snd DirectTeleop.follower_bus DirectTeleop.set_follower_bus] in S |- *.
      rewrite S. reflexivity. }
  unfold Py.bind, Py.ret.
  destruct (DirectTeleop.set_follower_positions positions w) as [r w'].
  cbn [fst snd] in E, W |- *. subst r. cbn [fst snd]. split; [reflexivity | exact W].
Qed.

Lemma status_targets_after_calibration (later readings : list Z) :
  TeleopControl.status_targets later (map (fun l => DirectTeleop.CENTER_POSITION - l) readings)
  = zip_with (fun l r => (l - r + 2048) mod 4096) later readings.
Proof.
  unfold TeleopControl.status_targets, zip_with, DirectTeleop.CENTER_POSITION.
  revert readings. induction later as [| l later IH]; intros [| r readings];
    cbn [map combine fst snd]; try reflexivity.
  rewrite IH. f_equal. f_equal. lia.
Qed.

Lemma zip_with_same (readings : list Z) :
  zip_with (fun l r => (l - r + 2048) mod 4096) readings readings
  = map (fun _ => 2048) readings.
Proof.
  unfold zip_with. induction readings as [| r readings IH];
    cbn [map combine fst snd]; [reflexivity |].
  rewrite IH. f_equal. replace (r - r + 2048) with 2048 by lia. reflexivity.
Qed.

(** X18. [calibrate_offset] always returns six offsets, [2048 - l] for
    each leader reading [l], and stores them in [position_offsets].  With
    these offsets the follower targets of the status line are 2048 for the
    pose the leader was calibrated in, and
    [(later - reading + 2048) mod 4096] for any later reading. *)
Theorem calibrate_offset_centres (w : DirectTeleop.World) :
  exists readings,
    fst (DirectTeleop.read_leader_positions w) = Py.Ok readings
    /\ length readings = 6%nat
    /\ fst (DirectTeleop.calibrate_offset w)
       = Py.Ok (map (fun l => 2048 - l) readings)
    /\ DirectTeleop.position_offsets (snd (DirectTeleop.calibrate_offset w))
       = map (fun l => 2048 - l) readings
    /\ TeleopControl.status_targets readings
         (DirectTeleop.position_offsets (snd (DirectTeleop.calibrate_offset w)))
       = [2048; 2048; 2048; 2048; 2048; 2048]
    /\ (forall later,
          TeleopControl.status_targets later
            (DirectTeleop.position_offsets (snd (DirectTeleop.calibrate_offset w)))
          = zip_with (fun l r => (l - r + 2048) mod 4096) later readings).
Proof.
  pose proof (read_leader_loop_spec DirectTeleop.MOTOR_IDS [] w) as Hr.
  cbv zeta in Hr. fold DirectTeleop.read_leader_positions in Hr.
  cbn [app] in Hr.
  set (readings :=
         map (fun p => leader_entry
                         (sdk_script (DirectTeleop.leader_bus w) (fst p) (snd p)))
           (combine (seq (sdk_calls (DirectTeleop.leader_bus w))
                       (length DirectTeleop.MOTOR_IDS))
              DirectTeleop.MOTOR_IDS)) in Hr.
  assert (L : length readings = 6%nat).
  { unfold readings. rewrite length_map, length_combine, length_seq.
    reflexivity. }
  assert (C : DirectTeleop.calibrate_offset w
              = (Py.Ok (map (fun l => 2048 - l) readings),
                 DirectTeleop.set_position_offsets (map (fun l => 2048 - l) readings)
                   (snd (DirectTeleop.read_leader_positions w)))).
  { unfold DirectTeleop.calibrate_offset. unfold Py.bind at 1.
    destruct (DirectTeleop.read_leader_positions w) as [r w1].
    cbn [fst snd] in Hr |- *. subst r. reflexivity. }
  exists readings. rewrite C.
  cbn [fst snd DirectTeleop.position_offsets DirectTeleop.set_position_offsets].
  split; [exact Hr |]. split; [exact L |]. split; [reflexivity |].
  split; [reflexivity |]. split.
  - change (map (fun l => 2048 - l) readings)
      with (map (fun l => DirectTeleop.CENTER_POSITION - l) readings).
    rewrite status_targets_after_calibration, zip_with_same.
    destruct readings as [| r1 [| r2 [| r3 [| r4 [| r5 [| r6 [| r7 rest]]]]]]];
      try discriminate L. reflexivity.
  - intros later.
    change (map (fun l => 2048 - l) readings)
      with (map (fun l => DirectTeleop.CENTER_POSITION - l) readings).
    apply status_targets_after_calibration.
Qed.

Lemma read_cmd_encode (motor_id : Z) :
  0 <= motor_id < 256 ->
  TeleopControl.read_cmd motor_id = Py.Ok (Codec.encode motor_id 2 [56; 2]).
Proof.
  intros H. unfold TeleopControl.read_cmd. rewrite encode_2. cbv zeta.
  apply bytearray_bytes.
  pose proof (checksum_byte (motor_id + 4 + 2 + 56 + 2)).
  repeat constructor; lia.
Qed.

Lemma parse_position_short (response : list Z) :
  (length response < 8)%nat -> DirectTeleop.parse_position response = None.
Proof.
  intros H. unfold DirectTeleop.parse_position.
  replace (8 <=? Z.of_nat (length response)) with false; [reflexivity |].
  symmetry. apply Z.leb_gt. lia.
Qed.

(** X19. The direct branch of [test_follower_arm] sends the goal write
    and the position request and then parses bytes 5 and 6 of everything
    received since the goal write was sent: the receive buffer is not
    emptied between the two packets.  So when the servo acknowledges the
    goal write with a 6-byte status packet, the position printed is made
    of the checksum of that acknowledgement and the first header byte of
    the reply, not of the position bytes. *)
Theorem test_direct_reads_stale_bytes (motor_id : Z) (s : Serial) :
  0 <= motor_id < 256 ->
  let heard := in_buffer s ++ hd [] (arrivals s) ++ hd [] (tl (arrivals s)) in
  fst (TeleopControl.test_direct motor_id s) = Py.Ok (DirectTeleop.parse_position heard)
  /\ written (snd (TeleopControl.test_direct motor_id s))
     = written s
       ++ [Codec.encode motor_id 3 [42; 0; 8]; Codec.encode motor_id 2 [56; 2]]
  /\ (forall ack reply,
        in_buffer s = [] ->
        hd [] (arrivals s) = ack ->
        hd [] (tl (arrivals s)) = reply ->
        length ack = 6%nat ->
        (2 <= length reply)%nat ->
        fst (TeleopControl.test_direct motor_id s)
        = Py.Ok (Some (Z.shiftl (Py.item reply 0) 8 + Py.item ack 5))).
Proof.
  intros H heard.
  assert (R : exists s',
             TeleopControl.test_direct motor_id s
             = (Py.Ok (DirectTeleop.parse_position heard), s')
             /\ written s'
                = written s
                  ++ [Codec.encode motor_id 3 [42; 0; 8];
                      Codec.encode motor_id 2 [56; 2]]).
  { unfold TeleopControl.test_direct.
    rewrite (goal_command_encode motor_id DirectTeleop.CENTER_POSITION H).
    rewrite (read_cmd_encode motor_id H).
    unfold Py.bind at 1. unfold Py.lift at 1. unfold Py.try_except.
    unfold Py.bind, SerialPort.write, SerialPort.sleep, SerialPort.in_waiting,
      SerialPort.read, Py.modify, Py.ret, Py.lift.
    cbn [in_buffer arrivals written].
    rewrite <- (app_assoc (in_buffer s)). fold heard.
    destruct (Z.of_nat (length heard) =? 0) eqn:E.
    - apply in_waiting_zero in E. rewrite E.
      eexists. split; [reflexivity |]. cbn [written].
      rewrite <- app_assoc. reflexivity.
    - rewrite Nat2Z.id, firstn_all.
      eexists. split; [reflexivity |]. cbn [written].
      rewrite <- app_assoc. reflexivity. }
  destruct R as [s' [E W]]. rewrite E. cbn [fst snd].
  split; [reflexivity |]. split; [exact W |].
  intros ack reply Hbuf Hack Hreply Lack Lreply.
  f_equal. unfold heard. rewrite Hbuf, Hack, Hreply. cbn [app].
  unfold DirectTeleop.parse_position.
  replace (8 <=? Z.of_nat (length (ack ++ reply))) with true
    by (symmetry; apply Z.leb_le; rewrite length_app; lia).
  unfold Py.item. f_equal. f_equal.
  - rewrite app_nth2 by lia. rewrite Lack. reflexivity.
  - rewrite app_nth1 by lia. reflexivity.
Qed.

Lemma test_direct_reads_stale_bytes_witness :
  fst (TeleopControl.test_direct 1
         (mkSerial [] []
            [[255; 255; 1; 2; 0; 252]; [255; 255; 1; 4; 0; 0; 8; 242]]))
  = Py.Ok (Some 65532).
Proof.
  refine (proj2 (proj2 (test_direct_reads_stale_bytes 1
                          (mkSerial [] []
                             [[255; 255; 1; 2; 0; 252];
                              [255; 255; 1; 4; 0; 0; 8; 242]])
                          _))
            [255; 255; 1; 2; 0; 252] [255; 255; 1; 4; 0; 0; 8; 242] _ _ _ _ _).
  - lia.
  - reflexivity.
  - reflexivity.
  - reflexivity.
  - reflexivity.
  - cbn. lia.
Defined.

(** ** The main loop of the direct teleoperation script *)

Lemma unblocked_ret {S A : Type} (a : A) : unblocked (@Py.ret S A a).
Proof.
  intros s. discriminate.
Qed.

Lemma unblocked_bind {S A B : Type} (m : Py.M S A) (f : A -> Py.M S B) :
  unblocked m -> (forall a, unblocked (f a)) -> unblocked (Py.bind m f).
Proof.
  intros Hm Hf s. unfold Py.bind. specialize (Hm s).
  destruct (m s) as [[a | e] s']; [apply Hf |].
  cbn [fst] in Hm |- *. intros E. apply Hm. injection E as ->. reflexivity.
Qed.

Lemma to_int_unblocked (x : num) : to_int x <> Py.Raised Py.Blocked.
Proof.
  destruct x as [z | [sg | sg | | sg m e]]; discriminate.
Qed.

Lemma follower_targets_unblocked (pairs : list (num * Z)) :
  DirectTeleop.follower_targets pairs <> Py.Raised Py.Blocked.
Proof.
  induction pairs as [| [pos offset] rest IH]; cbn [DirectTeleop.follower_targets].
  - discriminate.
  - pose proof (to_int_unblocked pos) as T.
    destruct (to_int pos) as [i | e]; cbn [Py.obind];
      [| intros E; apply T; injection E as ->; reflexivity].
    destruct (DirectTeleop.follower_targets rest) as [l | e]; cbn [Py.obind];
      [discriminate | exact IH].
Qed.

Lemma set_follower_positions_ok (positions : list Z) (w : DirectTeleop.World) :
  exists count, fst (DirectTeleop.set_follower_positions positions w) = Py.Ok count.
Proof.
  rewrite set_follower_positions_branch. destruct (direct_link w) eqn:D.
  - unfold direct_link in D. apply andb_prop in D. destruct D as [_ D].
    destruct (DirectTeleop.follower_serial w) as [s |] eqn:S; [| discriminate D].
    unfold DirectTeleop.on_follower_serial. rewrite S.
    pose proof (set_direct_loop_count (combine DirectTeleop.MOTOR_IDS positions)
                  (combine_ids_bytes positions) 0 s) as C.
    destruct (DirectTeleop.set_direct_loop _ 0 s) as [r s'].
    cbn [fst] in C |- *. eexists. exact C.
  - unfold DirectTeleop.on_follower_bus.
    destruct (set_sdk_loop_count (combine DirectTeleop.MOTOR_IDS positions) 0
                (DirectTeleop.follower_bus w)) as [count [C _]].
    destruct (DirectTeleop.set_sdk_loop _ 0 (DirectTeleop.follower_bus w)) as [r b'].
    cbn [fst] in C |- *. exists count. exact C.
Qed.

Lemma to_float_unblocked (x : num) : to_float x <> Py.Raised Py.Blocked.
Proof.
  destruct x as [z | f]; [| discriminate].
  unfold to_float, Float64.of_int. destruct (Float64.normalize z); discriminate.
Qed.

Lemma ema_unblocked (alpha : Float64.float) (current smoothed : num) :
  ema alpha current smoothed <> Py.Raised Py.Blocked.
Proof.
  unfold ema. pose proof (to_float_unblocked current) as C.
  destruct (to_float current) as [c | e]; cbn [Py.obind];
    [| intros E; apply C; injection E as ->; reflexivity].
  pose proof (to_float_unblocked smoothed) as S.
  destruct (to_float smoothed) as [s | e]; cbn [Py.obind];
    [discriminate | intros E; apply S; injection E as ->; reflexivity].
Qed.

Lemma smooth_unblocked (alpha : Float64.float) (leader smoothed : list num) :
  smooth alpha leader smoothed <> Py.Raised Py.Blocked.
Proof.
  unfold smooth.
  induction (combine leader smoothed) as [| [current previous] rest IH];
    cbn [Py.comprehension fst snd]; [discriminate |].
  pose proof (ema_unblocked alpha current previous) as E.
  destruct (ema alpha current previous) as [y | e]; cbn [Py.obind];
    [| intros H; apply E; injection H as ->; reflexivity].
  destruct (Py.comprehension _ rest) as [ys | e]; cbn [Py.obind];
    [discriminate | exact IH].
Qed.

Lemma position_changed_unblocked (pairs : list (num * num)) :
  DirectTeleop.position_changed pairs <> Py.Raised Py.Blocked.
Proof.
  induction pairs as [| [current previous] rest IH];
    cbn [DirectTeleop.position_changed]; [discriminate |].
  assert (D : num_sub current previous <> Py.Raised Py.Blocked).
  { unfold num_sub.
    pose proof (to_float_unblocked current) as C.
    pose proof (to_float_unblocked previous) as P.
    destruct current as [x | fx], previous as [y | fy]; try discriminate;
      cbn [to_float] in *.
    - destruct (Float64.of_int x) as [c | e]; cbn [Py.obind];
        [discriminate | intros E; apply C; injection E as ->; reflexivity].
    - destruct (Float64.of_int y) as [c | e]; cbn [Py.obind];
        [discriminate | intros E; apply P; injection E as ->; reflexivity]. }
  destruct (num_sub current previous) as [d | e]; cbn [Py.obind];
    [| intros E; apply D; injection E as ->; reflexivity].
  destruct (num_gt (num_abs d) 5); [discriminate | exact IH].
Qed.

Lemma send_if_changed_unblocked (active : bool) (smoothed : list num) :
  unblocked (DirectTeleop.send_if_changed active smoothed).
Proof.
  unfold DirectTeleop.send_if_changed.
  apply unblocked_bind; [intros w; discriminate | intros w'].
  apply unblocked_bind;
    [intros w; apply position_changed_unblocked | intros changed].
  destruct (_ && _); [| apply unblocked_ret].
  apply unblocked_bind; [intros w; apply follower_targets_unblocked | intros fp].
  apply unblocked_bind; [| intros _ w; discriminate].
  intros w. destruct (set_follower_positions_ok fp w) as [count E].
  rewrite E. discriminate.
Qed.

Lemma show_status_unblocked : unblocked DirectTeleop.show_status.
Proof.
  unfold DirectTeleop.show_status.
  apply unblocked_bind; [intros w; discriminate | intros w'].
  destruct (negb _); [| apply unblocked_ret].
  apply unblocked_bind; [intros w; discriminate | intros _; apply unblocked_ret].
Qed.

Lemma read_leader_positions_unblocked : unblocked DirectTeleop.read_leader_positions.
Proof.
  intros w. unfold DirectTeleop.read_leader_positions.
  rewrite read_leader_loop_spec. discriminate.
Qed.

(** X20. With the lock free, one iteration of the main loop of
    so101_direct_teleoperation.py never raises, whatever the SDK, the
    serial port and the smoothing do: the handler of line 636 absorbs
    every exception.  It leaves the lock free and does not change
    [teleoperation_active], [DEBUG_MODE], [DIRECT_MODE] or
    [position_offsets]. *)
Theorem main_iteration_survives (w : DirectTeleop.World) :
  DirectTeleop.lock_holder w = None ->
  let w' := snd (DirectTeleop.main_iteration w) in
  fst (DirectTeleop.main_iteration w) = Py.Ok tt
  /\ DirectTeleop.lock_holder w' = None
  /\ DirectTeleop.teleoperation_active w' = DirectTeleop.teleoperation_active w
  /\ DirectTeleop.DEBUG_MODE w' = DirectTeleop.DEBUG_MODE w
  /\ DirectTeleop.DIRECT_MODE w' = DirectTeleop.DIRECT_MODE w
  /\ DirectTeleop.position_offsets w' = DirectTeleop.position_offsets w.
Proof.
  intros Hlock. cbv zeta.
  assert (Body : forall X (proj : DirectTeleop.World -> X),
             (forall b v, proj (DirectTeleop.set_leader_bus b v) = proj v) ->
             (forall b v, proj (DirectTeleop.set_follower_bus b v) = proj v) ->
             (forall s v, proj (DirectTeleop.set_follower_serial s v) = proj v) ->
             (forall l v, proj (DirectTeleop.set_previous_positions l v) = proj v) ->
             (forall l v, proj (DirectTeleop.set_smoothed_positions l v) = proj v) ->
             (forall l v, proj (DirectTeleop.set_flag_accesses l v) = proj v) ->
             proj (snd (DirectTeleop.main_iteration w)) = proj w).
  { intros X proj H1 H2 H3 H4 H5 H6. unfold DirectTeleop.main_iteration.
    rewrite try_except_proj by (intros e; apply keeps_ret).
    unfold DirectTeleop.main_body.
    unfold Py.bind at 1. rewrite (locked_read w Hlock).
    match goal with
    | |- proj (snd (?m ?w1)) = _ =>
        assert (K : keeps proj m); [| rewrite (K w1); apply H6]
    end.
    apply keeps_bind; [apply keeps_read_leader_positions; exact H1 | intros lp].
    apply keeps_bind; [apply keeps_get | intros v].
    apply keeps_bind; [apply keeps_lift | intros smoothed].
    apply keeps_bind; [apply keeps_modify; intros v'; apply H5 | intros _].
    apply keeps_bind; [apply keeps_send_if_changed; assumption | intros _].
    apply keeps_show_status. exact H6. }
  split; [| split; [rewrite (Body _ DirectTeleop.lock_holder); [exact Hlock | frame ..] |
                      repeat split; apply Body; frame]].
  unfold DirectTeleop.main_iteration, Py.try_except.
  assert (U : fst (DirectTeleop.main_body w) <> Py.Raised Py.Blocked).
  { unfold DirectTeleop.main_body.
    unfold Py.bind at 1. rewrite (locked_read w Hlock).
    match goal with
    | |- fst (?m ?w1) <> _ => assert (K : unblocked m); [| apply K]
    end.
    apply unblocked_bind; [apply read_leader_positions_unblocked | intros lp].
    apply unblocked_bind; [intros v; discriminate | intros v].
    apply unblocked_bind; [intros v'; apply smooth_unblocked | intros smoothed].
    apply unblocked_bind; [intros v'; discriminate | intros _].
    apply unblocked_bind; [apply send_if_changed_unblocked | intros _].
    apply show_status_unblocked. }
  destruct (DirectTeleop.main_body w) as [[[] | e] w1]; cbn [fst] in U |- *.
  - reflexivity.
  - destruct e; cbn [Py.is_exception]; try reflexivity. contradiction.
Qed.

Lemma main_iteration_survives_witness :
  fst (DirectTeleop.main_iteration (loop_entry 1000)) = Py.Ok tt.
Proof.
  refine (proj1 (main_iteration_survives (loop_entry 1000) _)).
  reflexivity.
Defined.

(** ** so101_teleoperation.py: reading and moving without a net *)

Lemma teleop_read_step (motor_id : Z) (rest positions : list Z) (b : SdkBus) :
  answers b (sdk_calls b) motor_id ->
  Teleop.read_motor_positions (motor_id :: rest) positions b
  = Teleop.read_motor_positions rest
      (positions ++ [leader_entry (sdk_script b (sdk_calls b) motor_id)])
      (after_read b).
Proof.
  unfold answers. intros H. cbn [Teleop.read_motor_positions].
  unfold Py.bind at 1. unfold Sdk.read2ByteTxRx, Sdk.transmit. fold (after_read b).
  destruct (sdk_script b (sdk_calls b) motor_id) as [value result error | code];
    [| contradiction].
  cbn [fst snd leader_entry]. unfold Py.bind at 1.
  destruct (result =? Sdk.COMM_SUCCESS) eqn:R; [reflexivity |].
  destruct H as [H | H]; [apply Z.eqb_neq in R; contradiction |].
  unfold Py.bind, Sdk.getTxRxResult, Py.ret.
  cbn [after_read sdk_msg_raises]. rewrite H. reflexivity.
Qed.

Lemma teleop_read_raises (motor_id code : Z) (rest positions : list Z) (b : SdkBus) :
  sdk_script b (sdk_calls b) motor_id = SdkRaise code ->
  Teleop.read_motor_positions (motor_id :: rest) positions b
  = (Py.Raised (Py.SdkError code), after_read b).
Proof.
  intros H. cbn [Teleop.read_motor_positions].
  unfold Py.bind at 1. unfold Sdk.read2ByteTxRx, Sdk.transmit. rewrite H. reflexivity.
Qed.

(** X21. [read_motor_positions] of so101_teleoperation.py has no
    handler: when no SDK call raises it returns one entry per motor, the
    value read or 2048 for a failed read, as [read_leader_positions] of
    the direct script does; but when the SDK raises on the read of a
    motor, the exception propagates and no list is returned. *)
Theorem read_motor_positions_no_fallback (ids positions : list Z) (b : SdkBus) :
  ((forall i motor_id, nth_error ids i = Some motor_id ->
      answers b (sdk_calls b + i) motor_id) ->
   fst (Teleop.read_motor_positions ids positions b)
   = Py.Ok (positions
            ++ map (fun p => leader_entry (sdk_script b (fst p) (snd p)))
                 (combine (seq (sdk_calls b) (length ids)) ids)))
  /\ (forall i motor_id code,
        nth_error ids i = Some motor_id ->
        (forall j earlier, (j < i)%nat -> nth_error ids j = Some earlier ->
           answers b (sdk_calls b + j) earlier) ->
        sdk_script b (sdk_calls b + i) motor_id = SdkRaise code ->
        fst (Teleop.read_motor_positions ids positions b)
        = Py.Raised (Py.SdkError code)).
Proof.
  revert positions b. induction ids as [| first rest IH]; intros positions b.
  - split.
    + intros _. cbn. rewrite app_nil_r. reflexivity.
    + intros i motor_id code E. destruct i; discriminate E.
  - assert (Scr : forall n id, answers (after_read b) n id = answers b n id)
      by reflexivity.
    split.
    + intros H.
      rewrite teleop_read_step
        by (specialize (H 0%nat first eq_refl); rewrite Nat.add_0_r in H; exact H).
      destruct (IH (positions ++ [leader_entry (sdk_script b (sdk_calls b) first)])
                  (after_read b)) as [IH1 _].
      rewrite IH1.
      * cbn [after_read sdk_script sdk_calls length seq combine map fst snd].
        rewrite <- app_assoc. reflexivity.
      * intros i motor_id E. rewrite Scr. cbn [after_read sdk_calls].
        replace (S (sdk_calls b) + i)%nat with (sdk_calls b + S i)%nat by lia.
        apply H. exact E.
    + intros i motor_id code E Hearlier Hraise. destruct i as [| i].
      * cbn in E. injection E as ->. rewrite Nat.add_0_r in Hraise.
        rewrite (teleop_read_raises _ _ _ _ _ Hraise). reflexivity.
      * rewrite teleop_read_step.
        -- destruct (IH (positions ++ [leader_entry (sdk_script b (sdk_calls b) first)])
                       (after_read b)) as [_ IH2].
           apply (IH2 i motor_id code E).
           ++ intros j earlier Hj Ej. rewrite Scr. cbn [after_read sdk_calls].
              replace (S (sdk_calls b) + j)%nat with (sdk_calls b + S j)%nat by lia.
              apply Hearlier; [lia | exact Ej].
           ++ cbn [after_read sdk_script sdk_calls].
              replace (S (sdk_calls b) + i)%nat with (sdk_calls b + S i)%nat by lia.
              exact Hraise.
        -- specialize (Hearlier 0%nat first ltac:(lia) eq_refl).
           rewrite Nat.add_0_r in Hearlier. exact Hearlier.
Qed.

Lemma read_motor_positions_no_fallback_witness :
  fst (Teleop.read_motor_positions Teleop.MOTOR_IDS [] (steady_bus 1000))
  = Py.Ok [1000; 1000; 1000; 1000; 1000; 1000]
  /\ fst (Teleop.read_motor_positions Teleop.MOTOR_IDS []
            (mkSdkBus (fun _ _ => SdkRaise 7) (fun _ => false) 0 []))
     = Py.Raised (Py.SdkError 7).
Proof.
  split.
  - refine (proj1 (read_motor_positions_no_fallback Teleop.MOTOR_IDS []
                     (steady_bus 1000)) _).
    intros i motor_id E. left. reflexivity.
  - refine (proj2 (read_motor_positions_no_fallback Teleop.MOTOR_IDS []
                     (mkSdkBus (fun _ _ => SdkRaise 7) (fun _ => false) 0 []))
              0%nat 1 7 _ _ _).
    + reflexivity.
    + intros j earlier Hj. lia.
    + reflexivity.
Defined.



